(* ===== verification/_CoqProject ===== *)
-Q . S2P
Prelude.v
PyRuntime.v
Attr.v
Registry.v
HookV3.v
LoaderV1.v
DatapkgV1.v
SingletonV2.v
Scheduler.v
CachedProperty.v
Concurrency.v
ConcurrencyV2.v
ConcurrencyV1.v
Variants.v
