(* ===== verification/Prelude.v ===== *)
(** * datapkg: a verification development of lazy, memoized dataset access

    The repository (gvwilson/datapkg) gives three designs of one idea: a
    Python package whose attributes [machines] and [persons] are tables read
    from CSV files under the resource package [data], loaded on the first
    read and cached for the rest of the process.

    - Version 1, [src/datapkg/package.py] and [src/datapkg/__init__.py]: a
      class [_Loader(BaseDatasetLoader)] declares one
      [functools.cached_property] per dataset; the package body ends with
      [_Loader.install(__name__)], which creates the loader instance,
      collects the dataset names ([discover_cached_properties] over
      [inspect.getmembers]) and calls [create_lazy_package]: the package is
      replaced in [sys.modules] by a [LazyModule] whose [__getattr__]
      forwards every name its [__dict__] lacks to the loader.
    - Version 2, [src/v2/datapkg/__init__.py]: a class [_loader] with the
      same cached properties, calling the module's [_load_csv], and the
      singleton [datapkg = _loader()] that clients read directly.
    - Version 3, [src/v3/datapkg/__init__.py]: a module-level [__getattr__]
      (PEP 562) over the dict [AVAILABLE] of [{"filename", "cached"}] slots.

    ** Files

    - [Prelude.v] (this file): the state-and-exception monad [SE] with the
      notations [let*], [raise], [return] in [se_scope]; the hint databases
      [datapkg] (computation lemmas, used by [py_run]) and [datapkg_rw];
      occurrence counting, string and sorting lemmas.
    - [PyRuntime.v]: the interpreter state [world] (heap of objects,
      [sys.modules], the resource files, standard output, and the trace
      [w_loads] of loader calls), the primitive operations the code performs
      ([d[k]], [d[k] = v], [k in d], global lookup, allocation, [print]),
      the loader boundary [read_csv_resource] and the example processes.
    - [Attr.v]: Python's attribute lookup, modelled from CPython 3.12
      (not code of the repository), in the order of the generic
      [PyObject_GenericGetAttr]: a data descriptor of the type
      ([__class__], [__dict__], a module's [__annotations__], which
      creates [{}] in the module's [__dict__] on first read), then the
      instance's or module's [__dict__], then the other attributes of the
      type's MRO, then the fallback: [module_getattro] ends in the PEP 562
      [__getattr__] of the module's [__dict__] (version 3) or the class's
      [__getattr__] ([LazyModule], version 1); [object_getattribute] ends
      in [AttributeError]; [cached_property_get] is
      [functools.cached_property.__get__].  The type dictionaries of
      [object], [types.ModuleType] and [LazyModule] are listed in full.
    - [Registry.v]: spec section 4.1 as the reference [reg_get] over an
      explicit cache, and the interface [LazyNamespace] (a [Class]): an
      access operation, the abstraction of the state to the registry's
      cache, a representation invariant, the loader, and one law per branch
      of [get].  Section [Generic] proves the shared theorems once against
      the interface.
    - [HookV3.v], Module [V3]: version 3.  [v3_exec] is the module body,
      [__getattr__] the hook with every global read and subscript in
      CPython's evaluation order, [_load_csv] the loader.  The invariant
      [repr] ties a [layout] (module, [AVAILABLE], one dict per dataset) to
      the filled slots; [cache_of] reads the slots back.
    - [LoaderV1.v], Module [Package]: [package.py] — [LazyModule_init],
      [LazyModule_getattr] (with the exception chaining), [create_lazy_package],
      [load_csv], [discover_cached_properties], [install].
    - [DatapkgV1.v], Module [V1]: [__init__.py] — [_Loader] and the module
      body [v1_exec]; the invariant [repr1] ties the [LazyModule] and the
      loader instance, whose [__dict__] ([loader_slots]) is the cache.
    - [SingletonV2.v], Module [V2]: version 2 — [_loader], [_load_csv],
      [v2_exec]; the invariant [repr2]; the cache is the instance
      [__dict__] ([inst_slots]).

    - [Scheduler.v]: threads over the shared [world], generic in the
      positions a thread can be at: a thread is a name and its position,
      [step] runs one atomic segment of any thread, [run_schedule] runs a
      given schedule (sound for [step]) and [run_alone] one thread alone.
      Section [Termination]: when each segment lowers its thread's rank,
      [step] is strongly normalising ([step_sn], stdpp's [sn]) and, when
      only finished threads have no segment, every normal form has all
      threads finished ([nf_step_final], [step_finishes]).
    - [Concurrency.v], Module [Interleaving]: version 3 under threads.
      [__getattr__] cut into the segments between which another thread can
      run ([seg_entry], [seg_load], [seg_store], [seg_return]).
    - [CachedProperty.v], Module [CachedProp]: reads that end in
      [functools.cached_property] (versions 1 and 2), cut into the lookup
      up to [__get__]'s cache check, the call of the decorated function,
      and the store in the instance [__dict__]; a thread carries the
      [except AttributeError] handler of the frame it reads in.  The class
      [CPPackage] is what a version promises (a pure lookup, a store and a
      loader that keep its invariant, injective paths); Section [Bound]
      proves against it that [k] readers load a dataset at most [k] times,
      Section [Termination] that every interleaving ends.
    - [ConcurrencyV2.v], Module [Interleaving2]: version 2 under threads
      ([seg_lookup]: [v2_access] up to the cache check; instance [v2_cp]).
    - [ConcurrencyV1.v], Module [Interleaving1]: version 1 under threads
      ([seg_lookup1]: [getattr] on the [LazyModule], then its
      [__getattr__], whose [except] clause [Package.LazyModule_except] the
      thread carries; instance [v1_cp]).

    - [Variants.v], Module [Variants]: the three versions compared through
      the generic agreement theorem of [Registry.v] (Section [Agree]).

    Each variant file proves the laws of [LazyNamespace] for its access
    operation ([v1_namespace], [v2_namespace], [v3_namespace]) and
    instantiates the generic theorems.

    ** What the theorems show

    - Refinement: every access to a declared name, or to a name plain
      attribute lookup does not resolve, returns what [reg_get] returns on
      the abstracted cache, and leaves the same cache, loader trace and
      output ([v1_refines_registry], [v2_refines_registry],
      [v3_refines_registry]).
    - Agreement (spec section 4.2): imported into the same process, the
      three versions answer every sequence of reads of declared datasets
      with the same successes and loader exceptions and read the same
      files in the same order ([v1_v3_agree], [v2_v3_agree]).
    - Exactly-once loading: over any sequence of reads, a dataset read at
      least once with no failed read is loaded exactly once, counted on the
      trace of loader calls; versions 1 and 2 also print its "loading" line
      exactly once.  Order: when no load fails, the trace of a run is
      exactly the sources of the datasets whose slot was empty, each once,
      in the order of their first read, and so is the output of versions 1
      and 2 ([reads_load_in_first_order], from [Registry.run_load_order]
      over [Registry.first_misses]); its witness reads an empty
      [persons.csv], which is cached like any table since version 3 tests
      [is None], not truthiness.  All successful reads of a name return the same heap
      object.  A failed load stores nothing and the next read loads again.
    - Errors: a name that neither the module (or instance) nor its type
      binds raises each variant's own [AttributeError] and changes
      nothing; loader failures pass through unchanged.  Names the type
      binds ([__class__], [__dict__], [__dir__], ...) never reach the
      hook, as in CPython.
    - Types (spec section 3, [get] returns a table): in every version,
      reads of declared datasets return references to lists of rows of
      strings ([PyRuntime.is_table]), keep the cache holding tables and the
      heap well formed ([PyRuntime.heap_wf]) ([reads_return_tables],
      through the law [ln_load_heap] and [Registry.run_typed]).
    - Round trip: [create_lazy_package] copies the original module's
      globals into the [LazyModule], and each reads back unchanged through
      [datapkg.name] ([create_lazy_package_roundtrip]); an original global
      [_loader] thereby replaces the [LazyModule]'s loader
      ([lazy_module_loader_shadowed]).
    - Import: each module body establishes its invariant with an empty
      cache, without reading a file; [discover_cached_properties] is
      specified exactly (the non-underscore cached properties of the MRO,
      each once).
    - Threads (all three versions): the segments compose back to the
      sequential read (lemmas [run_thread_getattr], [run_alone_v2_access],
      [run_alone_v1_access], which justify the cut); every interleaving
      keeps the invariant (version 3: at the same layout, emptying no slot
      and keeping [sys.modules], the files and the module's globals: only
      the slots are written, [interleavings_keep_invariant]); [k] readers
      cause at most [k] loads ([concurrent_loads_bounded],
      [concurrent_loads_bounded_v2], [concurrent_loads_bounded_v1]); and two
      readers can cause two loads and receive two different lists
      ([concurrent_double_load], [concurrent_double_load_v2],
      [concurrent_double_load_v1]), against spec sections 5 and 8.  The
      step relations are strongly normalising, with at most four (version
      3) or three (versions 1 and 2) segments per thread, and their normal
      forms have every thread finished (lemmas [interleavings_terminate],
      [threads_finish] and their counterparts in the other files).
    - Findings: after [import datapkg] and any reads, in any process,
      version 3 exposes [DATA_DIR] and [AVAILABLE], the live table of
      slots ([v3_module_globals_resolve]), and a client can empty a slot
      through it, after which the next read loads again
      ([v3_client_resets_slot]); both are stated from the import
      ([v3_reached]), so they depend on the module body [v3_exec];
      a client can fill a slot of version 2 by assignment
      ([v2_client_fills_slot]) and empty it by [del]
      ([v2_client_deletes_slot]); version 3 prints nothing when it loads;
      version 1 exposes the loader's own attributes ([DATA_DIR],
      [load_csv], [install]) through the [LazyModule], its [__all__] makes
      [from datapkg import *] right after the import load every dataset in
      [__all__]'s order, or stop at the first missing file
      ([v1_star_import_loads_all], in any process), and [load_csv] ignores
      a subclass's [DATA_DIR].
    - Scenarios (spec section 8) are evaluated by [vm_compute] on concrete
      processes ([example_world], [broken_world]).

    ** Bounds and termination

    No definition needs fuel: the operations are not recursive, except
    [build_available] and the lookups over lists ([mro_lookup],
    [assoc_lookup]), which recurse structurally, and [run_accesses], which
    runs a finite list of reads.  [run_alone] takes fuel: four segments
    are enough for a thread of version 3 to finish ([run_thread_getattr]),
    three for one of versions 1 and 2 ([run_alone_v1_access],
    [run_alone_v2_access]); these bounds are the ranks of
    [Scheduler.Termination], whose sum over the threads bounds the length
    of every interleaving; interleavings are the reflexive-transitive
    closure of [step].  Object
    identities are [nat] (the heap grows without bound, as CPython's
    does); the code has no fixed-width arithmetic.

    ** Not modelled

    - Interleavings finer than the segments.  Interleavings are taken at
      segment granularity: every interleaving of the model is one of
      CPython, so the races it exhibits are real; the invariants and the
      bounds are proved for this granularity.  Within a segment, the
      operations other than the one read or write of a cache slot touch
      state that no thread writes (the module and the structure of
      [AVAILABLE] or of the instance, fixed by the invariant) or that only
      grows (the trace of loads, standard output, fresh heap identities),
      so a finer interleaving changes at most the order of those appends
      and which identities are allocated.  For version 3 the premise is a
      theorem: every interleaving keeps the layout, the module's globals,
      [AVAILABLE] and each entry's filename ([interleavings_keep_invariant],
      [frame_same]), so those reads give the same value wherever a switch
      falls; the reordering itself (moving the reads to their segment's
      slot access, and renaming fresh identities) is not a theorem.
    - The CSV grammar and the resolution of [importlib.resources] paths
      (spec section 4.3 leaves them to the collaborator): a resource is
      missing, malformed or a list of rows.
    - The values of type attributes other than the data descriptors: a
      method found on the type reads as a bound method [VMethod], whose
      call is not modelled; the getset descriptors [__dict__] and
      [__weakref__] of classes are listed but only [__class__] and
      [__dict__] are given values ([__weakref__] reads as [None]).
    - Of the client operations besides reads, only four are modelled, each
      to state a finding: [datapkg.AVAILABLE[n]["cached"] = None]
      (version 3), [datapkg.n = v] and [del datapkg.n] on the singleton
      (version 2, [object.__setattr__] and [object.__delattr__] on a name
      bound to a non-data descriptor) and [from datapkg import *] (version
      1).  [del] on the modules of versions 1 and 3, [dir] and [vars] are
      not modelled.
    - A [LazyModule] without [_loader] in its [__dict__] recurses until
      [RecursionError]; the invariant excludes it, and the model raises
      [SystemError] there. *)

From stdpp Require Import base gmap strings list sorting.

(** ** Results and the state-and-exception monad *)

(** A computation either returns a value or raises an exception; the state
    it has changed is kept in both cases (Python does not roll back side
    effects such as a [print] executed before the exception). *)
Inductive result (E A : Type) : Type :=
| Ok (a : A)
| Err (e : E).
Arguments Ok {E A} a.
Arguments Err {E A} e.

Definition SE (S E A : Type) : Type := S -> result E A * S.

Section StateExc.
Context {S E : Type}.

Definition se_ret {A} (a : A) : SE S E A := fun s => (Ok a, s).
Definition se_raise {A} (e : E) : SE S E A := fun s => (Err e, s).
Definition se_bind {A B} (c : SE S E A) (k : A -> SE S E B) : SE S E B :=
  fun s => match c s with
           | (Ok a, s') => k a s'
           | (Err e, s') => (Err e, s')
           end.
Definition se_get : SE S E S := fun s => (Ok s, s).
Definition se_modify (f : S -> S) : SE S E unit := fun s => (Ok tt, f s).
(** [try: c except: ...] turned into a value: the caller inspects it. *)
Definition se_try {A} (c : SE S E A) : SE S E (result E A) :=
  fun s => let '(r, s') := c s in (Ok r, s').

(** [try: c except E as e: h(e)] *)
Definition se_catch {A} (c : SE S E A) (h : E -> SE S E A) : SE S E A :=
  fun s => match c s with
           | (Err e, s') => h e s'
           | r => r
           end.

End StateExc.

(** ** Counting occurrences in a trace *)

(** The number of times [x] occurs in [l]. *)
Definition occurrences {A} `{EqDecision A} (x : A) (l : list A) : nat :=
  length (filter (fun y => y = x) l).

(** ** Python string helpers *)

(** [name.startswith("_")] *)
Definition startswith_underscore (name : string) : bool := String.prefix "_" name.

(** Python orders [str] by code points; on ASCII names this is the
    lexicographic order [String.leb]. *)
Definition str_le (s t : string) : Prop := String.leb s t = true.

#[export] Instance str_le_dec : RelDecision str_le.
Proof. intros s t. unfold str_le. apply _. Defined.

#[export] Instance str_le_total : Total str_le.
Proof. intros s t. unfold str_le. apply String.leb_total. Qed.

(** [sorted(names)]: a stable sort by name. *)
Definition sort_names (l : list string) : list string := merge_sort str_le l.

(** ** Notations of the monad *)

Declare Scope se_scope.
Delimit Scope se_scope with se.
Notation "'let*' x ':=' c 'in' k" := (se_bind c (fun x => k))
  (at level 10, x name, c at level 100, k at level 200,
   format "'[' 'let*'  x  ':='  c  'in' ']' '//' k") : se_scope.
Notation "'raise' e" := (se_raise e) (at level 10, e at level 9) : se_scope.
Notation "'return' a" := (se_ret a) (at level 10, a at level 9) : se_scope.

(** ** Computation lemmas of the monad *)

Section StateExcLemmas.
Context {S E : Type}.

Lemma se_ret_ok {A} (a : A) (s : S) : se_ret (E := E) a s = (Ok a, s).
Proof. done. Qed.

Lemma se_bind_ok {A B} (c : SE S E A) (k : A -> SE S E B) s a s' :
  c s = (Ok a, s') -> se_bind c k s = k a s'.
Proof. intros Hc. unfold se_bind. by rewrite Hc. Qed.

Lemma se_bind_err {A B} (c : SE S E A) (k : A -> SE S E B) s e s' :
  c s = (Err e, s') -> se_bind c k s = (Err e, s').
Proof. intros Hc. unfold se_bind. by rewrite Hc. Qed.

Lemma se_catch_ok {A} (c : SE S E A) (h : E -> SE S E A) s a s' :
  c s = (Ok a, s') -> se_catch c h s = (Ok a, s').
Proof. intros Hc. unfold se_catch. by rewrite Hc. Qed.

Lemma se_catch_err {A} (c : SE S E A) (h : E -> SE S E A) s e s' :
  c s = (Err e, s') -> se_catch c h s = h e s'.
Proof. intros Hc. unfold se_catch. by rewrite Hc. Qed.

Lemma se_bind_assoc {A B C} (c : SE S E A) (k1 : A -> SE S E B)
      (k2 : B -> SE S E C) s :
  se_bind (se_bind c k1) k2 s = se_bind c (fun a => se_bind (k1 a) k2) s.
Proof. unfold se_bind. by destruct (c s) as [[a|e] s']. Qed.
End StateExcLemmas.

(** ** Hint database of the development *)

Create HintDb datapkg discriminated.
Create Rewrite HintDb datapkg_rw.

#[export] Hint Resolve se_ret_ok : datapkg.

(** Unfolds the monad in a goal so that [simpl] can run a computation. *)
Ltac se_unfold :=
  unfold se_bind, se_ret, se_raise, se_get, se_modify, se_try, se_catch in *.

(** ** Lemmas on occurrences *)

Section Occurrences.
Context {A : Type} `{EqDecision A}.

Lemma occurrences_nil (x : A) : occurrences x [] = 0.
Proof. done. Qed.

Lemma occurrences_app (x : A) l1 l2 :
  occurrences x (l1 ++ l2) = occurrences x l1 + occurrences x l2.
Proof. unfold occurrences. by rewrite filter_app, length_app. Qed.

Lemma occurrences_singleton_eq (x : A) : occurrences x [x] = 1.
Proof. unfold occurrences. by rewrite filter_cons_True. Qed.

Lemma occurrences_singleton_ne (x y : A) : y <> x -> occurrences x [y] = 0.
Proof. intros Hne. unfold occurrences. by rewrite filter_cons_False. Qed.
End Occurrences.

Lemma occurrences_map_inj {A B} `{EqDecision A} `{EqDecision B} (h : A -> B) (a : A) (l : list A) :
  (forall x y, h x = h y -> x = y) -> occurrences (h a) (map h l) = occurrences a l.
Proof.
  intros Hinj. induction l as [|x l IH]; [done|]. simpl.
  rewrite (occurrences_app _ [h x] (map h l)), (occurrences_app _ [x] l), IH.
  destruct (decide (x = a)) as [->|Hne].
  - by rewrite !occurrences_singleton_eq.
  - rewrite !occurrences_singleton_ne; [done|done|]. intros Heq. by apply Hne, Hinj.
Qed.

(** Replacing the element [y] at [i] by [x] changes the number of
    elements a test accepts by the tests of [x] and [y]. *)
Lemma length_filter_insert {A} (P : A -> bool) (l : list A) i x y :
  l !! i = Some y ->
  length (List.filter P (<[i := x]> l)) + (if P y then 1 else 0) =
  length (List.filter P l) + (if P x then 1 else 0).
Proof.
  revert i. induction l as [|z l IH]; intros [|i] Hi; simplify_eq/=.
  - destruct (P x), (P y); simpl; lia.
  - specialize (IH i Hi). destruct (P z); simpl; lia.
Qed.

(** The same for a sum over the list. *)
Lemma sum_list_with_insert {A} (f : A -> nat) (l : list A) i x y :
  l !! i = Some y -> sum_list_with f (<[i := x]> l) + f y = sum_list_with f l + f x.
Proof. revert i. induction l as [|z l IH]; intros [|i] Hi; simplify_eq/=; [lia|]. specialize (IH i Hi). lia. Qed.

Lemma sum_list_with_replicate {A} (f : A -> nat) k x : sum_list_with f (replicate k x) = k * f x.
Proof. induction k as [|k IH]; simpl; [done|]. rewrite IH. lia. Qed.

Lemma sum_list_with_le {A} (f : A -> nat) b (l : list A) :
  (forall x, f x <= b) -> sum_list_with f l <= b * length l.
Proof. intros Hb. induction l as [|x l IH]; simpl; [lia|]. specialize (Hb x). lia. Qed.

Lemma concat_map_nil {A B} (l : list A) : concat (map (fun _ => @nil B) l) = [].
Proof. by induction l. Qed.

Lemma concat_map_singleton {A B} (h : A -> B) (l : list A) :
  concat (map (fun x => [h x]) l) = map h l.
Proof. induction l; simpl; by f_equal. Qed.

Lemma string_app_inj (p x y : string) : (p +:+ x)%string = (p +:+ y)%string -> x = y.
Proof. induction p as [|c p IH]; simpl; [done|]. intros H. injection H. auto. Qed.

#[export] Hint Rewrite @occurrences_nil @occurrences_app
  @occurrences_singleton_eq : datapkg_rw.

(** ** Sorting names *)

Lemma sort_names_sorted l : Sorted str_le (sort_names l).
Proof. apply Sorted_merge_sort. apply _. Qed.

Lemma sort_names_perm l : sort_names l ≡ₚ l.
Proof. apply merge_sort_Permutation. Qed.

Lemma elem_of_sort_names x l : x ∈ sort_names l <-> x ∈ l.
Proof. by rewrite sort_names_perm. Qed.
