(* ===== verification/PyRuntime.v ===== *)
(** * The fragment of the Python runtime that datapkg runs on

    Values, heap objects, exceptions and the interpreter state ([world]) that
    the three variants of datapkg share, with the operations the source
    performs on them: allocation of a fresh list, [d[k]], [d[k] = v],
    [k in d], global lookup, [print], and the external loader boundary
    [resources.files(pkg).joinpath(f).open("r")] followed by [csv.reader]
    (a black box, spec section 4.3: a missing resource raises, a malformed
    one raises, a present one yields its rows).  Attribute lookup on modules
    and instances, and [functools.cached_property], are in [Attr.v]. *)

From stdpp Require Import base gmap strings list.
From S2P Require Import Prelude.
Local Open Scope se_scope.

(** ** Values, objects and exceptions *)

(** A heap reference is an object identity ([id(x)] in Python). *)
Definition oid := nat.

Inductive pyval :=
| VNone
| VStr (s : string)
| VStrList (l : list string)            (** a list of [str] ([__all__]) *)
| VRef (r : oid)                        (** a mutable heap object *)
| VFunc (qualname : string)             (** a function defined by the code *)
| VClass (qualname : string)            (** a class defined by the code *)
| VExt (what : string)                  (** an object of a library the code imports *)
| VMethod (self : oid) (fname : string) (** a bound method *)
| VClassMethod (cls fname : string)     (** a classmethod bound to its class *)
| VDictOf (r : oid).                    (** [r.__dict__], the namespace of a module or instance *)

#[export] Instance pyval_eq_dec : EqDecision pyval.
Proof. solve_decision. Defined.

(** The two module types the code uses: [types.ModuleType] and its subclass
    [LazyModule] of [src/datapkg/package.py]. *)
Inductive modtype := ModuleType | LazyModuleType.

#[export] Instance modtype_eq_dec : EqDecision modtype.
Proof. solve_decision. Defined.

Inductive obj :=
| OTable (rows : list (list string))          (** [list] of rows of [str] *)
| ODict (d : gmap string pyval)               (** a [dict] with [str] keys *)
| OInst (cls : string) (d : gmap string pyval) (** an instance and its [__dict__] *)
| OModule (ty : modtype) (d : gmap string pyval). (** a module and its [__dict__] *)

#[warnings="-register-all"]
Inductive exc :=
| AttributeError (msg : string) (cause : option exc) (** [raise ... from cause] *)
| KeyError (key : string)
| NameError (name : string)
| TypeError (msg : string)
| SystemError (msg : string)   (** interpreter state inconsistent *)
| ModuleNotFoundError (name : string)
| FileNotFoundError (path : string)
| CsvError (path : string) (detail : string).

(** A backing resource: well-formed CSV text (given by the rows [csv.reader]
    yields for it) or text on which [csv.reader] raises [csv.Error]. *)
Inductive resource :=
| CsvFile (rows : list (list string))
| Malformed (detail : string).

(** ** The interpreter state *)

Record world := mkWorld {
  w_packages : gset string;        (** importable packages ([resources.files]) *)
  w_files : gmap string resource;  (** resource files, by ["pkg/filename"] *)
  w_heap : gmap oid obj;
  w_next : oid;                    (** the next fresh object identity *)
  w_modules : gmap string oid;     (** [sys.modules] *)
  w_stdout : list string;          (** lines written by [print] *)
  w_loads : list string            (** every call of the external loader, by path *)
}.

Definition with_files (fs : gmap string resource) (w : world) : world :=
  mkWorld (w_packages w) fs (w_heap w) (w_next w) (w_modules w) (w_stdout w) (w_loads w).
Definition with_heap (h : gmap oid obj) (w : world) : world :=
  mkWorld (w_packages w) (w_files w) h (w_next w) (w_modules w) (w_stdout w) (w_loads w).
Definition with_next (n : oid) (w : world) : world :=
  mkWorld (w_packages w) (w_files w) (w_heap w) n (w_modules w) (w_stdout w) (w_loads w).
Definition with_modules (m : gmap string oid) (w : world) : world :=
  mkWorld (w_packages w) (w_files w) (w_heap w) (w_next w) m (w_stdout w) (w_loads w).
Definition with_stdout (o : list string) (w : world) : world :=
  mkWorld (w_packages w) (w_files w) (w_heap w) (w_next w) (w_modules w) o (w_loads w).
Definition with_loads (l : list string) (w : world) : world :=
  mkWorld (w_packages w) (w_files w) (w_heap w) (w_next w) (w_modules w) (w_stdout w) l.

(** Computations of the interpreter. *)
Abbreviation PyM := (SE world exc).

(** ** Heap operations *)

Definition deref (r : oid) : PyM obj :=
  fun w => match w_heap w !! r with
           | Some o => (Ok o, w)
           | None => (Err (SystemError "dangling reference"), w)
           end.

(** Overwrite an object in place (the mutation of a [dict] or [__dict__]). *)
Definition heap_store (r : oid) (o : obj) : PyM unit :=
  se_modify (fun w => with_heap (<[r := o]> (w_heap w)) w).

(** Allocation of a new object at a fresh identity. *)
Definition alloc (o : obj) : PyM oid :=
  fun w => (Ok (w_next w),
            with_next (S (w_next w)) (with_heap (<[w_next w := o]> (w_heap w)) w)).

Definition print (line : string) : PyM unit :=
  se_modify (fun w => with_stdout (w_stdout w ++ [line]) w).

(** ** Dictionaries: [d[k]], [d[k] = v], [k in d] *)

Definition not_subscriptable : exc := TypeError "object is not subscriptable".

Definition dict_of (v : pyval) : PyM (gmap string pyval) :=
  match v with
  | VRef r => let* o := deref r in
              match o with
              | ODict d => return d
              | _ => raise not_subscriptable
              end
  | _ => raise not_subscriptable
  end.

Definition dict_getitem (v : pyval) (k : string) : PyM pyval :=
  let* d := dict_of v in
  match d !! k with
  | Some x => return x
  | None => raise (KeyError k)
  end.

Definition dict_contains (v : pyval) (k : string) : PyM bool :=
  let* d := dict_of v in return (bool_decide (is_Some (d !! k))).

Definition dict_setitem (v : pyval) (k : string) (x : pyval) : PyM unit :=
  let* d := dict_of v in
  match v with
  | VRef r => heap_store r (ODict (<[k := x]> d))
  | _ => raise not_subscriptable
  end.

(** ** Modules: [__dict__] and global names *)

Definition module_dict (m : oid) : PyM (gmap string pyval) :=
  let* o := deref m in
  match o with
  | OModule _ d => return d
  | _ => raise (TypeError "not a module")
  end.

(** [m.k = v], or [k = v] in the body of module [m]: a store in its
    [__dict__] (neither module type defines [__setattr__]). *)
Definition module_store (m : oid) (k : string) (v : pyval) : PyM unit :=
  let* o := deref m in
  match o with
  | OModule ty d => heap_store m (OModule ty (<[k := v]> d))
  | _ => raise (TypeError "not a module")
  end.

(** [str(v)] for the values the f-strings of the code format. *)
Definition str_of (v : pyval) : string :=
  match v with
  | VStr s => s
  | VNone => "None"
  | _ => "<object>"
  end.

(** A global name read by the code of module [m] (builtins are not used). *)
Definition global_get (m : oid) (name : string) : PyM pyval :=
  let* d := module_dict m in
  match d !! name with
  | Some v => return v
  | None => raise (NameError name)
  end.

(** [import pkg] once the package has been imported: [sys.modules[pkg]]. *)
Definition import_module (pkg : string) : PyM oid :=
  fun w => match w_modules w !! pkg with
           | Some m => (Ok m, w)
           | None => (Err (ModuleNotFoundError pkg), w)
           end.

(** ** The external loader boundary *)

Definition resource_path (pkg file : string) : string := pkg +:+ "/" +:+ file.

(** [with resources.files(pkg).joinpath(file).open("r") as stream:
       rows = [r for r in csv.reader(stream)]]
    without the allocation of the list [rows] (done by the caller).  Every
    call is recorded in [w_loads], the instrumentation of spec section 8. *)
Definition read_csv_resource (pkg file : string) : PyM (list (list string)) :=
  fun w =>
    let p := resource_path pkg file in
    let w' := with_loads (w_loads w ++ [p]) w in
    if decide (pkg ∈ w_packages w) then
      match w_files w !! p with
      | None => (Err (FileNotFoundError p), w')
      | Some (Malformed detail) => (Err (CsvError p detail), w')
      | Some (CsvFile rows) => (Ok rows, w')
      end
    else (Err (ModuleNotFoundError pkg), w').

(** The loader as the code calls it, [loadTable(sourceId)] of spec 4.3:
    read the rows of [pkg/file] and return them as a new list. *)
Definition load_table (pkg file : string) : PyM pyval :=
  let* rows := read_csv_resource pkg file in
  let* r := alloc (OTable rows) in
  return (VRef r).

(** A loader that announces itself: [print(f"loading {filename}")], then
    the rows of [pkg/filename] as a new list.  Version 1's
    [BaseDatasetLoader.load_csv] and version 2's [_load_csv] run it. *)
Definition load_logged (pkg file : string) : PyM pyval :=
  let* _ := print ("loading " +:+ file) in
  load_table pkg file.

(** [w1] differs from [w] only by fresh objects, the loader trace and the
    output: the objects allocated in [w] and [sys.modules] are unchanged. *)
Definition heap_ext (w w1 : world) : Prop :=
  w_modules w1 = w_modules w /\ w_next w <= w_next w1 /\
  forall r, r < w_next w -> w_heap w1 !! r = w_heap w !! r.

(** [w1] has the resource files and packages of [w]: the code never
    writes them. *)
Definition same_env (w w1 : world) : Prop :=
  w_files w = w_files w1 /\ w_packages w = w_packages w1.

(** The exception an outcome carries, if any. *)
Definition raised {A} (r : result exc A) : option exc :=
  match r with Ok _ => None | Err e => Some e end.

(** ** The type of a dataset

    Spec section 3: a table is a sequence of rows of text fields.  In the
    process it is a reference to a list object of rows ([OTable]).  The
    heap is well formed when no object lies at or beyond the next fresh
    identity; it grows from [w] to [w1] when it stays well formed and keeps
    every table of [w]. *)
Definition is_table (w : world) (v : pyval) : Prop :=
  exists r rows, v = VRef r /\ w_heap w !! r = Some (OTable rows).

Definition heap_wf (w : world) : Prop := forall r : oid, w_next w <= r -> w_heap w !! r = None.

Definition heap_grows (w w1 : world) : Prop :=
  heap_wf w1 /\ forall r rows, w_heap w !! r = Some (OTable rows) -> w_heap w1 !! r = Some (OTable rows).

(** A decision procedure for [heap_wf], for concrete states. *)
Definition heap_wfb (w : world) : bool :=
  bool_decide (map_Forall (fun r _ => r < w_next w) (w_heap w)).

(** ** Process states the examples start from *)

(** A process state in which the package is importable: the resource
    package [data] holds [machines.csv] (the rows of the scenario of spec
    section 8) and [persons.csv]. *)
Definition example_files : gmap string resource :=
  <["data/machines.csv" := CsvFile [["id"; "type"]; ["1"; "drill"]]]>
  (<["data/persons.csv" := CsvFile [["id"; "name"]; ["1"; "Ada"]]]> ∅).

Definition example_world : world := mkWorld {["data"]} example_files ∅ 0 ∅ [] [].

(** The same process with [machines.csv] missing. *)
Definition broken_world : world :=
  mkWorld {["data"]} (delete "data/machines.csv" example_files) ∅ 0 ∅ [] [].

(** ** Computation lemmas for the primitives *)

Lemma deref_ok w r o : w_heap w !! r = Some o -> deref r w = (Ok o, w).
Proof. intros H. unfold deref. by rewrite H. Qed.

Lemma module_dict_ok w m ty d :
  w_heap w !! m = Some (OModule ty d) -> module_dict m w = (Ok d, w).
Proof. intros H. unfold module_dict. by rewrite (se_bind_ok _ _ _ _ _ (deref_ok w m _ H)). Qed.

Lemma global_get_ok w m ty d k v :
  w_heap w !! m = Some (OModule ty d) -> d !! k = Some v -> global_get m k w = (Ok v, w).
Proof.
  intros H Hk. unfold global_get.
  rewrite (se_bind_ok _ _ _ _ _ (module_dict_ok w m ty d H)). by rewrite Hk.
Qed.

Lemma dict_of_ok w r D : w_heap w !! r = Some (ODict D) -> dict_of (VRef r) w = (Ok D, w).
Proof. intros H. unfold dict_of. by rewrite (se_bind_ok _ _ _ _ _ (deref_ok w r _ H)). Qed.

Lemma dict_getitem_ok w r D k x :
  w_heap w !! r = Some (ODict D) -> D !! k = Some x -> dict_getitem (VRef r) k w = (Ok x, w).
Proof.
  intros H Hk. unfold dict_getitem. rewrite (se_bind_ok _ _ _ _ _ (dict_of_ok w r D H)).
  by rewrite Hk.
Qed.

Lemma dict_contains_ok w r D k :
  w_heap w !! r = Some (ODict D) ->
  dict_contains (VRef r) k w = (Ok (bool_decide (is_Some (D !! k))), w).
Proof. intros H. unfold dict_contains. by rewrite (se_bind_ok _ _ _ _ _ (dict_of_ok w r D H)). Qed.

Lemma dict_setitem_ok w r D k x :
  w_heap w !! r = Some (ODict D) ->
  dict_setitem (VRef r) k x w = (Ok tt, with_heap (<[r := ODict (<[k := x]> D)]> (w_heap w)) w).
Proof. intros H. unfold dict_setitem. by rewrite (se_bind_ok _ _ _ _ _ (dict_of_ok w r D H)). Qed.

Lemma print_bind {A} line (k : unit -> PyM A) w :
  se_bind (print line) k w = k tt (with_stdout (w_stdout w ++ [line]) w).
Proof. done. Qed.

Lemma import_module_ok w pkg m : w_modules w !! pkg = Some m -> import_module pkg w = (Ok m, w).
Proof. intros H. unfold import_module. by rewrite H. Qed.

#[export] Hint Resolve deref_ok module_dict_ok global_get_ok dict_of_ok dict_getitem_ok
  dict_contains_ok dict_setitem_ok import_module_ok : datapkg.

(** Runs the first step of a computation whose result the hypotheses give. *)
Ltac py_step :=
  cbv beta iota; repeat rewrite se_bind_assoc;
  lazymatch goal with
  | |- se_bind ?c ?k ?w = _ => erewrite (se_bind_ok c k w) by (eauto with datapkg); cbv beta
  end.

(** Runs a computation to its end as far as the hypotheses give each step. *)
Ltac py_run := repeat py_step; try solve [eauto with datapkg].

(** ** The loader boundary *)

Lemma load_table_trace pkg f w :
  w_loads (load_table pkg f w).2 = w_loads w ++ [resource_path pkg f].
Proof.
  unfold load_table, read_csv_resource. se_unfold. simpl.
  case_decide; [destruct (w_files w !! _) as [[]|]|]; done.
Qed.

Lemma load_table_ext pkg f w : heap_ext w (load_table pkg f w).2.
Proof.
  unfold load_table, read_csv_resource, heap_ext. se_unfold. simpl.
  case_decide; [destruct (w_files w !! _) as [[]|]|]; simpl;
    split_and!; auto; intros r Hr; rewrite ?lookup_insert_ne; auto; lia.
Qed.

Lemma load_table_ok pkg f w v w1 :
  load_table pkg f w = (Ok v, w1) ->
  v = VRef (w_next w) /\ w_next w < w_next w1 /\ w_stdout w1 = w_stdout w.
Proof.
  unfold load_table, read_csv_resource. se_unfold. simpl.
  case_decide; [destruct (w_files w !! _) as [[]|]|]; simpl; intros; simplify_eq; simpl; auto.
Qed.

Lemma load_table_stdout pkg f w : w_stdout (load_table pkg f w).2 = w_stdout w.
Proof.
  unfold load_table, read_csv_resource. se_unfold. simpl.
  case_decide; [destruct (w_files w !! _) as [[]|]|]; done.
Qed.

Lemma resource_path_inj pkg x y : resource_path pkg x = resource_path pkg y -> x = y.
Proof. unfold resource_path. intros H. by do 2 apply string_app_inj in H. Qed.

(** The loader raises only the exceptions of the resource boundary. *)
Lemma load_table_err pkg f w e w1 :
  load_table pkg f w = (Err e, w1) ->
  e = FileNotFoundError (resource_path pkg f) \/
  (exists d, e = CsvError (resource_path pkg f) d) \/ e = ModuleNotFoundError pkg.
Proof.
  unfold load_table, read_csv_resource. se_unfold. simpl.
  case_decide; [destruct (w_files w !! _) as [[]|]|]; simpl; intros; simplify_eq; eauto.
Qed.

Lemma load_table_env pkg f w : same_env (load_table pkg f w).2 w.
Proof.
  unfold load_table, read_csv_resource, same_env. se_unfold. simpl.
  case_decide; [destruct (w_files w !! _) as [[]|]|]; done.
Qed.

Lemma load_logged_env pkg f w : same_env (load_logged pkg f w).2 w.
Proof.
  unfold load_logged. rewrite print_bind.
  destruct (load_table_env pkg f (with_stdout (w_stdout w ++ ["loading " +:+ f]) w)). by split.
Qed.

Lemma load_logged_ext pkg f w : heap_ext w (load_logged pkg f w).2.
Proof.
  unfold load_logged. rewrite print_bind.
  destruct (load_table_ext pkg f (with_stdout (w_stdout w ++ ["loading " +:+ f]) w))
    as (Hm & Hn & Hh).
  split_and!; auto.
Qed.

Lemma load_logged_trace pkg f w :
  w_loads (load_logged pkg f w).2 = w_loads w ++ [resource_path pkg f].
Proof. unfold load_logged. rewrite print_bind, load_table_trace. done. Qed.

Lemma load_logged_log pkg f w : w_stdout (load_logged pkg f w).2 = w_stdout w ++ ["loading " +:+ f].
Proof. unfold load_logged. rewrite print_bind, load_table_stdout. done. Qed.

(** A resource that is present and well formed loads; a missing one
    raises [FileNotFoundError]. *)
Lemma load_logged_present pkg f w rows :
  pkg ∈ w_packages w -> w_files w !! resource_path pkg f = Some (CsvFile rows) ->
  exists v w', load_logged pkg f w = (Ok v, w').
Proof.
  intros Hp Hf. unfold load_logged. rewrite print_bind.
  unfold load_table, read_csv_resource. se_unfold. simpl. rewrite decide_True by done.
  rewrite Hf. eauto.
Qed.

Lemma load_logged_missing pkg f w :
  pkg ∈ w_packages w -> w_files w !! resource_path pkg f = None ->
  exists w', load_logged pkg f w = (Err (FileNotFoundError (resource_path pkg f)), w').
Proof.
  intros Hp Hf. unfold load_logged. rewrite print_bind.
  unfold load_table, read_csv_resource. se_unfold. simpl. rewrite decide_True by done.
  rewrite Hf. eauto.
Qed.

(** In particular a failed load is never an [AttributeError], which an
    attribute lookup that catches [AttributeError] would rewrite. *)
Lemma load_logged_err_not_attr pkg f w e w1 msg c :
  load_logged pkg f w = (Err e, w1) -> e <> AttributeError msg c.
Proof.
  unfold load_logged. rewrite print_bind. intros Hl.
  destruct (load_table_err _ _ _ _ _ Hl) as [->|[[d ->]| ->]]; discriminate.
Qed.

Lemma same_env_sym w w1 : same_env w w1 -> same_env w1 w.
Proof. by intros [? ?]. Qed.

Lemma same_env_trans w w1 w2 : same_env w w1 -> same_env w1 w2 -> same_env w w2.
Proof. intros [? ?] [? ?]. split; congruence. Qed.

(** Whether the loader fails, and how, depends only on the files. *)
Lemma load_table_raised pkg f w w' :
  same_env w w' -> raised (load_table pkg f w).1 = raised (load_table pkg f w').1.
Proof.
  intros [Hf Hp]. unfold load_table, read_csv_resource. se_unfold. simpl.
  rewrite Hf, Hp. case_decide; [destruct (w_files w' !! _) as [[]|]|]; done.
Qed.

Lemma load_logged_raised pkg f w w' :
  same_env w w' -> raised (load_logged pkg f w).1 = raised (load_table pkg f w').1.
Proof.
  intros Henv. unfold load_logged. rewrite print_bind. apply load_table_raised.
  destruct Henv. by split.
Qed.

(** ** Tables and the growth of the heap *)

Lemma heap_grows_refl w : heap_wf w -> heap_grows w w.
Proof. by split. Qed.

Lemma heap_grows_trans w w1 w2 : heap_grows w w1 -> heap_grows w1 w2 -> heap_grows w w2.
Proof. intros [_ H1] [Hwf H2]. split; [done|]. intros r rows Hr. by apply H2, H1. Qed.

Lemma is_table_grows w w1 v : heap_grows w w1 -> is_table w v -> is_table w1 v.
Proof. intros [_ Hk] (r & rows & -> & Hr). exists r, rows. split; [done|]. by apply Hk. Qed.

Lemma heap_wfb_spec w : heap_wfb w = true -> heap_wf w.
Proof.
  unfold heap_wfb. intros Hb%bool_decide_eq_true_1 r Hr.
  destruct (w_heap w !! r) as [o|] eqn:Ho; [|done]. pose proof (Hb r o Ho). simpl in *. lia.
Qed.

(** The loader allocates a fresh table and overwrites nothing. *)
Lemma load_table_heap pkg f w :
  heap_wf w -> heap_grows w (load_table pkg f w).2 /\
  forall v, (load_table pkg f w).1 = Ok v -> is_table (load_table pkg f w).2 v.
Proof.
  intros Hwf. unfold load_table, read_csv_resource, alloc. se_unfold. simpl.
  case_decide; [destruct (w_files w !! _) as [[]|]|]; simpl;
    (split; [split|]); try done; try (intros v [= <-]; eexists _, _; split; [done|apply lookup_insert_eq]).
  - intros r Hr. simpl in *. rewrite lookup_insert_ne by lia. apply Hwf. lia.
  - intros r rows' Hr. simpl. rewrite lookup_insert_ne; [done|]. intros <-.
    pose proof (Hwf _ (Nat.le_refl _)) as Hn. simpl in Hn. congruence.
Qed.

Lemma load_logged_heap pkg f w :
  heap_wf w -> heap_grows w (load_logged pkg f w).2 /\
  forall v, (load_logged pkg f w).1 = Ok v -> is_table (load_logged pkg f w).2 v.
Proof. intros Hwf. unfold load_logged. rewrite print_bind. exact (load_table_heap pkg f (with_stdout (w_stdout w ++ ["loading " +:+ f]) w) Hwf). Qed.

(** A store into an object that is not a table keeps every table. *)
Lemma store_grows w e o o' :
  heap_wf w -> w_heap w !! e = Some o -> (forall rows, o <> OTable rows) ->
  heap_grows w (with_heap (<[e := o']> (w_heap w)) w).
Proof.
  intros Hwf He Ho. split; simpl.
  - intros r Hr. simpl in *. rewrite lookup_insert_ne; [by apply Hwf|]. intros ->.
    by rewrite (Hwf _ Hr) in He.
  - intros r rows Hr. simpl. rewrite lookup_insert_ne; [done|]. intros ->. rewrite He in Hr.
    injection Hr as ->. by apply (Ho rows).
Qed.
