(* ===== verification/Attr.v ===== *)
(** * Attribute lookup and [functools.cached_property]

    The part of Python's object model through which every variant of
    datapkg is reached, in the order of CPython's generic attribute
    lookup: a data descriptor found on the type's MRO ([__class__],
    [__dict__], and a module's [__annotations__], which stores a fresh
    [{}] in the module's [__dict__] when it has none), then the module's
    or instance's [__dict__], then the other type attributes (methods,
    classmethods, plain class data, cached properties), then the fallback:
    for a module ([module_getattro]) the PEP 562 [__getattr__] of its
    [__dict__] (version 3) or the [__getattr__] of its class
    ([LazyModule], version 1); for an instance ([object_getattribute])
    [AttributeError].  [functools.cached_property] (versions 1 and 2) is a
    non-data descriptor whose [__get__] computes the value once and stores
    it in the instance [__dict__].  The dictionaries of [object],
    [types.ModuleType] and [LazyModule] are listed in full.  The code here
    is Python's, not the repository's (except [LazyModule_dict], the body
    of [class LazyModule]): it is modelled from CPython 3.12. *)

From stdpp Require Import base gmap strings list.
From S2P Require Import Prelude PyRuntime.
Local Open Scope se_scope.

(** ** Messages of [AttributeError] raised by the interpreter *)

Definition module_name_of (d : gmap string pyval) : option string :=
  match d !! "__name__" with
  | Some (VStr s) => Some s
  | _ => None
  end.

Definition module_attr_error_msg (modname : option string) (name : string) : string :=
  match modname with
  | Some s => "module '" +:+ s +:+ "' has no attribute '" +:+ name +:+ "'"
  | None => "module has no attribute '" +:+ name +:+ "'"
  end.

Definition object_attr_error_msg (cls name : string) : string :=
  "'" +:+ cls +:+ "' object has no attribute '" +:+ name +:+ "'".

(** [except AttributeError as e: h(e)]; other exceptions propagate. *)
Definition catch_attribute_error {A} (c : PyM A) (h : exc -> PyM A) : PyM A :=
  se_catch c (fun e => match e with
                       | AttributeError _ _ => h e
                       | _ => raise e
                       end).

(** ** Classes and instances *)

(** A class attribute as the code declares it. [MCachedProperty f] is
    [@cached_property def name(self): ...] with body [f self]; [MDescr] is
    a data descriptor of a built-in type (a getset or member slot such as
    [object.__class__] or a class's [__dict__]), which attribute lookup
    consults before the instance [__dict__]. *)
Inductive member :=
| MCachedProperty (func : oid -> PyM pyval)
| MFunction
| MClassMethod
| MData (v : pyval)
| MDescr.

(** A class: its name and the [__dict__] of each class of its MRO, the class
    itself first. *)
Record pyclass := mkClass {
  cls_name : string;
  cls_mro : list (list (string * member))
}.

(** [vars(object)] in CPython 3.12, the root of every MRO: [__class__] is
    a data descriptor, [__init_subclass__] and [__subclasshook__] are
    classmethods, [__doc__] a string, the others methods. *)
Definition object_dict : list (string * member) :=
  [("__class__", MDescr); ("__delattr__", MFunction); ("__dir__", MFunction);
   ("__doc__", MData (VStr "The base class of the class hierarchy."));
   ("__eq__", MFunction); ("__format__", MFunction); ("__ge__", MFunction);
   ("__getattribute__", MFunction); ("__getstate__", MFunction); ("__gt__", MFunction);
   ("__hash__", MFunction); ("__init__", MFunction); ("__init_subclass__", MClassMethod);
   ("__le__", MFunction); ("__lt__", MFunction); ("__ne__", MFunction);
   ("__new__", MFunction); ("__reduce__", MFunction); ("__reduce_ex__", MFunction);
   ("__repr__", MFunction); ("__setattr__", MFunction); ("__sizeof__", MFunction);
   ("__str__", MFunction); ("__subclasshook__", MClassMethod)].

Fixpoint assoc_lookup {A} (k : string) (l : list (string * A)) : option A :=
  match l with
  | [] => None
  | (k', a) :: l' => if String.eqb k k' then Some a else assoc_lookup k l'
  end.

(** The class attribute [getattr(cls, name)] resolves to. *)
Fixpoint mro_lookup (k : string) (mro : list (list (string * member))) : option member :=
  match mro with
  | [] => None
  | d :: rest =>
      match assoc_lookup k d with
      | Some m => Some m
      | None => mro_lookup k rest
      end
  end.

(** ** Modules *)

(** [vars(types.ModuleType)] in CPython 3.12: the member [__dict__] and
    the getset [__annotations__] are data descriptors. *)
Definition moduletype_dict : list (string * member) :=
  [("__new__", MFunction); ("__repr__", MFunction); ("__getattribute__", MFunction);
   ("__setattr__", MFunction); ("__delattr__", MFunction); ("__init__", MFunction);
   ("__dir__", MFunction); ("__dict__", MDescr); ("__annotations__", MDescr);
   ("__doc__", MData (VStr "Create a module object."))].

(** The body of [class LazyModule(types.ModuleType)] of
    [src/datapkg/package.py] (lines 9-43): its docstring, kept verbatim
    with its indentation as CPython 3.12 stores it, and two methods; the
    base already gives instances a [__dict__]. *)
Definition LazyModule_dict : list (string * member) :=
  [("__module__", MData (VStr "datapkg.package"));
   ("__doc__", MData (VStr "A module that lazily loads datasets when attributes are accessed.
    
    This custom module replaces the original module and forwards attribute
    access to a loader instance.
    "));
   ("__init__", MFunction); ("__getattr__", MFunction)].

Definition modtype_name (ty : modtype) : string :=
  match ty with ModuleType => "module" | LazyModuleType => "LazyModule" end.

(** The MRO of a module's type. *)
Definition modtype_mro (ty : modtype) : list (list (string * member)) :=
  match ty with
  | ModuleType => [moduletype_dict; object_dict]
  | LazyModuleType => [LazyModule_dict; moduletype_dict; object_dict]
  end.

(** The data descriptors of a module's type: [type(m)], [m.__dict__], and
    [m.__annotations__], which creates an empty dict in the module's
    [__dict__] when there is none (CPython's [module_get_annotations]). *)
Definition module_descr_get (m : oid) (ty : modtype) (d : gmap string pyval) (name : string)
    : PyM pyval :=
  if String.eqb name "__class__" then return (VClass (modtype_name ty))
  else if String.eqb name "__dict__" then return (VDictOf m)
  else if String.eqb name "__annotations__" then
    match d !! "__annotations__" with
    | Some v => return v
    | None =>
        let* r := alloc (ODict ∅) in
        let* _ := module_store m "__annotations__" (VRef r) in
        return (VRef r)
    end
  else return VNone.

Section ModuleAttr.
(** How the code calls a function object with one argument. *)
Context (call1 : pyval -> pyval -> PyM pyval).

(** [ModuleType.__getattribute__] (CPython's [module_getattro]): the
    generic lookup (a data descriptor of the type, then the module
    [__dict__], then the other attributes of the type), then a
    [__getattr__] function found in the [__dict__], else
    [AttributeError]. *)
Definition module_getattro (m : oid) (name : string) : PyM pyval :=
  let* o := deref m in
  match o with
  | OModule ty d =>
      match mro_lookup name (modtype_mro ty) with
      | Some MDescr => module_descr_get m ty d name
      | found =>
          match d !! name with
          | Some v => return v
          | None =>
              match found with
              | Some MFunction => return (VMethod m name)
              | Some MClassMethod => return (VClassMethod (modtype_name ty) name)
              | Some (MData v) => return v
              | _ =>
                  match d !! "__getattr__" with
                  | Some f => call1 f (VStr name)
                  | None => raise (AttributeError (module_attr_error_msg (module_name_of d) name) None)
                  end
              end
          end
      end
  | _ => raise (TypeError "not a module")
  end.
End ModuleAttr.

(** ** Instances *)

Definition inst_dict (self : oid) : PyM (string * gmap string pyval) :=
  let* o := deref self in
  match o with
  | OInst c d => return (c, d)
  | _ => raise (TypeError "not an instance")
  end.

(** [instance.__dict__[k] = v] *)
Definition inst_dict_set (self : oid) (k : string) (v : pyval) : PyM unit :=
  let* cd := inst_dict self in
  heap_store self (OInst cd.1 (<[k := v]> cd.2)).

(** [del instance.k] for a name the class does not bind to a data
    descriptor ([object.__delattr__]): [k] leaves the instance [__dict__];
    a missing [k] raises [AttributeError]. *)
Definition inst_dict_del (self : oid) (k : string) : PyM unit :=
  let* cd := inst_dict self in
  match cd.2 !! k with
  | Some _ => heap_store self (OInst cd.1 (delete k cd.2))
  | None => raise (AttributeError (object_attr_error_msg cd.1 k) None)
  end.

(** [functools.cached_property.__get__(self, instance)] for the property
    named [attrname] with body [func]:
    [val = cache.get(attrname, _NOT_FOUND)]; on a miss
    [val = self.func(instance); cache[attrname] = val]; [return val].
    An exception of [func] propagates and nothing is stored. *)
Definition cached_property_get (attrname : string) (func : oid -> PyM pyval)
    (instance : oid) : PyM pyval :=
  let* cd := inst_dict instance in
  match cd.2 !! attrname with
  | Some v => return v
  | None =>
      let* v := func instance in
      let* _ := inst_dict_set instance attrname v in
      return v
  end.

(** [C.name] on a class: the class attribute along the MRO (a data
    descriptor reads back as the descriptor object; the metaclass is not
    consulted). *)
Definition class_getattr (c : pyclass) (name : string) : PyM pyval :=
  match mro_lookup name (cls_mro c) with
  | Some (MData v) => return v
  | Some MDescr => return (VExt "getset_descriptor")
  | Some _ => return (VFunc (cls_name c +:+ "." +:+ name))
  | None => raise (AttributeError ("type object '" +:+ cls_name c +:+
                                   "' has no attribute '" +:+ name +:+ "'") None)
  end.

(** The data descriptors an instance [self] of [c] reaches:
    [self.__class__], [self.__dict__] and [self.__weakref__] (no weak
    reference is ever taken). *)
Definition instance_descr_get (self : oid) (c : pyclass) (name : string) : pyval :=
  if String.eqb name "__class__" then VClass (cls_name c)
  else if String.eqb name "__dict__" then VDictOf self
  else VNone.

Section InstanceAttr.
(** [type(obj)]: the classes of the program, by name. *)
Context (class_of : string -> option pyclass).

(** [object.__getattribute__(self, name)]: a data descriptor of the class,
    else the instance [__dict__], else the class attribute. *)
Definition object_getattribute (self : oid) (name : string) : PyM pyval :=
  let* cd := inst_dict self in
  match class_of cd.1 with
  | None => raise (SystemError "unknown class")
  | Some c =>
      match mro_lookup name (cls_mro c) with
      | Some MDescr => return (instance_descr_get self c name)
      | found =>
          match cd.2 !! name with
          | Some v => return v
          | None =>
              match found with
              | Some (MCachedProperty f) => cached_property_get name f self
              | Some MFunction => return (VMethod self name)
              | Some MClassMethod => return (VClassMethod (cls_name c) name)
              | Some (MData v) => return v
              | _ => raise (AttributeError (object_attr_error_msg (cls_name c) name) None)
              end
          end
      end
  end.
(** [getattr(v, name)] for a value the code holds as an instance. *)
Definition getattr_object (v : pyval) (name : string) : PyM pyval :=
  match v with
  | VRef r => object_getattribute r name
  | _ => raise (AttributeError (object_attr_error_msg "object" name) None)
  end.
End InstanceAttr.

(** ** Lemmas *)


(** Lookups in class dictionaries find what the dictionaries hold. *)
Lemma assoc_lookup_elem_of {A} k (l : list (string * A)) :
  is_Some (assoc_lookup k l) <-> k ∈ map fst l.
Proof.
  induction l as [|[k' a] l IH]; simpl.
  - split; [by intros []|intros Hk; by apply not_elem_of_nil in Hk].
  - rewrite elem_of_cons, <- IH.
    destruct (String.eqb_spec k k') as [->|Hne]; [split; eauto|].
    split; [auto|intros [->|?]; [congruence|done]].
Qed.

Lemma assoc_lookup_in {A} k (l : list (string * A)) a :
  assoc_lookup k l = Some a -> (k, a) ∈ l.
Proof.
  induction l as [|[k' a'] l IH]; simpl; [done|].
  destruct (String.eqb_spec k k') as [->|_]; intros H.
  - simplify_eq. apply list_elem_of_here.
  - apply list_elem_of_further. auto.
Qed.

Lemma mro_lookup_in k mro m : mro_lookup k mro = Some m -> (k, m) ∈ concat mro.
Proof.
  induction mro as [|d mro IH]; simpl; [done|].
  rewrite elem_of_app. destruct (assoc_lookup k d) eqn:Hd; intros H.
  - simplify_eq. left. by apply assoc_lookup_in.
  - right. auto.
Qed.

Lemma mro_lookup_elem_of k mro :
  is_Some (mro_lookup k mro) <-> k ∈ concat (map (map fst) mro).
Proof.
  induction mro as [|d mro IH]; simpl.
  - split; [by intros []|intros Hk; by apply not_elem_of_nil in Hk].
  - rewrite elem_of_app, <- IH, <- assoc_lookup_elem_of.
    destruct (assoc_lookup k d); split; eauto; intros [Hx|Hx]; eauto; by destruct Hx.
Qed.

(** No module type binds a cached property. *)
Lemma modtype_no_cached ty n f : mro_lookup n (modtype_mro ty) <> Some (MCachedProperty f).
Proof.
  intros H. apply mro_lookup_in in H.
  assert (Forall (fun p => match p.2 with MCachedProperty _ => False | _ => True end)
                 (concat (modtype_mro ty))) as Hall by (destruct ty; repeat constructor).
  by apply (Forall_forall _ _) with (x := (n, MCachedProperty f)) in Hall.
Qed.

(** The data descriptors of the module types. *)
Lemma modtype_descr_names ty n :
  mro_lookup n (modtype_mro ty) = Some MDescr ->
  n = "__class__" \/ n = "__dict__" \/ n = "__annotations__".
Proof.
  intros H. apply mro_lookup_in in H.
  assert (Forall (fun p => match p.2 with
                           | MDescr => p.1 = "__class__" \/ p.1 = "__dict__" \/ p.1 = "__annotations__"
                           | _ => True end) (concat (modtype_mro ty))) as Hall
    by (destruct ty; repeat constructor; auto).
  by apply (Forall_forall _ _) with (x := (n, MDescr)) in Hall.
Qed.

(** The state after [m.__annotations__] on a module [m] of type [ty]
    whose [__dict__] [d] has no [__annotations__]: a fresh empty dict,
    stored in [d]. *)
Definition module_annotate (m : oid) (ty : modtype) (d : gmap string pyval) (w : world) : world :=
  with_heap (<[m := OModule ty (<["__annotations__" := VRef (w_next w)]> d)]>
               (<[w_next w := ODict ∅]> (w_heap w)))
            (with_next (S (w_next w)) w).

Section ModuleLemmas.
Context (call1 : pyval -> pyval -> PyM pyval) (m : oid) (w : world) (ty : modtype).
Context (d : gmap string pyval).
Hypothesis Hm : w_heap w !! m = Some (OModule ty d).

Lemma module_getattro_miss n :
  d !! n = None -> mro_lookup n (modtype_mro ty) = None -> d !! "__getattr__" = None ->
  module_getattro call1 m n w =
  (Err (AttributeError (module_attr_error_msg (module_name_of d) n) None), w).
Proof. intros Hn Ht Hg. unfold module_getattro. py_step. cbv iota. by rewrite Ht, Hn, Hg. Qed.

Lemma module_getattro_hook n f :
  d !! n = None -> mro_lookup n (modtype_mro ty) = None -> d !! "__getattr__" = Some f ->
  module_getattro call1 m n w = call1 f (VStr n) w.
Proof. intros Hn Ht Hg. unfold module_getattro. py_step. cbv iota. by rewrite Ht, Hn, Hg. Qed.

(** A name in the module [__dict__] that the type does not bind to a data
    descriptor reads back from the [__dict__]. *)
Lemma module_getattro_hit n v :
  d !! n = Some v -> mro_lookup n (modtype_mro ty) <> Some MDescr ->
  module_getattro call1 m n w = (Ok v, w).
Proof.
  intros Hn Ht. unfold module_getattro. py_step. cbv iota.
  destruct (mro_lookup n (modtype_mro ty)) as [[]|]; try done; by rewrite Hn.
Qed.

(** A global of the module reads back unless its name is [__class__] or
    [__dict__], which the type's data descriptors answer ([__annotations__]
    reads the [__dict__] when it holds it). *)
Lemma module_getattro_global n v :
  d !! n = Some v -> n <> "__class__" -> n <> "__dict__" ->
  module_getattro call1 m n w = (Ok v, w).
Proof.
  intros Hn Hc Hd. destruct (mro_lookup n (modtype_mro ty)) as [[f| | |x|]|] eqn:Ht;
    try (apply (module_getattro_hit n v Hn); by rewrite Ht).
  unfold module_getattro. py_step. cbv iota. rewrite Ht. unfold module_descr_get.
  destruct (modtype_descr_names ty n Ht) as [Hx|[Hx|Hx]]; subst n; [done|done|]. simpl. by rewrite Hn.
Qed.

(** Every lookup on a module either ends in the [__getattr__] hook or the
    [AttributeError] of an absent name, or returns without a change of
    state, or is the first read of [__annotations__]. *)
(** Every lookup on a module either ends in the [__getattr__] hook or the
    [AttributeError] of an absent name, or returns without a change of
    state, or is the first read of [__annotations__]. *)
Lemma module_getattro_cases n :
  m <> w_next w ->
  (d !! n = None /\ mro_lookup n (modtype_mro ty) = None /\
   module_getattro call1 m n w =
     match d !! "__getattr__" with
     | Some f => call1 f (VStr n) w
     | None => (Err (AttributeError (module_attr_error_msg (module_name_of d) n) None), w)
     end) \/
  (exists v, module_getattro call1 m n w = (Ok v, w)) \/
  (n = "__annotations__" /\ d !! n = None /\
   module_getattro call1 m n w = (Ok (VRef (w_next w)), module_annotate m ty d w)).
Proof.
  intros Hfresh. remember (module_getattro call1 m n w) as r eqn:Hr.
  unfold module_getattro in Hr. rewrite (se_bind_ok _ _ _ _ _ (deref_ok _ _ _ Hm)) in Hr.
  cbv beta iota in Hr.
  destruct (mro_lookup n (modtype_mro ty)) as [[f| | |v|]|] eqn:Ht.
  - by destruct (modtype_no_cached ty n f).
  - right; left. destruct (d !! n); eauto.
  - right; left. destruct (d !! n); eauto.
  - right; left. destruct (d !! n); eauto.
  - unfold module_descr_get in Hr.
    destruct (String.eqb_spec n "__class__"); [eauto|].
    destruct (String.eqb_spec n "__dict__"); [eauto|].
    destruct (String.eqb_spec n "__annotations__") as [->|]; [|eauto].
    destruct (d !! "__annotations__") eqn:Ha; [eauto|]. do 2 right. split_and!; [done|done|].
    rewrite Hr. unfold module_store, alloc, heap_store, deref, se_modify. se_unfold. simpl.
    by rewrite lookup_insert_ne, Hm by done.
  - destruct (d !! n) eqn:Hn; [eauto|]. left. split_and!; [done|done|].
    rewrite Hr. destruct (d !! "__getattr__"); done.
Qed.
End ModuleLemmas.

(** [object.__getattribute__] on an instance [self] of class [c], by the
    branch it takes. *)
Section InstanceLemmas.
Context (cls_of : string -> option pyclass) (self : oid) (cn : string) (c : pyclass).
Context (d : gmap string pyval) (w : world).
Hypothesis Hinst : w_heap w !! self = Some (OInst cn d).
Hypothesis Hcls : cls_of cn = Some c.

Lemma inst_dict_ok : inst_dict self w = (Ok (cn, d), w).
Proof. unfold inst_dict. py_run. Qed.

#[local] Hint Resolve inst_dict_ok : datapkg.

Lemma object_getattribute_hit n v :
  d !! n = Some v -> mro_lookup n (cls_mro c) <> Some MDescr ->
  object_getattribute cls_of self n w = (Ok v, w).
Proof.
  intros Hn Hd. unfold object_getattribute. py_step. cbn [fst snd]. rewrite Hcls.
  destruct (mro_lookup n (cls_mro c)) as [[]|]; try done; by rewrite Hn.
Qed.

(** A data descriptor of the class comes before the instance [__dict__]. *)
Lemma object_getattribute_descr n :
  mro_lookup n (cls_mro c) = Some MDescr ->
  object_getattribute cls_of self n w = (Ok (instance_descr_get self c n), w).
Proof. intros Hm. unfold object_getattribute. py_step. cbn [fst snd]. by rewrite Hcls, Hm. Qed.

Lemma object_getattribute_unknown n :
  d !! n = None -> mro_lookup n (cls_mro c) = None ->
  object_getattribute cls_of self n w =
  (Err (AttributeError (object_attr_error_msg (cls_name c) n) None), w).
Proof.
  intros Hn Hm. unfold object_getattribute. py_step. cbn [fst snd]. by rewrite Hcls, Hm, Hn.
Qed.

(** A class attribute that is not a cached property is read without a
    change of state. *)
Lemma object_getattribute_plain n m :
  d !! n = None -> mro_lookup n (cls_mro c) = Some m ->
  (forall body, m <> MCachedProperty body) ->
  object_getattribute cls_of self n w =
    (Ok (match m with
         | MFunction => VMethod self n
         | MClassMethod => VClassMethod (cls_name c) n
         | MData v => v
         | MDescr => instance_descr_get self c n
         | MCachedProperty _ => VNone
         end), w).
Proof.
  intros Hn Hm Hnc. destruct m as [body| | |v|]; [by destruct (Hnc body)| | | |];
    unfold object_getattribute; py_step; cbn [fst snd]; by rewrite Hcls, Hm, ?Hn.
Qed.

(** A cached property whose value is not in the instance [__dict__] yet
    runs its body; a result is stored under the property's name, an
    exception propagates and nothing is stored. *)
Lemma object_getattribute_cached_ok n body v w1 :
  d !! n = None -> mro_lookup n (cls_mro c) = Some (MCachedProperty body) ->
  body self w = (Ok v, w1) -> w_heap w1 !! self = Some (OInst cn d) ->
  object_getattribute cls_of self n w =
    (Ok v, with_heap (<[self := OInst cn (<[n := v]> d)]> (w_heap w1)) w1).
Proof.
  intros Hn Hm Hb Hs. unfold object_getattribute. py_step. cbn [fst snd].
  rewrite Hcls, Hm, Hn. unfold cached_property_get. py_step. cbn [fst snd]. rewrite Hn.
  rewrite (se_bind_ok _ _ _ v w1) by done.
  unfold inst_dict_set, inst_dict. rewrite !se_bind_assoc, (se_bind_ok _ _ _ _ _ (deref_ok _ _ _ Hs)).
  py_run.
Qed.

Lemma object_getattribute_cached_err n body e w1 :
  d !! n = None -> mro_lookup n (cls_mro c) = Some (MCachedProperty body) ->
  body self w = (Err e, w1) -> object_getattribute cls_of self n w = (Err e, w1).
Proof.
  intros Hn Hm Hb. unfold object_getattribute. py_step. cbn [fst snd].
  rewrite Hcls, Hm, Hn. unfold cached_property_get. py_step. cbn [fst snd]. rewrite Hn.
  by rewrite (se_bind_err _ _ _ e w1).
Qed.
End InstanceLemmas.
