(* ===== verification/Registry.v ===== *)
(** * The registry contract and what every lazy namespace guarantees

    Spec section 4.1 describes a Dataset Registry: a fixed table of dataset
    names with their source files, and [get(name)] that fails for an unknown
    name, loads the source on the first read, stores the result, and returns
    the stored value afterwards; a failed load stores nothing.  [reg_get] is
    that registry as a reference definition over an explicit cache.

    The three variants of the repository are façades over their own state
    (an instance [__dict__], or the dict [AVAILABLE]).  The class
    [LazyNamespace] is the interface between a variant and its clients: an
    access operation on the interpreter state, the abstraction of that state
    to the registry's cache, the loader it calls, and the laws of spec
    section 4.1, one per branch of [get].  Each variant discharges the laws
    (files [HookV3.v], [LoaderV1.v], [SingletonV2.v]); the theorems of this
    file are proved once against the interface: every access refines
    [reg_get], the loader runs at most once per name when loads succeed,
    every successful read of a name returns the same object, a failed
    load is retried by the next read, every successful read returns a
    table while the heap stays well formed ([run_typed]), and, with no
    failed load, the loader's trace is the sources of [first_loads]: each
    empty slot's source once, in the order of first reads
    ([run_load_order]). *)

From stdpp Require Import base gmap strings list.
From S2P Require Import Prelude PyRuntime.
Local Open Scope se_scope.

(** ** The reference registry *)

Inductive reg_error :=
| UnknownDataset (name : string)
| LoadFailed (e : exc).

(** [get(name)] of spec 4.1 on the cache [cache] (slots [Filled v] are the
    bindings of the map; absent names are [Empty]). *)
Definition reg_get (decl : gmap string string) (load : string -> PyM pyval)
    (n : string) (cache : gmap string pyval) (w : world)
    : result reg_error pyval * gmap string pyval * world :=
  match decl !! n with
  | None => (Err (UnknownDataset n), cache, w)
  | Some f =>
      match cache !! n with
      | Some v => (Ok v, cache, w)
      | None =>
          match load f w with
          | (Ok v, w') => (Ok v, <[n := v]> cache, w')
          | (Err e, w') => (Err (LoadFailed e), cache, w')
          end
      end
  end.

(** How a façade reports the registry's errors: an unknown name as its own
    exception, a load failure as the loader's exception. *)
Definition report (unknown : exc) (r : result reg_error pyval) : result exc pyval :=
  match r with
  | Ok v => Ok v
  | Err (UnknownDataset _) => Err unknown
  | Err (LoadFailed e) => Err e
  end.

(** ** The interface of a lazy namespace *)

Class LazyNamespace := {
  ln_decl : gmap string string;               (** dataset name -> source file *)
  ln_path : string -> string;                 (** the resource a source file is *)
  ln_load : string -> PyM pyval;              (** the loader bound to a source *)
  ln_log : string -> list string;             (** the lines a load prints *)
  ln_access : string -> PyM pyval;            (** a client's [namespace.name] *)
  ln_cache : world -> gmap string pyval;      (** the filled slots *)
  ln_inv : world -> Prop;                     (** representation invariant *)
  ln_attr : world -> string -> bool;          (** resolved by plain attribute lookup *)
  ln_unknown : world -> string -> exc;        (** the failure for an unknown name *)

  ln_path_inj n1 n2 f1 f2 :
    ln_decl !! n1 = Some f1 -> ln_decl !! n2 = Some f2 ->
    ln_path f1 = ln_path f2 -> n1 = n2;
  ln_load_trace f w : w_loads (ln_load f w).2 = w_loads w ++ [ln_path f];
  ln_load_log f w : w_stdout (ln_load f w).2 = w_stdout w ++ ln_log f;
  ln_load_env f w : same_env (ln_load f w).2 w;
  ln_load_heap f w : heap_wf w -> heap_grows w (ln_load f w).2 /\
    forall v, (ln_load f w).1 = Ok v -> is_table (ln_load f w).2 v;
  ln_access_undeclared n w :
    ln_inv w -> ln_decl !! n = None ->
    ln_inv (ln_access n w).2 /\ ln_cache (ln_access n w).2 = ln_cache w /\
    w_loads (ln_access n w).2 = w_loads w /\ w_stdout (ln_access n w).2 = w_stdout w;
  ln_access_unknown n w :
    ln_inv w -> ln_decl !! n = None -> ln_attr w n = false ->
    ln_access n w = (Err (ln_unknown w n), w);
  ln_access_hit n f v w :
    ln_inv w -> ln_decl !! n = Some f -> ln_cache w !! n = Some v ->
    ln_access n w = (Ok v, w);
  ln_access_miss_ok n f v w w1 :
    ln_inv w -> ln_decl !! n = Some f -> ln_cache w !! n = None ->
    ln_load f w = (Ok v, w1) ->
    exists w2, ln_access n w = (Ok v, w2) /\ ln_inv w2 /\
      ln_cache w2 = <[n := v]> (ln_cache w) /\
      w_loads w2 = w_loads w1 /\ w_stdout w2 = w_stdout w1 /\ same_env w2 w1 /\
      (heap_wf w1 -> heap_grows w1 w2);
  ln_access_miss_err n f e w w1 :
    ln_inv w -> ln_decl !! n = Some f -> ln_cache w !! n = None ->
    ln_load f w = (Err e, w1) ->
    ln_access n w = (Err e, w1) /\ ln_inv w1 /\ ln_cache w1 = ln_cache w
}.

(** ** Sequences of reads *)

Section Runs.
Context `{LazyNamespace}.

(** A client reading [ns] in order, catching each exception. *)
Fixpoint run_accesses (ns : list string) (w : world)
    : list (result exc pyval) * world :=
  match ns with
  | [] => ([], w)
  | n :: rest =>
      let '(r, w1) := ln_access n w in
      let '(rs, w2) := run_accesses rest w1 in
      (r :: rs, w2)
  end.

(** Every filled slot holds a table. *)
Definition cache_typed (w : world) : Prop := forall n v, ln_cache w !! n = Some v -> is_table w v.

(** After reads [rw]: the heap is well formed, the cache typed, and every
    read that returned gave a table. *)
Definition reads_typed (rw : list (result exc pyval) * world) : Prop :=
  heap_wf rw.2 /\ cache_typed rw.2 /\ Forall (fun r => forall v, r = Ok v -> is_table rw.2 v) rw.1.
End Runs.

(** The reads of [n] among [ns] that failed. *)
Fixpoint failures (n : string) (ns : list string) (rs : list (result exc pyval)) : nat :=
  match ns, rs with
  | m :: ns', r :: rs' =>
      (if decide (m = n) then match r with Err _ => 1 | Ok _ => 0 end else 0)
      + failures n ns' rs'
  | _, _ => 0
  end.

Definition filled (c : gmap string pyval) (n : string) : nat :=
  match c !! n with Some _ => 1 | None => 0 end.

(** The names of [ns] in the order of their first read, leaving out those
    in [seen] (the slots already filled): the reads that find an empty
    slot when no load fails. *)
Fixpoint first_misses (seen : gset string) (ns : list string) : list string :=
  match ns with
  | [] => []
  | n :: ns' =>
      if decide (n ∈ seen) then first_misses seen ns'
      else n :: first_misses ({[n]} ∪ seen) ns'
  end.

(** The sources a run of [ns] from [w] loads when no load fails: the
    datasets of [ns] whose slot is empty in [w], in the order of their
    first read. *)
Definition first_loads `{LazyNamespace} (w : world) (ns : list string) : list string :=
  omap (fun n => ln_decl !! n) (first_misses (dom (ln_cache w)) ns).

(** Related states: both invariants, the same files, the same loads so
    far and the same filled slots. *)
Definition agree (N1 N2 : LazyNamespace) (w1 w2 : world) : Prop :=
  @ln_inv N1 w1 /\ @ln_inv N2 w2 /\ same_env w1 w2 /\ w_loads w1 = w_loads w2 /\
  forall n, is_Some (@ln_cache N1 w1 !! n) <-> is_Some (@ln_cache N2 w2 !! n).


(** ** Theorems every lazy namespace satisfies *)

Section Generic.
Context `{LazyNamespace}.

(** One access, by the branch of [get] it takes. *)
Lemma access_cases n w r w1 :
  ln_inv w -> ln_access n w = (r, w1) ->
  ln_inv w1 /\
  ((ln_decl !! n = None /\ ln_cache w1 = ln_cache w /\ w_loads w1 = w_loads w /\
    w_stdout w1 = w_stdout w) \/
   (exists f v, ln_decl !! n = Some f /\ ln_cache w !! n = Some v /\
                r = Ok v /\ w1 = w) \/
   (exists f v, ln_decl !! n = Some f /\ ln_cache w !! n = None /\ r = Ok v /\
                ln_cache w1 = <[n := v]> (ln_cache w) /\
                w_loads w1 = w_loads w ++ [ln_path f] /\
                w_stdout w1 = w_stdout w ++ ln_log f) \/
   (exists f e, ln_decl !! n = Some f /\ ln_cache w !! n = None /\ r = Err e /\
                ln_cache w1 = ln_cache w /\ w_loads w1 = w_loads w ++ [ln_path f] /\
                w_stdout w1 = w_stdout w ++ ln_log f)).
Proof.
  intros Hinv Hacc.
  destruct (ln_decl !! n) as [f|] eqn:Hd.
  2:{ pose proof (ln_access_undeclared n w Hinv Hd) as Hw.
      rewrite Hacc in Hw. simpl in Hw. destruct Hw as (Hi1 & Hc1 & Hl1 & Ho1). split; [done|]. by left. }
  destruct (ln_cache w !! n) as [v|] eqn:Hc.
  { rewrite (ln_access_hit n f v w Hinv Hd Hc) in Hacc. simplify_eq.
    split; [done|]. right; left. eauto 8. }
  pose proof (ln_load_trace f w) as Htr. pose proof (ln_load_log f w) as Hlog.
  destruct (ln_load f w) as [[v|e] w2] eqn:Hl; simpl in Htr, Hlog.
  - destruct (ln_access_miss_ok n f v w w2 Hinv Hd Hc Hl)
      as (w3 & Hacc' & Hinv3 & Hc3 & Hl3 & Ho3 & _).
    rewrite Hacc in Hacc'. simplify_eq.
    split; [done|]. do 2 right; left. exists f, v. rewrite Hl3, Ho3. split_and!; auto.
  - destruct (ln_access_miss_err n f e w w2 Hinv Hd Hc Hl) as (Hacc' & Hinv2 & Hc2).
    rewrite Hacc in Hacc'. simplify_eq.
    split; [done|]. do 3 right. exists f, e. split_and!; auto.
Qed.

(** ** Refinement of the reference registry *)

(** An access to a declared name, or to a name that plain
    attribute lookup does not resolve, behaves as [reg_get] on the cache
    the state abstracts to: same result (the unknown-name error reported
    as the façade's exception), same cache afterwards, same loads and
    same output. *)
Theorem access_refines_reg_get n w :
  ln_inv w -> (ln_decl !! n = None -> ln_attr w n = false) ->
  let '(r, w') := ln_access n w in
  let '(r', c', w'') := reg_get ln_decl ln_load n (ln_cache w) w in
  r = report (ln_unknown w n) r' /\ ln_cache w' = c' /\
  w_loads w' = w_loads w'' /\ w_stdout w' = w_stdout w''.
Proof.
  intros Hinv Hattr. unfold reg_get.
  destruct (ln_decl !! n) as [f|] eqn:Hd.
  - destruct (ln_cache w !! n) as [v|] eqn:Hc.
    { by rewrite (ln_access_hit n f v w Hinv Hd Hc). }
    destruct (ln_load f w) as [[v|e] w1] eqn:Hl.
    + destruct (ln_access_miss_ok n f v w w1 Hinv Hd Hc Hl)
        as (w2 & -> & _ & Hc2 & Hl2 & Ho2 & _). auto.
    + destruct (ln_access_miss_err n f e w w1 Hinv Hd Hc Hl) as (-> & _ & Hc1). auto.
  - by rewrite (ln_access_unknown n w Hinv Hd (Hattr eq_refl)).
Qed.

Lemma filled_le_1 c n : filled c n <= 1.
Proof. unfold filled. destruct (c !! n); lia. Qed.

Lemma occurrences_path n f m fm :
  ln_decl !! n = Some f -> ln_decl !! m = Some fm ->
  occurrences (ln_path f) [ln_path fm] = if decide (m = n) then 1 else 0.
Proof.
  intros Hn Hm. case_decide as Heq.
  - subst. simplify_eq. apply occurrences_singleton_eq.
  - apply occurrences_singleton_ne. intros Hp.
    apply Heq. symmetry. exact (ln_path_inj n m f fm Hn Hm (eq_sym Hp)).
Qed.

Lemma run_accesses_inv ns w :
  ln_inv w -> ln_inv (run_accesses ns w).2.
Proof.
  revert w. induction ns as [|m ns IH]; intros w Hinv; simpl; [done|].
  destruct (ln_access m w) as [r w1] eqn:Hacc.
  destruct (access_cases m w r w1 Hinv Hacc) as [Hinv1 _].
  specialize (IH w1 Hinv1). destruct (run_accesses ns w1). done.
Qed.

(** The loader of [n]'s source runs once per failed read of [n], plus once
    if the run filled [n]'s slot: the exact count behind spec section 8. *)
Lemma run_loads_count n f ns w :
  ln_inv w -> ln_decl !! n = Some f ->
  let '(rs, w') := run_accesses ns w in
  occurrences (ln_path f) (w_loads w') + filled (ln_cache w) n =
  occurrences (ln_path f) (w_loads w) + failures n ns rs + filled (ln_cache w') n.
Proof.
  intros Hinv Hn. revert w Hinv.
  induction ns as [|m ns IH]; intros w Hinv; simpl; [lia|].
  destruct (ln_access m w) as [r w1] eqn:Hacc.
  destruct (access_cases m w r w1 Hinv Hacc) as [Hinv1 Hcase].
  specialize (IH w1 Hinv1). destruct (run_accesses ns w1) as [rs w2].
  destruct Hcase as [(Hd & Hc1 & Hl1 & _)|[(fm & v & Hd & Hc & -> & ->)|
                   [(fm & v & Hd & Hc & -> & Hc1 & Hl1 & _)|
                    (fm & e & Hd & Hc & -> & Hc1 & Hl1 & _)]]].
  - rewrite decide_False by congruence. rewrite Hl1 in IH. unfold filled in *. rewrite Hc1 in IH. lia.
  - case_decide; lia.
  - rewrite Hl1, occurrences_app, (occurrences_path n f m fm Hn Hd) in IH.
    unfold filled in *. rewrite Hc1 in IH.
    case_decide as Heq; [subst; rewrite Hc, lookup_insert_eq in *; lia|].
    rewrite lookup_insert_ne in IH by done. lia.
  - rewrite Hl1, occurrences_app, (occurrences_path n f m fm Hn Hd) in IH.
    unfold filled in *. rewrite Hc1 in IH. case_decide; lia.
Qed.

(** Once filled, a slot keeps its value for the rest of a run. *)
Lemma run_keeps_filled n v ns w :
  ln_inv w -> ln_cache w !! n = Some v ->
  ln_cache (run_accesses ns w).2 !! n = Some v.
Proof.
  revert w. induction ns as [|m ns IH]; intros w Hinv Hv; simpl; [done|].
  destruct (ln_access m w) as [r w1] eqn:Hacc.
  destruct (access_cases m w r w1 Hinv Hacc) as [Hinv1 Hcase].
  assert (ln_cache w1 !! n = Some v) as Hv1.
  { destruct Hcase as [(_ & Hc1 & _)|[(? & ? & _ & _ & _ & ->)|
                    [(fm & v' & Hd & Hc & _ & Hc1 & _)|(? & ? & _ & _ & _ & Hc1 & _)]]];
      try done; try by rewrite Hc1.
    rewrite Hc1, lookup_insert_ne; [done|]. intros ->. congruence. }
  specialize (IH w1 Hinv1 Hv1). destruct (run_accesses ns w1). done.
Qed.

(** Every successful read of a declared name in a run returns the object
    its slot holds at the end of the run. *)
Lemma run_reads_final_value ns w n i v :
  ln_inv w -> is_Some (ln_decl !! n) ->
  ns !! i = Some n -> (run_accesses ns w).1 !! i = Some (Ok v) ->
  ln_cache (run_accesses ns w).2 !! n = Some v.
Proof.
  intros Hinv [f Hn]. revert w i Hinv.
  induction ns as [|m ns IH]; intros w i Hinv Hi Hr; [done|]. simpl in *.
  destruct (ln_access m w) as [r w1] eqn:Hacc.
  destruct (access_cases m w r w1 Hinv Hacc) as [Hinv1 Hcase].
  destruct (run_accesses ns w1) as [rs w2] eqn:Hrun. simpl in *.
  destruct i as [|i]; simpl in *.
  2:{ specialize (IH w1 i Hinv1 Hi). rewrite Hrun in IH. exact (IH Hr). }
  simplify_eq. pose proof (run_keeps_filled n v ns w1 Hinv1) as Hk.
  rewrite Hrun in Hk. apply Hk.
  destruct Hcase as [[Hd _]|[(? & ? & _ & Hc & ? & ->)|
                   [(? & ? & _ & _ & ? & Hc1 & _)|(? & ? & _ & _ & ? & _)]]];
    simplify_eq; [done| by rewrite Hc1, lookup_insert_eq].
Qed.

(** A read of a declared name whose slot is empty calls the loader. *)
Lemma access_miss_loads n f w :
  ln_inv w -> ln_decl !! n = Some f -> ln_cache w !! n = None ->
  w_loads (ln_access n w).2 = w_loads w ++ [ln_path f].
Proof.
  intros Hinv Hd Hc. destruct (ln_access n w) as [r w1] eqn:Hacc.
  destruct (access_cases n w r w1 Hinv Hacc) as [_ Hcase]. simpl.
  destruct Hcase as [[? _]|[(? & ? & _ & ? & _)|
                   [(? & ? & ? & _ & _ & _ & ? & _)|(? & ? & ? & _ & _ & _ & ? & _)]]];
    simplify_eq; done.
Qed.

(** A load that fails stores nothing, so the next read of the same name
    calls the loader again. *)
Lemma failed_load_retried n f e w w1 :
  ln_inv w -> ln_decl !! n = Some f -> ln_cache w !! n = None ->
  ln_load f w = (Err e, w1) ->
  ln_access n w = (Err e, w1) /\ ln_cache w1 !! n = None /\
  w_loads (ln_access n w1).2 = w_loads w1 ++ [ln_path f].
Proof.
  intros Hinv Hd Hc Hl.
  destruct (ln_access_miss_err n f e w w1 Hinv Hd Hc Hl) as (Hacc & Hinv1 & Hc1).
  rewrite Hc1. split_and!; [done|done|]. apply access_miss_loads; [done|done|by rewrite Hc1].
Qed.

Lemma run_accesses_length ns w : length (run_accesses ns w).1 = length ns.
Proof.
  revert w. induction ns as [|m ns IH]; intros w; simpl; [done|].
  destruct (ln_access m w) as [r w1]. specialize (IH w1).
  destruct (run_accesses ns w1). simpl in *. lia.
Qed.

Lemma failures_zero_ok n ns rs i r :
  failures n ns rs = 0 -> ns !! i = Some n -> rs !! i = Some r -> exists v, r = Ok v.
Proof.
  revert rs i. induction ns as [|m ns IH]; intros rs i H0 Hi Hr; [done|].
  destruct rs as [|r' rs]; [done|]. simpl in H0.
  destruct i as [|i]; simpl in *; [|apply (IH rs i); [lia|done|done]].
  simplify_eq. rewrite decide_True in H0 by done. destruct r; [eauto|lia].
Qed.

(** Reading [n] at least once, with no failed read, from an empty slot:
    the loader of [n]'s source runs exactly once. *)
Lemma run_loads_exactly_once ns w n f :
  ln_inv w -> ln_decl !! n = Some f -> ln_cache w !! n = None -> n ∈ ns ->
  failures n ns (run_accesses ns w).1 = 0 ->
  occurrences (ln_path f) (w_loads (run_accesses ns w).2) =
  occurrences (ln_path f) (w_loads w) + 1.
Proof.
  intros Hinv Hf Hn Hin H0.
  apply list_elem_of_lookup in Hin as [i Hi].
  destruct (lookup_lt_is_Some_2 (run_accesses ns w).1 i) as [r Hr].
  { rewrite run_accesses_length. by eapply lookup_lt_Some. }
  destruct (failures_zero_ok n ns _ i r H0 Hi Hr) as [v ->].
  pose proof (run_reads_final_value ns w n i v Hinv (mk_is_Some _ _ Hf) Hi Hr) as Hfin.
  pose proof (run_loads_count n f ns w Hinv Hf) as Hc.
  destruct (run_accesses ns w) as [rs w']. simpl in *.
  unfold filled in Hc. rewrite Hn, Hfin in Hc. lia.
Qed.

(** All successful reads of a declared name in a run return one object. *)
Lemma run_same_object ns w n i j v1 v2 :
  ln_inv w -> is_Some (ln_decl !! n) ->
  ns !! i = Some n -> ns !! j = Some n ->
  (run_accesses ns w).1 !! i = Some (Ok v1) -> (run_accesses ns w).1 !! j = Some (Ok v2) ->
  v1 = v2.
Proof.
  intros Hinv Hd Hi Hj Hri Hrj.
  pose proof (run_reads_final_value ns w n i v1 Hinv Hd Hi Hri).
  pose proof (run_reads_final_value ns w n j v2 Hinv Hd Hj Hrj). congruence.
Qed.

(** The loads of a run and its output: each load appends its source's path
    to the trace and its log lines to the output, in the same order. *)
Lemma run_output ns w :
  ln_inv w -> exists fs,
    w_loads (run_accesses ns w).2 = w_loads w ++ map ln_path fs /\
    w_stdout (run_accesses ns w).2 = w_stdout w ++ concat (map ln_log fs).
Proof.
  revert w. induction ns as [|m ns IH]; intros w Hinv; simpl.
  { exists []. by rewrite !app_nil_r. }
  destruct (ln_access m w) as [r w1] eqn:Hacc.
  destruct (access_cases m w r w1 Hinv Hacc) as [Hinv1 Hcase].
  destruct (IH w1 Hinv1) as (fs & Hl & Ho).
  destruct (run_accesses ns w1) as [rs w2]. simpl in *.
  destruct Hcase as [(_ & _ & Hl1 & Ho1)|[(? & ? & _ & _ & _ & ->)|
                   [(f & v & _ & _ & _ & _ & Hl1 & Ho1)|(f & e & _ & _ & _ & _ & Hl1 & Ho1)]]];
    try by exists fs.
  - exists fs. by rewrite Hl, Ho, Hl1, Ho1.
  - exists (f :: fs). rewrite Hl, Ho, Hl1, Ho1. simpl. by rewrite <- !app_assoc.
  - exists (f :: fs). rewrite Hl, Ho, Hl1, Ho1. simpl. by rewrite <- !app_assoc.
Qed.

(** When each load prints one line that names its source, the line of a
    dataset read at least once, with no failed read, from an unfilled slot
    is printed exactly once. *)
Lemma run_prints_exactly_once (line : string -> string) ns w n f :
  (forall x y, ln_path x = ln_path y -> x = y) ->
  (forall g, ln_log g = [line g]) -> (forall x y, line x = line y -> x = y) ->
  ln_inv w -> ln_decl !! n = Some f -> ln_cache w !! n = None -> n ∈ ns ->
  failures n ns (run_accesses ns w).1 = 0 ->
  occurrences (line f) (w_stdout (run_accesses ns w).2) =
  occurrences (line f) (w_stdout w) + 1.
Proof.
  intros Hpath Hlog Hline Hinv Hf Hn Hin H0.
  pose proof (run_loads_exactly_once ns w n f Hinv Hf Hn Hin H0) as Honce.
  destruct (run_output ns w Hinv) as (fs & Hl & Ho).
  rewrite Hl, occurrences_app, (occurrences_map_inj _ _ _ Hpath) in Honce.
  rewrite Ho, occurrences_app, (map_ext _ (fun g => [line g]) Hlog fs), concat_map_singleton,
    (occurrences_map_inj _ _ _ Hline).
  lia.
Qed.

Lemma first_misses_fresh seen ns :
  NoDup (first_misses seen ns) /\ Forall (fun n => (n ∉ seen) /\ (n ∈ ns)) (first_misses seen ns).
Proof.
  revert seen. induction ns as [|n ns IH]; intros seen; simpl; [split; constructor|].
  case_decide; [destruct (IH seen) as [Hnd Hf]; split; [done|]|].
  - eapply Forall_impl; [exact Hf|]. set_solver.
  - destruct (IH ({[n]} ∪ seen)) as [Hnd Hf]. rewrite Forall_forall in Hf.
    split; [constructor; [intros Hin; specialize (Hf n Hin); set_solver|done]|].
    constructor; [set_solver|]. apply Forall_forall. intros x Hx. specialize (Hf x Hx). set_solver.
Qed.

(** Distinct declared names load distinct resources. *)
Lemma loads_NoDup names :
  NoDup names -> Forall (fun n => is_Some (ln_decl !! n)) names ->
  NoDup (map ln_path (omap (fun n => ln_decl !! n) names)).
Proof.
  induction names as [|n names IH]; intros Hnd Hd; [constructor|].
  apply NoDup_cons in Hnd as [Hn Hnd]. apply Forall_cons in Hd as [[f Hf] Hd].
  simpl. rewrite Hf. simpl. constructor; [|exact (IH Hnd Hd)].
  intros (f' & Hp & Hin)%list_elem_of_fmap. apply list_elem_of_omap in Hin as (m & Hm & Hf').
  apply Hn. by rewrite (ln_path_inj n m f f' Hf Hf' Hp).
Qed.

(** With no failed read, a run of reads of declared names loads the
    sources of [first_loads], each once and in that order, and prints
    their log lines in the same order. *)
Lemma run_load_order ns w :
  ln_inv w -> Forall (fun n => is_Some (ln_decl !! n)) ns ->
  Forall (fun r => exists v, r = Ok v) (run_accesses ns w).1 ->
  w_loads (run_accesses ns w).2 = w_loads w ++ map ln_path (first_loads w ns) /\
  w_stdout (run_accesses ns w).2 = w_stdout w ++ concat (map ln_log (first_loads w ns)).
Proof.
  unfold first_loads. revert w. induction ns as [|n ns IH]; intros w Hinv Hns Hok; simpl in *.
  { by rewrite !app_nil_r. }
  apply Forall_cons in Hns as [[f Hd] Hns].
  destruct (ln_access n w) as [r w1] eqn:Hacc.
  destruct (access_cases n w r w1 Hinv Hacc) as [Hinv1 Hcase].
  specialize (IH w1 Hinv1 Hns).
  destruct (run_accesses ns w1) as [rs w2]. simpl in *.
  apply Forall_cons in Hok as [Hr Hok]. specialize (IH Hok).
  destruct Hcase as [[? _]|[(? & v & _ & Hc & _ & ->)|
                   [(f' & v & Hd' & Hc & _ & Hc1 & Hl1 & Ho1)|(? & e & _ & _ & -> & _)]]];
    [congruence| |
    |by destruct Hr as [? ?]].
  - rewrite decide_True by (apply elem_of_dom; eauto). exact IH.
  - rewrite decide_False by (by apply not_elem_of_dom). simpl. rewrite Hd'. simpl.
    rewrite Hc1, dom_insert_L, Hl1, Ho1 in IH. rewrite <- !app_assoc in IH. exact IH.
Qed.

(** The sources a run loads are distinct. *)
Lemma first_loads_NoDup w ns :
  Forall (fun n => is_Some (ln_decl !! n)) ns -> NoDup (map ln_path (first_loads w ns)).
Proof.
  intros Hns. destruct (first_misses_fresh (dom (ln_cache w)) ns) as [Hnd Hf].
  apply loads_NoDup; [done|]. eapply Forall_impl; [exact Hf|]. intros n [_ Hin].
  by eapply Forall_forall in Hns.
Qed.

(** ** Every read of a dataset gives a table *)

Lemma cache_typed_grows w w1 :
  heap_grows w w1 -> ln_cache w1 = ln_cache w -> cache_typed w -> cache_typed w1.
Proof. intros Hg Hc Ht n v Hv. rewrite Hc in Hv. exact (is_table_grows _ _ _ Hg (Ht n v Hv)). Qed.

Lemma access_typed n f w :
  ln_inv w -> ln_decl !! n = Some f -> heap_wf w -> cache_typed w ->
  ln_inv (ln_access n w).2 /\ heap_grows w (ln_access n w).2 /\ cache_typed (ln_access n w).2 /\
  forall v, (ln_access n w).1 = Ok v -> is_table (ln_access n w).2 v.
Proof.
  intros Hinv Hd Hwf Ht. destruct (ln_cache w !! n) as [v|] eqn:Hc.
  { rewrite (ln_access_hit n f v w Hinv Hd Hc). simpl. split_and!; [done|by split|done|].
    intros v' [= <-]. exact (Ht n v Hc). }
  destruct (ln_load_heap f w Hwf) as [Hg1 Hv1].
  destruct (ln_load f w) as [[v|e] w1] eqn:Hl; simpl in *.
  - destruct (ln_access_miss_ok n f v w w1 Hinv Hd Hc Hl) as (w2 & -> & Hinv2 & Hc2 & _ & _ & _ & Hg2).
    pose proof (heap_grows_trans _ _ _ Hg1 (Hg2 (proj1 Hg1))) as Hg.
    pose proof (is_table_grows _ _ _ (Hg2 (proj1 Hg1)) (Hv1 v eq_refl)) as Hv.
    simpl. split_and!; [done|done| |by intros v' [= <-]].
    intros n' v' Hn'. rewrite Hc2 in Hn'. destruct (decide (n' = n)) as [->|Hne].
    + rewrite lookup_insert_eq in Hn'. by injection Hn' as <-.
    + rewrite lookup_insert_ne in Hn' by congruence. exact (is_table_grows _ _ _ Hg (Ht n' v' Hn')).
  - destruct (ln_access_miss_err n f e w w1 Hinv Hd Hc Hl) as (-> & Hinv1 & Hc1).
    simpl. split_and!; [done|done|exact (cache_typed_grows _ _ Hg1 Hc1 Ht)|done].
Qed.

Lemma run_typed ns w :
  ln_inv w -> Forall (fun n => is_Some (ln_decl !! n)) ns -> heap_wf w -> cache_typed w ->
  ln_inv (run_accesses ns w).2 /\ heap_grows w (run_accesses ns w).2 /\ reads_typed (run_accesses ns w).
Proof.
  revert w. induction ns as [|n ns IH]; intros w Hinv Hns Hwf Ht.
  { simpl. split_and!; by try split. }
  apply Forall_cons in Hns as [[f Hd] Hns].
  destruct (access_typed n f w Hinv Hd Hwf Ht) as (Hinv1 & Hg1 & Ht1 & Hr1).
  simpl. destruct (ln_access n w) as [r w1]. simpl in *.
  destruct (IH w1 Hinv1 Hns (proj1 Hg1) Ht1) as (Hinv2 & Hg2 & Hwf2 & Ht2 & Hrs).
  destruct (run_accesses ns w1) as [rs w2]. simpl in *.
  unfold reads_typed. simpl. split_and!; [done|exact (heap_grows_trans _ _ _ Hg1 Hg2)|done|done|].
  constructor; [|done]. intros v Hv. exact (is_table_grows _ _ _ Hg2 (Hr1 v Hv)).
Qed.
End Generic.

(** ** Two lazy namespaces over the same datasets agree *)

(** Spec section 4.2: the strategies must have the same observable
    behaviour.  Two namespaces with the same declarations, the same
    resources and loaders that fail alike on the same files read the same
    files in the same order and fail with the same exceptions, on every
    sequence of reads of declared names. *)
Section Agree.
Context (N1 N2 : LazyNamespace).
Hypothesis Hdecl : @ln_decl N1 = @ln_decl N2.
Hypothesis Hpath : forall f, @ln_path N1 f = @ln_path N2 f.
Hypothesis Hload : forall f w1 w2, same_env w1 w2 ->
  raised (@ln_load N1 f w1).1 = raised (@ln_load N2 f w2).1.

Lemma agree_access n w1 w2 :
  agree N1 N2 w1 w2 -> is_Some (@ln_decl N1 !! n) ->
  raised (@ln_access N1 n w1).1 = raised (@ln_access N2 n w2).1 /\
  agree N1 N2 (@ln_access N1 n w1).2 (@ln_access N2 n w2).2.
Proof.
  intros (Hi1 & Hi2 & Henv & Hl & Hc) [f Hf1].
  assert (@ln_decl N2 !! n = Some f) as Hf2 by by rewrite <- Hdecl.
  destruct (@ln_cache N1 w1 !! n) as [v1|] eqn:Hc1.
  { destruct (@ln_cache N2 w2 !! n) as [v2|] eqn:Hc2;
      [|destruct (proj1 (Hc n) (mk_is_Some _ _ Hc1)) as [x Hx]; congruence].
    rewrite (@ln_access_hit N1 n f v1 w1 Hi1 Hf1 Hc1), (@ln_access_hit N2 n f v2 w2 Hi2 Hf2 Hc2).
    split; [done|]. split_and!; auto. }
  destruct (@ln_cache N2 w2 !! n) as [v2|] eqn:Hc2;
    [destruct (proj2 (Hc n) (mk_is_Some _ _ Hc2)) as [x Hx]; congruence|].
  pose proof (Hload f w1 w2 Henv) as Hr.
  pose proof (@ln_load_trace N1 f w1) as Ht1. pose proof (@ln_load_trace N2 f w2) as Ht2.
  pose proof (@ln_load_env N1 f w1) as Hle1. pose proof (@ln_load_env N2 f w2) as Hle2.
  destruct (@ln_load N1 f w1) as [[v1|e1] w1'] eqn:Hl1, (@ln_load N2 f w2) as [[v2|e2] w2'] eqn:Hl2;
    simpl in *; try discriminate.
  - destruct (@ln_access_miss_ok N1 n f v1 w1 w1' Hi1 Hf1 Hc1 Hl1)
      as (u1 & -> & Hu1 & Hcu1 & Hlu1 & _ & Heu1 & _).
    destruct (@ln_access_miss_ok N2 n f v2 w2 w2' Hi2 Hf2 Hc2 Hl2)
      as (u2 & -> & Hu2 & Hcu2 & Hlu2 & _ & Heu2 & _).
    simpl. split; [done|]. split_and!; [done|done| | |].
    + eapply same_env_trans; [exact Heu1|]. eapply same_env_trans; [exact Hle1|].
      eapply same_env_trans; [exact Henv|]. apply same_env_sym.
      eapply same_env_trans; [exact Heu2|exact Hle2].
    + by rewrite Hlu1, Hlu2, Ht1, Ht2, Hl, Hpath.
    + intros k. rewrite Hcu1, Hcu2. destruct (decide (k = n)) as [->|Hne].
      * rewrite !lookup_insert_eq. split; eauto.
      * rewrite !lookup_insert_ne by done. apply Hc.
  - injection Hr as <-.
    destruct (@ln_access_miss_err N1 n f e1 w1 w1' Hi1 Hf1 Hc1 Hl1) as (-> & Hu1 & Hcu1).
    destruct (@ln_access_miss_err N2 n f e1 w2 w2' Hi2 Hf2 Hc2 Hl2) as (-> & Hu2 & Hcu2).
    simpl. split; [done|]. split_and!; [done|done| | |].
    + eapply same_env_trans; [exact Hle1|]. eapply same_env_trans; [exact Henv|].
      by apply same_env_sym.
    + by rewrite Ht1, Ht2, Hl, Hpath.
    + intros k. rewrite Hcu1, Hcu2. apply Hc.
Qed.

Lemma agree_run ns w1 w2 :
  agree N1 N2 w1 w2 -> Forall (fun n => is_Some (@ln_decl N1 !! n)) ns ->
  map raised (@run_accesses N1 ns w1).1 = map raised (@run_accesses N2 ns w2).1 /\
  agree N1 N2 (@run_accesses N1 ns w1).2 (@run_accesses N2 ns w2).2.
Proof.
  revert w1 w2. induction ns as [|n ns IH]; intros w1 w2 Hag Hns; [done|].
  apply Forall_cons in Hns as [Hn Hns]. simpl.
  destruct (agree_access n w1 w2 Hag Hn) as [Hr Hag1].
  destruct (@ln_access N1 n w1) as [r1 u1], (@ln_access N2 n w2) as [r2 u2]. simpl in *.
  destruct (IH u1 u2 Hag1 Hns) as [Hrs Hag'].
  destruct (@run_accesses N1 ns u1), (@run_accesses N2 ns u2). simpl in *. split; [by f_equal|done].
Qed.
End Agree.
