(* ===== verification/HookV3.v ===== *)
(** * Version 3: a module-level [__getattr__] over the table [AVAILABLE]

    Models [src/v3/datapkg/__init__.py].  Importing the package executes its
    body ([v3_exec]): it binds [DATA_DIR = "data"], the process-wide dict
    [AVAILABLE] of one dict [{"filename": ..., "cached": None}] per dataset,
    and the functions [__getattr__] and [_load_csv].  An attribute read
    [datapkg.name] that the module [__dict__] does not resolve calls
    [__getattr__(name)] (PEP 562), which loads the file on the first read and
    stores the table in [AVAILABLE[name]["cached"]].

    Every global read and every subscript of the source is one step of the
    model, in the order CPython evaluates them (the right-hand side of the
    assignment on line 16 before its target).  Calls of the module's own
    functions are direct calls: the code never rebinds them. *)

From stdpp Require Import base gmap strings list.
From S2P Require Import Prelude PyRuntime Attr Registry.
Local Open Scope se_scope.

Module V3.

(** [def _load_csv(filename)] (lines 20-23), in module [m]. *)
Definition _load_csv (m : oid) (filename : pyval) : PyM pyval :=
  let* data_dir := global_get m "DATA_DIR" in
  match data_dir, filename with
  | VStr pkg, VStr file =>
      let* rows := read_csv_resource pkg file in
      let* r := alloc (OTable rows) in
      return (VRef r)
  | _, _ => raise (TypeError "expected str")
  end.

(** [def __getattr__(name)] (lines 12-17), in module [m]. *)
Definition __getattr__ (m : oid) (name : string) : PyM pyval :=
  let* avail := global_get m "AVAILABLE" in
  let* present := dict_contains avail name in
  if negb present then
    let* modname := global_get m "__name__" in
    raise (AttributeError (str_of modname +:+ " does not have " +:+ name) None)
  else
    let* avail1 := global_get m "AVAILABLE" in
    let* entry1 := dict_getitem avail1 name in
    let* cached := dict_getitem entry1 "cached" in
    let* _ :=
      match cached with
      | VNone =>
          let* avail2 := global_get m "AVAILABLE" in
          let* entry2 := dict_getitem avail2 name in
          let* filename := dict_getitem entry2 "filename" in
          let* v := _load_csv m filename in
          let* avail3 := global_get m "AVAILABLE" in
          let* entry3 := dict_getitem avail3 name in
          dict_setitem entry3 "cached" v
      | _ => return tt
      end in
    let* avail4 := global_get m "AVAILABLE" in
    let* entry4 := dict_getitem avail4 name in
    dict_getitem entry4 "cached".

(** Calling a function object of the module with one argument. *)
Definition call1 (m : oid) (f arg : pyval) : PyM pyval :=
  match f, arg with
  | VFunc q, VStr n =>
      if String.eqb q "__getattr__" then __getattr__ m n
      else if String.eqb q "_load_csv" then _load_csv m arg
      else raise (TypeError "not callable")
  | _, _ => raise (TypeError "not callable")
  end.

(** The declared datasets: [{name: filename}] of lines 6-9. *)
Definition available_decl : list (string * string) :=
  [("machines", "machines.csv"); ("persons", "persons.csv")].

(** [{"filename": f, "cached": None}] *)
Definition new_entry (f : string) : PyM pyval :=
  let* r := alloc (ODict (<["cached" := VNone]> (<["filename" := VStr f]> ∅))) in
  return (VRef r).

(** The dict display of lines 6-9: the inner dicts first, then the outer one. *)
Fixpoint build_available (decl : list (string * string)) (acc : gmap string pyval)
    : PyM pyval :=
  match decl with
  | [] => let* r := alloc (ODict acc) in return (VRef r)
  | (n, f) :: rest =>
      let* e := new_entry f in
      build_available rest (<[n := e]> acc)
  end.

(** The module body (lines 1-23), executed in the fresh module [m]. *)
Definition v3_exec (m : oid) : PyM unit :=
  let* _ := module_store m "csv" (VExt "csv") in
  let* _ := module_store m "cached_property" (VExt "functools.cached_property") in
  let* _ := module_store m "resources" (VExt "importlib.resources") in
  let* _ := module_store m "DATA_DIR" (VStr "data") in
  let* avail := build_available available_decl ∅ in
  let* _ := module_store m "AVAILABLE" avail in
  let* _ := module_store m "__getattr__" (VFunc "__getattr__") in
  module_store m "_load_csv" (VFunc "_load_csv").

(** [import datapkg] the first time: a new module named [pkg] is entered in
    [sys.modules], then its body runs. *)
Definition v3_import (pkg : string) : PyM oid :=
  let* m := alloc (OModule ModuleType (<["__name__" := VStr pkg]> ∅)) in
  let* _ := se_modify (fun w => with_modules (<[pkg := m]> (w_modules w)) w) in
  let* _ := v3_exec m in
  return m.

(** A client's [datapkg.name], with [datapkg] imported. *)
Definition v3_access (pkg name : string) : PyM pyval :=
  let* m := import_module pkg in
  module_getattro (call1 m) m name.

(** A client's [datapkg.AVAILABLE[name]["cached"] = None]: the table the
    module exposes, written through. *)
Definition v3_reset (pkg name : string) : PyM unit :=
  let* avail := v3_access pkg "AVAILABLE" in
  let* entry := dict_getitem avail name in
  dict_setitem entry "cached" VNone.

(** ** The representation invariant *)

(** The declared table as a map. *)
Definition decl_map : gmap string string := list_to_map available_decl.

(** [AVAILABLE[n]] for a dataset with file [f] and cache slot [c]. *)
Definition entry_dict (f : string) (c : pyval) : gmap string pyval :=
  <["cached" := c]> (<["filename" := VStr f]> ∅).

(** The content of the slot [AVAILABLE[n]["cached"]] for the filled slots
    [slots]. *)
Definition slot (slots : gmap string pyval) (n : string) : pyval :=
  default VNone (slots !! n).

(** Where the package keeps its state: the module object, [AVAILABLE], and
    the dict [AVAILABLE[n]] of each dataset. *)
Record layout := mkLayout {
  l_mod : oid;
  l_avail : oid;
  l_entry : gmap string oid
}.

Definition globals_ok (l : layout) (d : gmap string pyval) : Prop :=
  d !! "AVAILABLE" = Some (VRef (l_avail l)) /\ d !! "DATA_DIR" = Some (VStr "data") /\
  d !! "__name__" = Some (VStr "datapkg") /\ d !! "__getattr__" = Some (VFunc "__getattr__") /\
  forall n, is_Some (decl_map !! n) -> d !! n = None.

(** The package state at layout [l] holds the filled slots [slots]. *)
Record repr (l : layout) (slots : gmap string pyval) (w : world) : Prop := {
  repr_module : w_modules w !! "datapkg" = Some (l_mod l);
  repr_globals : exists d, w_heap w !! l_mod l = Some (OModule ModuleType d) /\ globals_ok l d;
  repr_avail : w_heap w !! l_avail l = Some (ODict (VRef <$> l_entry l));
  repr_entry_dom : forall n, is_Some (l_entry l !! n) <-> is_Some (decl_map !! n);
  repr_entries : forall n e f, l_entry l !! n = Some e -> decl_map !! n = Some f ->
    w_heap w !! e = Some (ODict (entry_dict f (slot slots n)));
  repr_slots : forall n v, slots !! n = Some v -> is_Some (decl_map !! n) /\ v <> VNone;
  repr_distinct : l_mod l <> l_avail l /\
    forall n e, l_entry l !! n = Some e -> e <> l_mod l /\ e <> l_avail l;
  repr_inj : forall n1 n2 e, l_entry l !! n1 = Some e -> l_entry l !! n2 = Some e -> n1 = n2;
  repr_alloc : l_mod l < w_next w /\ l_avail l < w_next w /\
    forall n e, l_entry l !! n = Some e -> e < w_next w
}.

(** The abstraction of a state to the registry's cache, read from the state
    itself: [AVAILABLE[n]["cached"]] for each [n] whose slot is not [None]. *)
Definition package_dict (w : world) : option (gmap string pyval) :=
  m ← w_modules w !! "datapkg";
  match w_heap w !! m with
  | Some (OModule _ d) => Some d
  | _ => None
  end.

Definition heap_dict (w : world) (v : pyval) : option (gmap string pyval) :=
  match v with
  | VRef r => match w_heap w !! r with Some (ODict D) => Some D | _ => None end
  | _ => None
  end.

Definition slot_value (c : pyval) : option pyval :=
  match c with VNone => None | _ => Some c end.

Definition avail_dict (w : world) : option (gmap string pyval) :=
  match package_dict w with
  | Some d => match d !! "AVAILABLE" with Some av => heap_dict w av | None => None end
  | None => None
  end.

Definition entry_slot (w : world) (ev : pyval) : option pyval :=
  match heap_dict w ev with
  | Some E => match E !! "cached" with Some c => slot_value c | None => None end
  | None => None
  end.

Definition cache_of (w : world) : gmap string pyval :=
  match avail_dict w with
  | Some D => omap (entry_slot w) D
  | None => ∅
  end.

(** Names resolved without the hook: the module [__dict__] and the
    attributes of [types.ModuleType]. *)
Definition attr_of (w : world) (n : string) : bool :=
  match package_dict w with
  | Some d => bool_decide (is_Some (d !! n))
  | None => false
  end || bool_decide (is_Some (mro_lookup n (modtype_mro ModuleType))).

Definition v3_inv (w : world) : Prop := exists l, repr l (cache_of w) w.

(** The state right after [import datapkg] in [example_world]. *)
Definition imported_world : world := (v3_import "datapkg" example_world).2.

(** ** Lemmas on the invariant *)

Lemma entry_dict_cached f c : entry_dict f c !! "cached" = Some c.
Proof. done. Qed.

Lemma entry_dict_filename f c : entry_dict f c !! "filename" = Some (VStr f).
Proof. done. Qed.

Lemma entry_dict_store f c v : <["cached" := v]> (entry_dict f c) = entry_dict f v.
Proof. unfold entry_dict. by rewrite insert_insert_eq. Qed.

Lemma lookup_fmap_VRef (ent : gmap string oid) n e :
  ent !! n = Some e -> (VRef <$> ent) !! n = Some (VRef e).
Proof. intros H. by rewrite lookup_fmap, H. Qed.

#[export] Hint Resolve entry_dict_cached entry_dict_filename lookup_fmap_VRef : datapkg.

Lemma slot_value_slot l slots w n :
  repr l slots w -> slot_value (slot slots n) = slots !! n.
Proof.
  intros Hr. unfold slot. destruct (slots !! n) as [v|] eqn:Hv; [|done].
  destruct (repr_slots l slots w Hr n v Hv) as [_ Hne]. simpl. by destruct v.
Qed.

Lemma cache_of_repr l slots w : repr l slots w -> cache_of w = slots.
Proof.
  intros Hr. destruct (repr_globals l slots w Hr) as (d & Hm & Hav & _).
  unfold cache_of, avail_dict, package_dict. rewrite (repr_module l slots w Hr). simpl.
  rewrite Hm, Hav. simpl. rewrite (repr_avail l slots w Hr).
  apply map_eq. intros n. rewrite lookup_omap, lookup_fmap.
  destruct (l_entry l !! n) as [e|] eqn:He; simpl.
  - destruct (proj1 (repr_entry_dom l slots w Hr n) (mk_is_Some _ _ He)) as [f Hf].
    unfold entry_slot. simpl. rewrite (repr_entries l slots w Hr n e f He Hf).
    by rewrite entry_dict_cached, (slot_value_slot l slots w n Hr).
  - destruct (slots !! n) as [v|] eqn:Hv; [|done].
    destruct (repr_slots l slots w Hr n v Hv) as [Hd _].
    apply (repr_entry_dom l slots w Hr n) in Hd. rewrite He in Hd. by destruct Hd.
Qed.

Lemma repr_ext l slots w w1 : repr l slots w -> heap_ext w w1 -> repr l slots w1.
Proof.
  intros Hr (Hmod & Hnext & Hheap).
  destruct (repr_alloc l slots w Hr) as (Ham & Haa & Hae).
  split; try apply Hr.
  - rewrite Hmod. apply Hr.
  - rewrite Hheap by done. apply Hr.
  - rewrite Hheap by done. apply Hr.
  - intros n e f He Hf. rewrite Hheap by eauto. by apply (repr_entries l slots w Hr).
  - split_and!; try lia. intros n e He. specialize (Hae n e He). lia.
Qed.

Lemma repr_store l slots w n e f v :
  repr l slots w -> l_entry l !! n = Some e -> decl_map !! n = Some f -> v <> VNone ->
  repr l (<[n := v]> slots) (with_heap (<[e := ODict (entry_dict f v)]> (w_heap w)) w).
Proof.
  intros Hr He Hf Hv. destruct (repr_distinct l slots w Hr) as [Hma Hent].
  destruct (Hent n e He) as [Hem Hea].
  split; simpl; try apply Hr.
  - destruct (repr_globals l slots w Hr) as (d & Hm & Hg).
    exists d. rewrite lookup_insert_ne by congruence. done.
  - rewrite lookup_insert_ne by congruence. apply Hr.
  - intros n' e' f' He' Hf'. unfold slot. destruct (decide (n' = n)) as [->|Hne].
    + simplify_eq. by rewrite !lookup_insert_eq.
    + rewrite lookup_insert_ne. 2:{ intros ->. apply Hne. eapply repr_inj; eauto. }
      rewrite lookup_insert_ne by done. eapply repr_entries; eauto.
  - intros n' v'. destruct (decide (n' = n)) as [->|Hne].
    + rewrite lookup_insert_eq. intros [= <-]. eauto.
    + rewrite lookup_insert_ne by done. apply Hr.
Qed.

(** Writing [None] back into a slot empties it. *)
Lemma repr_reset l slots w n e f :
  repr l slots w -> l_entry l !! n = Some e -> decl_map !! n = Some f ->
  repr l (delete n slots) (with_heap (<[e := ODict (entry_dict f VNone)]> (w_heap w)) w).
Proof.
  intros Hr He Hf. destruct (repr_distinct l slots w Hr) as [Hma Hent].
  destruct (Hent n e He) as [Hem Hea].
  split; simpl; try apply Hr.
  - destruct (repr_globals l slots w Hr) as (d & Hm & Hg).
    exists d. rewrite lookup_insert_ne by congruence. done.
  - rewrite lookup_insert_ne by congruence. apply Hr.
  - intros n' e' f' He' Hf'. unfold slot. destruct (decide (n' = n)) as [->|Hne].
    + simplify_eq. by rewrite lookup_insert_eq, lookup_delete_eq.
    + rewrite lookup_insert_ne. 2:{ intros ->. apply Hne. eapply repr_inj; eauto. }
      rewrite lookup_delete_ne by done. eapply repr_entries; eauto.
  - intros n' v'. destruct (decide (n' = n)) as [->|Hne]; [by rewrite lookup_delete_eq|].
    rewrite lookup_delete_ne by done. apply Hr.
Qed.

(** The facts about the state that running the code reads. *)
Lemma repr_facts l slots w n e f :
  repr l slots w -> l_entry l !! n = Some e -> decl_map !! n = Some f ->
  exists d, w_heap w !! l_mod l = Some (OModule ModuleType d) /\ globals_ok l d /\
    w_heap w !! l_avail l = Some (ODict (VRef <$> l_entry l)) /\
    w_heap w !! e = Some (ODict (entry_dict f (slot slots n))).
Proof.
  intros Hr He Hf. destruct (repr_globals l slots w Hr) as (d & Hm & Hg).
  exists d. split_and!; try done; [apply Hr | by eapply repr_entries].
Qed.

Lemma load_csv_data l slots w f :
  repr l slots w -> _load_csv (l_mod l) (VStr f) w = load_table "data" f w.
Proof.
  intros Hr. destruct (repr_globals l slots w Hr) as (d & Hm & Hav & Hdir & _).
  unfold _load_csv. py_step. done.
Qed.

(** The hook on a declared name whose slot is filled: the stored object,
    nothing changed. *)
Lemma getattr_hit l slots w n e f v :
  repr l slots w -> l_entry l !! n = Some e -> decl_map !! n = Some f ->
  slots !! n = Some v -> __getattr__ (l_mod l) n w = (Ok v, w).
Proof.
  intros Hr He Hf Hv.
  destruct (repr_facts l slots w n e f Hr He Hf) as (d & Hm & (Hav & _) & Ha & Hent).
  destruct (repr_slots l slots w Hr n v Hv) as [_ Hnone].
  unfold slot in Hent. rewrite Hv in Hent. simpl in Hent.
  unfold __getattr__. py_step. py_step.
  rewrite lookup_fmap, He, bool_decide_eq_true_2 by done. cbn [negb].
  py_run. destruct v; try congruence; py_run.
Qed.

Lemma load_table_not_none pkg f w v w1 : load_table pkg f w = (Ok v, w1) -> v <> VNone.
Proof. intros Hl. by destruct (load_table_ok pkg f w v w1 Hl) as [-> _]. Qed.

(** The hook on a declared name whose slot is empty: the loader runs; on
    success the table is stored in [AVAILABLE[name]["cached"]] and returned,
    on failure its exception propagates and nothing is stored. *)
Lemma getattr_miss l slots w n e f :
  repr l slots w -> l_entry l !! n = Some e -> decl_map !! n = Some f ->
  slots !! n = None ->
  __getattr__ (l_mod l) n w =
    match load_table "data" f w with
    | (Ok v, w1) => (Ok v, with_heap (<[e := ODict (entry_dict f v)]> (w_heap w1)) w1)
    | (Err x, w1) => (Err x, w1)
    end.
Proof.
  intros Hr He Hf Hn.
  destruct (repr_facts l slots w n e f Hr He Hf) as (d & Hm & (Hav & _) & Ha & Hent).
  unfold slot in Hent. rewrite Hn in Hent. simpl in Hent.
  unfold __getattr__. py_step. py_step.
  rewrite lookup_fmap, He, bool_decide_eq_true_2 by done. cbn [negb].
  do 6 py_step. rewrite !se_bind_assoc.
  destruct (load_table "data" f w) as [[v|x] w1] eqn:Hl.
  - rewrite (se_bind_ok _ _ _ v w1) by (by rewrite (load_csv_data l slots w f Hr)).
    pose proof (repr_ext l slots w w1 Hr (eq_ind_r (heap_ext w) (load_table_ext "data" f w)
                  (f_equal snd (eq_sym Hl)))) as Hr1.
    clear Hm Ha Hent.
    destruct (repr_facts l slots w1 n e f Hr1 He Hf) as (d1 & Hm & (Hav1 & _) & Ha & Hent).
    unfold slot in Hent. rewrite Hn in Hent. simpl in Hent.
    do 3 py_step. rewrite entry_dict_store.
    pose proof (repr_store l slots w1 n e f v Hr1 He Hf (load_table_not_none _ _ _ _ _ Hl)) as Hr2.
    clear Hm Ha Hent.
    destruct (repr_facts _ _ _ n e f Hr2 He Hf) as (d2 & Hm & (Hav2 & _) & Ha & Hent).
    unfold slot in Hent. rewrite lookup_insert_eq in Hent. simpl in Hent.
    py_run.
  - rewrite (se_bind_err _ _ _ x w1) by (by rewrite (load_csv_data l slots w f Hr)). done.
Qed.

(** The hook on an undeclared name: [AttributeError], nothing changed. *)
Lemma getattr_unknown l slots w n :
  repr l slots w -> decl_map !! n = None ->
  __getattr__ (l_mod l) n w =
    (Err (AttributeError ("datapkg does not have " +:+ n) None), w).
Proof.
  intros Hr Hn. destruct (repr_globals l slots w Hr) as (d & Hm & Hav & _ & Hname & _).
  pose proof (repr_avail l slots w Hr) as Ha.
  unfold __getattr__. do 2 py_step.
  assert (l_entry l !! n = None) as He.
  { destruct (l_entry l !! n) eqn:He; [|done].
    destruct (proj1 (repr_entry_dom l slots w Hr n) (mk_is_Some _ _ He)). congruence. }
  rewrite lookup_fmap, He, bool_decide_eq_false_2 by (by intros []). cbn [negb].
  py_step. done.
Qed.

(** A name bound in the module [__dict__] is read there; the hook is not
    called. *)
Lemma access_global l slots w n v d :
  repr l slots w -> w_heap w !! l_mod l = Some (OModule ModuleType d) -> d !! n = Some v ->
  mro_lookup n (modtype_mro ModuleType) <> Some MDescr ->
  v3_access "datapkg" n w = (Ok v, w).
Proof.
  intros Hr Hm Hn Ht. pose proof (repr_module l slots w Hr).
  unfold v3_access. py_step. exact (module_getattro_hit _ _ _ _ _ Hm n v Hn Ht).
Qed.

Lemma access_hook l slots w n d :
  repr l slots w -> w_heap w !! l_mod l = Some (OModule ModuleType d) -> d !! n = None ->
  mro_lookup n (modtype_mro ModuleType) = None ->
  v3_access "datapkg" n w = __getattr__ (l_mod l) n w.
Proof.
  intros Hr Hm Hn Ht. pose proof (repr_module l slots w Hr).
  destruct (repr_globals l slots w Hr) as (d' & Hm' & (_ & _ & _ & Hga & _)).
  rewrite Hm in Hm'. simplify_eq.
  unfold v3_access. py_step. by rewrite (module_getattro_hook _ _ _ _ _ Hm n _ Hn Ht Hga).
Qed.

Lemma decl_map_cases n f :
  decl_map !! n = Some f ->
  (n = "machines" /\ f = "machines.csv") \/ (n = "persons" /\ f = "persons.csv").
Proof.
  unfold decl_map. simpl. rewrite !lookup_insert, lookup_empty.
  repeat case_decide; intros; simplify_eq; auto.
Qed.

Lemma entry_of_decl l slots w n f :
  repr l slots w -> decl_map !! n = Some f -> exists e, l_entry l !! n = Some e.
Proof. intros Hr Hf. apply (repr_entry_dom l slots w Hr n). eauto. Qed.

Lemma module_not_dataset l slots w n f :
  repr l slots w -> decl_map !! n = Some f ->
  exists d, w_heap w !! l_mod l = Some (OModule ModuleType d) /\ d !! n = None.
Proof.
  intros Hr Hf. destruct (repr_globals l slots w Hr) as (d & Hm & (_ & _ & _ & _ & Hd)).
  exists d. split; [done|]. apply Hd. eauto.
Qed.

(** The first read of [datapkg.__annotations__] stores a new dict in the
    module: the state stays one of the package. *)
Lemma repr_annotate l slots w d :
  repr l slots w -> w_heap w !! l_mod l = Some (OModule ModuleType d) ->
  repr l slots (module_annotate (l_mod l) ModuleType d w).
Proof.
  intros Hr Hm. destruct (repr_alloc l slots w Hr) as (Ham & Haa & Hae).
  destruct (repr_distinct l slots w Hr) as [Hma Hde].
  destruct (repr_globals l slots w Hr) as (d' & Hm' & (Hav & Hdir & Hname & Hga & Hds)).
  rewrite Hm in Hm'. injection Hm' as <-.
  split; simpl; try apply Hr.
  - eexists. split; [apply lookup_insert_eq|].
    split_and!; try (rewrite lookup_insert_ne; [done|done]).
    intros n [f Hf]. rewrite lookup_insert_ne; [apply Hds; eauto|].
    intros <-. by destruct (decl_map_cases _ _ Hf) as [[? _]|[? _]].
  - rewrite !lookup_insert_ne by (try done; lia). apply Hr.
  - intros n e f He Hf. destruct (Hde n e He) as [Hem _]. specialize (Hae n e He).
    rewrite !lookup_insert_ne by (try done; lia). by apply (repr_entries l slots w Hr).
  - split_and!; try lia. intros n e He. specialize (Hae n e He). lia.
Qed.

(** ** The laws of [LazyNamespace] for version 3 *)

Lemma v3_path_inj n1 n2 f1 f2 :
  decl_map !! n1 = Some f1 -> decl_map !! n2 = Some f2 ->
  resource_path "data" f1 = resource_path "data" f2 -> n1 = n2.
Proof.
  intros H1 H2 Hp.
  destruct (decl_map_cases n1 f1 H1) as [[-> ->]|[-> ->]],
           (decl_map_cases n2 f2 H2) as [[-> ->]|[-> ->]]; done.
Qed.

(** A read of an undeclared name calls no loader and keeps the state one
    of the package with the same slots: the hook raises, or the module or
    its type resolves the name, [__annotations__] perhaps being created. *)
Lemma v3_access_undeclared n w :
  v3_inv w -> decl_map !! n = None ->
  v3_inv (v3_access "datapkg" n w).2 /\ cache_of (v3_access "datapkg" n w).2 = cache_of w /\
  w_loads (v3_access "datapkg" n w).2 = w_loads w /\
  w_stdout (v3_access "datapkg" n w).2 = w_stdout w.
Proof.
  intros [l Hr] Hn. destruct (repr_globals l _ w Hr) as (d & Hm & (_ & _ & _ & Hga & _)).
  pose proof (repr_module l _ w Hr). destruct (repr_alloc l _ w Hr) as (Ham & _).
  assert (v3_access "datapkg" n w = module_getattro (call1 (l_mod l)) (l_mod l) n w) as ->
    by (unfold v3_access; by py_step).
  destruct (module_getattro_cases (call1 (l_mod l)) (l_mod l) w ModuleType d Hm n ltac:(lia))
    as [(_ & _ & ->)|[[v ->]|(_ & _ & ->)]]; simpl.
  - rewrite Hga. simpl. rewrite (getattr_unknown l _ w n Hr Hn). by split; [exists l|].
  - by split; [exists l|].
  - pose proof (repr_annotate l _ w d Hr Hm) as Hr1. rewrite <- (cache_of_repr _ _ _ Hr1).
    split_and!; [exists l|..]; by rewrite ?(cache_of_repr _ _ _ Hr1).
Qed.

Lemma v3_access_unknown n w :
  v3_inv w -> decl_map !! n = None -> attr_of w n = false ->
  v3_access "datapkg" n w = (Err (AttributeError ("datapkg does not have " +:+ n) None), w).
Proof.
  intros [l Hr] Hn Ha. destruct (repr_globals l _ w Hr) as (d & Hm & _).
  unfold attr_of, package_dict in Ha. rewrite (repr_module l _ w Hr) in Ha. simpl in Ha.
  rewrite Hm in Ha. apply orb_false_elim in Ha as [Hd Ht].
  apply bool_decide_eq_false_1, eq_None_not_Some in Hd, Ht.
  by rewrite (access_hook l _ w n d Hr Hm Hd Ht), (getattr_unknown l _ w n Hr Hn).
Qed.

(** No dataset name is an attribute of [types.ModuleType]. *)
Lemma decl_not_type n f : decl_map !! n = Some f -> mro_lookup n (modtype_mro ModuleType) = None.
Proof. intros Hf. by destruct (decl_map_cases n f Hf) as [[-> _]|[-> _]]. Qed.

Lemma v3_access_hit n f v w :
  v3_inv w -> decl_map !! n = Some f -> cache_of w !! n = Some v ->
  v3_access "datapkg" n w = (Ok v, w).
Proof.
  intros [l Hr] Hf Hv. destruct (entry_of_decl l _ w n f Hr Hf) as [e He].
  destruct (module_not_dataset l _ w n f Hr Hf) as (d & Hm & Hd).
  rewrite (access_hook l _ w n d Hr Hm Hd (decl_not_type n f Hf)). exact (getattr_hit l _ w n e f v Hr He Hf Hv).
Qed.

Lemma v3_access_miss n f w :
  v3_inv w -> decl_map !! n = Some f -> cache_of w !! n = None ->
  exists l e, repr l (cache_of w) w /\ l_entry l !! n = Some e /\
    v3_access "datapkg" n w =
    match load_table "data" f w with
    | (Ok v, w1) => (Ok v, with_heap (<[e := ODict (entry_dict f v)]> (w_heap w1)) w1)
    | (Err x, w1) => (Err x, w1)
    end.
Proof.
  intros [l Hr] Hf Hn. destruct (entry_of_decl l _ w n f Hr Hf) as [e He].
  destruct (module_not_dataset l _ w n f Hr Hf) as (d & Hm & Hd).
  exists l, e. split_and!; try done.
  rewrite (access_hook l _ w n d Hr Hm Hd (decl_not_type n f Hf)). exact (getattr_miss l _ w n e f Hr He Hf Hn).
Qed.

Lemma v3_access_miss_ok n f v w w1 :
  v3_inv w -> decl_map !! n = Some f -> cache_of w !! n = None ->
  load_table "data" f w = (Ok v, w1) ->
  exists w2, v3_access "datapkg" n w = (Ok v, w2) /\ v3_inv w2 /\
    cache_of w2 = <[n := v]> (cache_of w) /\
    w_loads w2 = w_loads w1 /\ w_stdout w2 = w_stdout w1 /\ same_env w2 w1 /\
    (heap_wf w1 -> heap_grows w1 w2).
Proof.
  intros Hinv Hf Hn Hl.
  destruct (v3_access_miss n f w Hinv Hf Hn) as (l & e & Hr & He & ->). rewrite Hl.
  pose proof (load_table_ext "data" f w) as Hext. rewrite Hl in Hext.
  pose proof (repr_ext l _ w w1 Hr Hext) as Hr1.
  pose proof (repr_store l _ w1 n e f v Hr1 He Hf (load_table_not_none _ _ _ _ _ Hl)) as Hr2.
  eexists. split_and!; [done| eexists; by rewrite (cache_of_repr _ _ _ Hr2) | |done|done|by split|].
  - by rewrite (cache_of_repr _ _ _ Hr2).
  - intros Hwf. by eapply store_grows; [|exact (repr_entries l _ w1 Hr1 n e f He Hf)|].
Qed.

Lemma v3_access_miss_err n f x w w1 :
  v3_inv w -> decl_map !! n = Some f -> cache_of w !! n = None ->
  load_table "data" f w = (Err x, w1) ->
  v3_access "datapkg" n w = (Err x, w1) /\ v3_inv w1 /\ cache_of w1 = cache_of w.
Proof.
  intros Hinv Hf Hn Hl.
  destruct (v3_access_miss n f w Hinv Hf Hn) as (l & e & Hr & He & ->). rewrite Hl.
  pose proof (load_table_ext "data" f w) as Hext. rewrite Hl in Hext.
  pose proof (repr_ext l _ w w1 Hr Hext) as Hr1.
  rewrite (cache_of_repr _ _ _ Hr1). split_and!; [done| |done].
  exists l. by rewrite (cache_of_repr _ _ _ Hr1).
Qed.

Lemma v3_load_log f w : w_stdout (load_table "data" f w).2 = w_stdout w ++ [].
Proof. by rewrite load_table_stdout, app_nil_r. Qed.

(** Version 3 is a lazy namespace: its hook discharges the registry laws. *)
#[export] Instance v3_namespace : LazyNamespace := {|
  ln_decl := decl_map;
  ln_path := resource_path "data";
  ln_load := load_table "data";
  ln_log := fun _ => [];
  ln_access := v3_access "datapkg";
  ln_cache := cache_of;
  ln_inv := v3_inv;
  ln_attr := attr_of;
  ln_unknown := fun _ n => AttributeError ("datapkg does not have " +:+ n) None;
  ln_path_inj := v3_path_inj;
  ln_load_trace := load_table_trace "data";
  ln_load_log := v3_load_log;
  ln_load_env := load_table_env "data";
  ln_load_heap := load_table_heap "data";
  ln_access_undeclared := v3_access_undeclared;
  ln_access_unknown := v3_access_unknown;
  ln_access_hit := v3_access_hit;
  ln_access_miss_ok := v3_access_miss_ok;
  ln_access_miss_err := v3_access_miss_err
|}.

Lemma lookup_l_entry_cases n0 n e :
  (<["machines" := S n0]> (<["persons" := S (S n0)]> ∅) : gmap string oid) !! n = Some e ->
  (n = "machines" /\ e = S n0) \/ (n = "persons" /\ e = S (S n0)).
Proof. rewrite !lookup_insert, lookup_empty. repeat case_decide; intros; simplify_eq; auto. Qed.

(** Importing the package (from any interpreter state) establishes the
    invariant, at the layout the allocations of the module body give, with
    every slot empty. *)
Lemma v3_import_run w0 :
  exists w1, v3_import "datapkg" w0 = (Ok (w_next w0), w1) /\ w_loads w1 = w_loads w0 /\
  same_env w1 w0 /\ repr (mkLayout (w_next w0) (S (S (S (w_next w0))))
          (<["machines" := S (w_next w0)]> (<["persons" := S (S (w_next w0))]> ∅))) ∅ w1.
Proof.
  eexists. unfold v3_import, v3_exec, module_store, build_available, new_entry,
    available_decl, deref, heap_store, alloc. se_unfold. simpl.
  repeat (first [rewrite lookup_insert_eq | rewrite lookup_insert_ne by lia]; simpl).
  split; [reflexivity|]. split; [reflexivity|]. split; [split; reflexivity|].
  set (n0 := w_next w0).
  split; simpl.
  - apply lookup_insert_eq.
  - eexists. rewrite lookup_insert_eq. split; [done|].
    split_and!; try reflexivity.
    intros n [f Hf]. by destruct (decl_map_cases n f Hf) as [[-> _]|[-> _]].
  - rewrite !lookup_insert_ne by lia. rewrite lookup_insert_eq. reflexivity.
  - intros n. split; intros [x Hx].
    + destruct (lookup_l_entry_cases n0 n x Hx) as [[-> _]|[-> _]]; by eexists.
    + destruct (decl_map_cases n x Hx) as [[-> _]|[-> _]]; by eexists.
  - intros n e f He Hf.
    destruct (lookup_l_entry_cases n0 n e He) as [[-> ->]|[-> ->]];
      destruct (decl_map_cases _ f Hf) as [[? ->]|[? ->]]; try discriminate;
      rewrite !lookup_insert_ne by lia; rewrite lookup_insert_eq; reflexivity.
  - intros n v Hv. by rewrite lookup_empty in Hv.
  - split; [lia|]. intros n e He.
    destruct (lookup_l_entry_cases n0 n e He) as [[_ ->]|[_ ->]]; lia.
  - intros n1 n2 e H1 H2.
    destruct (lookup_l_entry_cases n0 n1 e H1) as [[-> ->]|[-> ->]],
             (lookup_l_entry_cases n0 n2 _ H2) as [[-> ?]|[-> ?]]; auto; lia.
  - split_and!; try lia. intros n e He.
    destruct (lookup_l_entry_cases n0 n e He) as [[_ ->]|[_ ->]]; lia.
Qed.

Lemma v3_import_inv w0 : v3_inv (v3_import "datapkg" w0).2.
Proof.
  destruct (v3_import_run w0) as (w1 & -> & _ & _ & Hr). simpl.
  eexists. by rewrite (cache_of_repr _ _ _ Hr).
Qed.

(** The state after [import datapkg] in the process [w0], then the reads
    [ns]. *)
Definition v3_reached (w0 : world) (ns : list string) : world :=
  (run_accesses (H := v3_namespace) ns (v3_import "datapkg" w0).2).2.

Lemma v3_reached_inv w0 ns : v3_inv (v3_reached w0 ns).
Proof. exact (run_accesses_inv (H := v3_namespace) ns _ (v3_import_inv w0)). Qed.

(** ** Properties of version 3 *)

(** C16: importing the package, from any process state, establishes
    the invariant of the hook's state with every slot empty and without
    calling the loader: nothing is loaded before it is referenced. *)
Theorem v3_import_unloaded w0 :
  v3_inv (v3_import "datapkg" w0).2 /\ cache_of (v3_import "datapkg" w0).2 = ∅ /\
  w_loads (v3_import "datapkg" w0).2 = w_loads w0.
Proof.
  split; [apply v3_import_inv|].
  destruct (v3_import_run w0) as (w1 & Hrun & Hl & _ & Hr). rewrite Hrun. simpl.
  by rewrite (cache_of_repr _ _ _ Hr).
Qed.

Lemma imported_world_inv : v3_inv imported_world.
Proof. apply v3_import_inv. Qed.

(** C1: every read of a declared name, or of a name the module
    [__dict__] does not bind, through the hook behaves as the registry's
    [get] on the cache the state holds: the same result (an unknown name as
    the hook's [AttributeError]), the same cache afterwards, the same loads
    and the same output. *)
Theorem v3_refines_registry n w :
  v3_inv w -> (decl_map !! n = None -> attr_of w n = false) ->
  let '(r, w') := v3_access "datapkg" n w in
  let '(r', c', w'') := reg_get decl_map (load_table "data") n (cache_of w) w in
  r = report (AttributeError ("datapkg does not have " +:+ n) None) r' /\
  cache_of w' = c' /\ w_loads w' = w_loads w'' /\ w_stdout w' = w_stdout w''.
Proof. exact (access_refines_reg_get (H := v3_namespace) n w). Qed.

Lemma v3_refines_registry_witness :
  v3_inv imported_world /\
  (decl_map !! "machines" = None -> attr_of imported_world "machines" = false) /\
  let '(r, w') := v3_access "datapkg" "machines" imported_world in
  let '(r', c', w'') := reg_get decl_map (load_table "data") "machines"
                          (cache_of imported_world) imported_world in
  r = report (AttributeError ("datapkg does not have " +:+ "machines") None) r' /\
  cache_of w' = c' /\ w_loads w' = w_loads w'' /\ w_stdout w' = w_stdout w''.
Proof.
  split; [exact imported_world_inv|]. split; [vm_compute; discriminate|].
  apply v3_refines_registry; [exact imported_world_inv|vm_compute; discriminate].
Defined.

(** C8: a client that reads a declared dataset at least once, with
    no failed read, from a state where it is not loaded yet, makes the
    loader read its file exactly once, however many reads of any names the
    sequence holds. *)
Theorem v3_loads_exactly_once ns w n f :
  v3_inv w -> decl_map !! n = Some f -> cache_of w !! n = None -> n ∈ ns ->
  failures n ns (run_accesses ns w).1 = 0 ->
  occurrences (resource_path "data" f) (w_loads (run_accesses ns w).2) =
  occurrences (resource_path "data" f) (w_loads w) + 1.
Proof. exact (run_loads_exactly_once (H := v3_namespace) ns w n f). Qed.

Lemma v3_loads_exactly_once_witness :
  occurrences (resource_path "data" "machines.csv")
    (w_loads (run_accesses ["machines"; "persons"; "machines"] imported_world).2) =
  occurrences (resource_path "data" "machines.csv") (w_loads imported_world) + 1.
Proof.
  apply (v3_loads_exactly_once _ _ "machines");
    [exact imported_world_inv|reflexivity|vm_compute; reflexivity|
     by vm_compute; left|vm_compute; reflexivity].
Defined.

(** C11: all successful reads of one dataset in a sequence of reads
    return the same object (identity, not only equal rows), the one its
    slot [AVAILABLE[n]["cached"]] holds at the end of the sequence. *)
Theorem v3_same_object ns w n i j v1 v2 :
  v3_inv w -> is_Some (decl_map !! n) -> ns !! i = Some n -> ns !! j = Some n ->
  (run_accesses ns w).1 !! i = Some (Ok v1) -> (run_accesses ns w).1 !! j = Some (Ok v2) ->
  v1 = v2 /\ cache_of (run_accesses ns w).2 !! n = Some v1.
Proof.
  intros Hinv Hd Hi Hj Hri Hrj. split; [exact (run_same_object (H := v3_namespace) ns w n i j v1 v2 Hinv Hd Hi Hj Hri Hrj)|].
  exact (run_reads_final_value (H := v3_namespace) ns w n i v1 Hinv Hd Hi Hri).
Qed.

(** Reads 0 and 2 of [machines], with a read of [persons] between them
    that allocates another list, both return the object [4]. *)
Lemma v3_same_object_witness :
  let rs := (run_accesses ["machines"; "persons"; "machines"] imported_world).1 in
  rs !! 0 = Some (Ok (VRef 4)) /\ rs !! 1 = Some (Ok (VRef 5)) /\
  rs !! 2 = Some (Ok (VRef 4)) /\
  (VRef 4 = VRef 4 /\
   cache_of (run_accesses ["machines"; "persons"; "machines"] imported_world).2 !! "machines" = Some (VRef 4)).
Proof.
  assert (Hr : (run_accesses ["machines"; "persons"; "machines"] imported_world).1 =
               [Ok (VRef 4); Ok (VRef 5); Ok (VRef 4)]) by (vm_compute; reflexivity).
  cbv zeta. rewrite Hr. do 3 (split; [reflexivity|]).
  apply (v3_same_object ["machines"; "persons"; "machines"] imported_world "machines" 0 2);
    [exact imported_world_inv|by eexists|reflexivity|reflexivity|by rewrite Hr|by rewrite Hr].
Defined.

(** C12: a load that fails propagates the loader's exception and
    leaves the slot empty, so the next read of the same dataset calls the
    loader again. *)
Theorem v3_failed_load_retried n f x w w1 :
  v3_inv w -> decl_map !! n = Some f -> cache_of w !! n = None ->
  load_table "data" f w = (Err x, w1) ->
  v3_access "datapkg" n w = (Err x, w1) /\ cache_of w1 !! n = None /\
  w_loads (v3_access "datapkg" n w1).2 = w_loads w1 ++ [resource_path "data" f].
Proof. exact (failed_load_retried (H := v3_namespace) n f x w w1). Qed.

Lemma v3_failed_load_retried_witness :
  let w := (v3_import "datapkg" broken_world).2 in
  v3_access "datapkg" "machines" w = (Err (FileNotFoundError "data/machines.csv"),
                                      (load_table "data" "machines.csv" w).2) /\
  cache_of (load_table "data" "machines.csv" w).2 !! "machines" = None /\
  w_loads (v3_access "datapkg" "machines" (load_table "data" "machines.csv" w).2).2 =
  w_loads (load_table "data" "machines.csv" w).2 ++ [resource_path "data" "machines.csv"].
Proof.
  apply (v3_failed_load_retried _ "machines.csv");
    [apply v3_import_inv|reflexivity|vm_compute; reflexivity|vm_compute; reflexivity].
Defined.

(** C14: reading a name that is neither declared nor bound in the
    module raises [AttributeError] naming the package and the name, and
    changes nothing (in particular, the loader is not called). *)
Theorem v3_unknown_name n w :
  v3_inv w -> decl_map !! n = None -> attr_of w n = false ->
  v3_access "datapkg" n w = (Err (AttributeError ("datapkg does not have " +:+ n) None), w).
Proof.
  exact (v3_access_unknown n w).
Qed.

Lemma v3_unknown_name_witness :
  v3_access "datapkg" "vehicles" imported_world =
  (Err (AttributeError "datapkg does not have vehicles" None), imported_world).
Proof.
  apply v3_unknown_name; [exact imported_world_inv|reflexivity|vm_compute; reflexivity].
Defined.

(** C31: names outside the declared set that the module body binds
    are not rejected: after [import datapkg] and any reads, whatever the
    process, [datapkg.DATA_DIR] is the string ["data"] of line 5 and
    [datapkg.AVAILABLE] is the dict of lines 6-9 itself, one entry per
    declared dataset, each holding that dataset's file and slot. *)
Theorem v3_module_globals_resolve w0 ns :
  let w := v3_reached w0 ns in
  v3_access "datapkg" "DATA_DIR" w = (Ok (VStr "data"), w) /\
  exists a D, v3_access "datapkg" "AVAILABLE" w = (Ok (VRef a), w) /\
    w_heap w !! a = Some (ODict D) /\
    forall n f, decl_map !! n = Some f ->
      exists e, D !! n = Some (VRef e) /\
        w_heap w !! e = Some (ODict (entry_dict f (slot (cache_of w) n))).
Proof.
  intros w. destruct (v3_reached_inv w0 ns) as [l Hr].
  destruct (repr_globals l _ w Hr) as (d & Hm & Hav & Hdir & _).
  split; [exact (access_global l _ w "DATA_DIR" _ d Hr Hm Hdir ltac:(vm_compute; congruence))|].
  exists (l_avail l), (VRef <$> l_entry l). split_and!.
  - exact (access_global l _ w "AVAILABLE" _ d Hr Hm Hav ltac:(vm_compute; congruence)).
  - apply Hr.
  - intros n f Hf. destruct (entry_of_decl l _ w n f Hr Hf) as [e He]. exists e.
    rewrite lookup_fmap, He. split; [done|]. exact (repr_entries l _ w Hr n e f He Hf).
Qed.

Lemma v3_module_globals_resolve_witness :
  let w := v3_reached example_world ["machines"] in
  v3_access "datapkg" "DATA_DIR" w = (Ok (VStr "data"), w) /\
  exists a D, v3_access "datapkg" "AVAILABLE" w = (Ok (VRef a), w) /\
    w_heap w !! a = Some (ODict D) /\
    forall n f, decl_map !! n = Some f ->
      exists e, D !! n = Some (VRef e) /\
        w_heap w !! e = Some (ODict (entry_dict f (slot (cache_of w) n))).
Proof. exact (v3_module_globals_resolve example_world ["machines"]). Defined.

(** The scenario of spec section 8.  Reading [machines]
    twice and [vehicles] once after the import reads [machines.csv] once,
    returns the same list of its rows twice, leaves [persons] unloaded, and
    rejects [vehicles]. *)
Example v3_scenario :
  let '(rs, w') := run_accesses ["machines"; "machines"; "vehicles"] imported_world in
  rs = [Ok (VRef 4); Ok (VRef 4);
        Err (AttributeError "datapkg does not have vehicles" None)] /\
  w_heap w' !! 4 = Some (OTable [["id"; "type"]; ["1"; "drill"]]) /\
  w_loads w' = ["data/machines.csv"] /\ cache_of w' !! "persons" = None.
Proof. vm_compute. split_and!; reflexivity. Qed.

(** With [machines.csv] missing, the first read fails with the
    loader's [FileNotFoundError]; once the file is present, the next read
    loads it and caches it. *)
Example v3_retry_after_fix :
  let w1 := (v3_import "datapkg" broken_world).2 in
  let '(r1, w2) := v3_access "datapkg" "machines" w1 in
  let '(r2, w3) := v3_access "datapkg" "machines" (with_files example_files w2) in
  r1 = Err (FileNotFoundError "data/machines.csv") /\
  r2 = Ok (VRef 4) /\ cache_of w3 !! "machines" = Some (VRef 4) /\
  w_loads w3 = ["data/machines.csv"; "data/machines.csv"].
Proof. vm_compute. split_and!; reflexivity. Qed.

(** C28: the loads of version 3 are not observable on the output:
    however many datasets a client reads, loaded or not, nothing is
    printed. *)
Theorem v3_loads_silently ns w :
  v3_inv w -> w_stdout (run_accesses ns w).2 = w_stdout w.
Proof.
  intros Hinv. destruct (run_output (H := v3_namespace) ns w Hinv) as (fs & _ & Ho).
  rewrite Ho. simpl. by rewrite concat_map_nil, app_nil_r.
Qed.

Lemma v3_loads_silently_witness :
  w_stdout (run_accesses ["machines"; "persons"; "machines"] imported_world).2 =
  w_stdout imported_world.
Proof. apply v3_loads_silently. exact imported_world_inv. Defined.

(** C29: the cache is not write-once: after [import datapkg] and any
    reads, a client empties a filled or empty slot through
    [datapkg.AVAILABLE[n]["cached"] = None], without any loader call; the
    state stays one of the package, and the next read of [n] loads its
    file again. *)
Theorem v3_client_resets_slot w0 ns n f :
  decl_map !! n = Some f ->
  let w := v3_reached w0 ns in
  exists w1, v3_reset "datapkg" n w = (Ok tt, w1) /\ v3_inv w1 /\
    cache_of w1 = delete n (cache_of w) /\ w_loads w1 = w_loads w /\
    w_loads (v3_access "datapkg" n w1).2 = w_loads w1 ++ [resource_path "data" f].
Proof.
  intros Hf w. destruct (v3_reached_inv w0 ns) as [l Hr].
  destruct (entry_of_decl l _ w n f Hr Hf) as [e He].
  destruct (repr_facts l _ w n e f Hr He Hf) as (d & Hm & (Hav & _) & Ha & Hent).
  pose proof (repr_reset l _ w n e f Hr He Hf) as Hr1.
  assert (v3_inv (with_heap (<[e := ODict (entry_dict f VNone)]> (w_heap w)) w)) as Hinv1
    by (exists l; by rewrite (cache_of_repr _ _ _ Hr1)).
  exists (with_heap (<[e := ODict (entry_dict f VNone)]> (w_heap w)) w). split_and!.
  - unfold v3_reset. rewrite (se_bind_ok _ _ _ _ _ (access_global l _ w _ _ d Hr Hm Hav ltac:(vm_compute; congruence))).
    py_run. by rewrite (dict_setitem_ok _ _ _ _ _ Hent), entry_dict_store.
  - exact Hinv1.
  - by rewrite (cache_of_repr _ _ _ Hr1).
  - done.
  - apply (access_miss_loads (H := v3_namespace) n f _ Hinv1 Hf). simpl.
    by rewrite (cache_of_repr _ _ _ Hr1), lookup_delete_eq.
Qed.

Lemma v3_client_resets_slot_witness :
  let w := v3_reached example_world ["machines"] in
  exists w1, v3_reset "datapkg" "machines" w = (Ok tt, w1) /\ v3_inv w1 /\
    cache_of w1 = delete "machines" (cache_of w) /\ w_loads w1 = w_loads w /\
    w_loads (v3_access "datapkg" "machines" w1).2 = w_loads w1 ++ [resource_path "data" "machines.csv"].
Proof. exact (v3_client_resets_slot example_world ["machines"] "machines" "machines.csv" eq_refl). Defined.
End V3.
