(* ===== verification/LoaderV1.v ===== *)
(** * Version 1, the library: [src/datapkg/package.py]

    [BaseDatasetLoader] is the base class of a data package's loader: its
    subclasses declare one [functools.cached_property] per dataset, and
    [install] creates one loader instance, collects the names of the cached
    properties ([discover_cached_properties], through [inspect.getmembers]),
    and calls [create_lazy_package], which replaces the package in
    [sys.modules] by a [LazyModule]: a module whose [__dict__] is a copy of
    the package's, and whose [__getattr__] forwards every name the
    [__dict__] does not resolve to [getattr(loader, name)], turning an
    [AttributeError] of the loader into one that names the module.

    Classes are data ([pyclass], the MRO of [__dict__]s); the attribute
    lookup that reaches the loader is [Attr.object_getattribute]; the
    members of [object] every class inherits are [Attr.object_dict]. *)

From stdpp Require Import base gmap strings list.
From S2P Require Import Prelude PyRuntime Attr.
Local Open Scope se_scope.

Module Package.

(** ** [class BaseDatasetLoader] (lines 64-110) *)

(** [DATA_DIR = "data"] *)
Definition DATA_DIR : pyval := VStr "data".

(** The class body (lines 64-110), with the descriptors [__dict__] and
    [__weakref__] that [type] adds to a class whose base is [object]. *)
Definition BaseDatasetLoader_dict : list (string * member) :=
  [("__module__", MData (VStr "datapkg.package"));
   ("__doc__", MData (VStr "Base class for dataset loaders."));
   ("DATA_DIR", MData DATA_DIR);
   ("load_csv", MFunction);
   ("discover_cached_properties", MClassMethod);
   ("install", MClassMethod);
   ("__dict__", MDescr); ("__weakref__", MDescr)].

Definition BaseDatasetLoader : pyclass :=
  mkClass "BaseDatasetLoader" [BaseDatasetLoader_dict; object_dict].

(** [def load_csv(self, filename)] (lines 73-87): print, then read the rows
    of [BaseDatasetLoader.DATA_DIR/filename] into a new list.  The package
    directory is read from [BaseDatasetLoader] itself, not from [self]'s
    class. *)
Definition load_csv (self : oid) (filename : string) : PyM pyval :=
  let* _ := print ("loading " +:+ filename) in
  let* data_dir := class_getattr BaseDatasetLoader "DATA_DIR" in
  match data_dir with
  | VStr pkg =>
      let* rows := read_csv_resource pkg filename in
      let* r := alloc (OTable rows) in
      return (VRef r)
  | _ => raise (TypeError "expected str")
  end.

(** [dir(cls)]: the names of the [__dict__]s along the MRO, sorted, once. *)
Definition class_dir (c : pyclass) : list string :=
  sort_names (remove_dups (concat (map (map fst) (cls_mro c)))).

(** [inspect.getmembers(cls)]: each name of [dir(cls)] with [getattr(cls,
    name)], sorted by name.  A [cached_property] read on the class is the
    descriptor itself. *)
Definition getmembers (c : pyclass) : list (string * member) :=
  omap (fun k => (fun m => (k, m)) <$> mro_lookup k (cls_mro c)) (class_dir c).

Definition is_cached_property (m : member) : bool :=
  match m with MCachedProperty _ => true | _ => false end.

(** [def discover_cached_properties(cls)] (lines 89-99). *)
Definition discover_cached_properties (c : pyclass) : list string :=
  map fst (List.filter (fun p => negb (startswith_underscore p.1) && is_cached_property p.2)
                       (getmembers c)).

(** ** [class LazyModule(types.ModuleType)] (lines 9-43) *)

(** The [__dict__] [types.ModuleType.__init__(self, name)] creates. *)
Definition module_init_dict (name : string) : gmap string pyval :=
  <["__spec__" := VNone]> (<["__loader__" := VNone]> (<["__package__" := VNone]>
    (<["__doc__" := VNone]> (<["__name__" := VStr name]> ∅)))).

(** [LazyModule(name, loader)] (lines 16-24). *)
Definition LazyModule_init (name : string) (loader : pyval) : PyM oid :=
  let* m := alloc (OModule LazyModuleType (module_init_dict name)) in
  let* _ := module_store m "_loader" loader in
  return m.

(** [self._loader] and [self.__name__] inside [LazyModule]: read from the
    module [__dict__], where [__init__] stored them.  Were one missing, the
    read would re-enter [__getattr__] without end: a [RecursionError]. *)
Definition module_own_attr (m : oid) (k : string) : PyM pyval :=
  let* d := module_dict m in
  match d !! k with
  | Some v => return v
  | None => raise (SystemError "maximum recursion depth exceeded")
  end.

(** The [except AttributeError as exc:] clause of [__getattr__] (lines
    40-43): an [AttributeError] naming the module, chained to [exc]. *)
Definition LazyModule_except (m : oid) (name : string) (exc : exc) : PyM pyval :=
  let* modname := module_own_attr m "__name__" in
  raise (AttributeError ("Module '" +:+ str_of modname +:+ "' has no attribute '"
                         +:+ name +:+ "'") (Some exc)).

Section LazyModuleAttr.
(** The program's classes, by name. *)
Context (class_of : string -> option pyclass).

(** [def __getattr__(self, name)] (lines 26-43). *)
Definition LazyModule_getattr (m : oid) (name : string) : PyM pyval :=
  catch_attribute_error
    (let* loader := module_own_attr m "_loader" in
     getattr_object class_of loader name)
    (LazyModule_except m name).

(** [getattr(module, name)]: for a [LazyModule], the class's [__getattr__]
    runs when [ModuleType.__getattribute__] raises [AttributeError]. *)
Definition getattr_module (call1 : pyval -> pyval -> PyM pyval) (m : oid) (name : string)
    : PyM pyval :=
  let* o := deref m in
  match o with
  | OModule LazyModuleType _ =>
      catch_attribute_error (module_getattro call1 m name)
                            (fun _ => LazyModule_getattr m name)
  | OModule ModuleType _ => module_getattro call1 m name
  | _ => raise (TypeError "not a module")
  end.
End LazyModuleAttr.

(** ** [def create_lazy_package(package_name, loader, names=None)] (lines 46-61) *)

(** [sys.modules[pkg]] *)
Definition sys_modules_getitem (pkg : string) : PyM oid :=
  fun w => match w_modules w !! pkg with
           | Some m => (Ok m, w)
           | None => (Err (KeyError pkg), w)
           end.

(** [sys.modules[pkg] = m] *)
Definition sys_modules_setitem (pkg : string) (m : oid) : PyM unit :=
  se_modify (fun w => with_modules (<[pkg := m]> (w_modules w)) w).

(** [dst.__dict__.update(src.__dict__)]: the entries of [src] win. *)
Definition module_dict_update (dst src : oid) : PyM unit :=
  let* d := module_dict dst in
  let* s := module_dict src in
  let* o := deref dst in
  match o with
  | OModule ty _ => heap_store dst (OModule ty (s ∪ d))
  | _ => raise (TypeError "not a module")
  end.

Definition create_lazy_package (package_name : string) (loader : pyval)
    (names : option (list string)) : PyM unit :=
  let* original_module := sys_modules_getitem package_name in
  let* lazy_module := LazyModule_init package_name loader in
  let* _ := module_dict_update lazy_module original_module in
  let* _ := sys_modules_setitem package_name lazy_module in
  module_store lazy_module "__all__" (VStrList (default [] names)).

(** [@classmethod def install(cls, package_name)] (lines 101-110). *)
Definition install (cls : pyclass) (package_name : string) : PyM unit :=
  let* loader_instance := alloc (OInst (cls_name cls) ∅) in
  let exported_names := discover_cached_properties cls in
  create_lazy_package package_name (VRef loader_instance) (Some exported_names).

(** A process whose package [pkg], before [create_lazy_package], binds a
    global named [_loader], as a module defining [class _loader] does. *)
Definition shadow_world : world :=
  mkWorld {["data"]} example_files
    {[0 := OModule ModuleType (<["_loader" := VStr "mine"]> (<["__name__" := VStr "pkg"]> ∅))]}
    1 {["pkg" := 0]} [] [].

(** ** Lemmas: [dir], [getmembers] and the class attribute lookup *)

Lemma elem_of_class_dir c x : x ∈ class_dir c <-> is_Some (mro_lookup x (cls_mro c)).
Proof. unfold class_dir. by rewrite elem_of_sort_names, elem_of_remove_dups, mro_lookup_elem_of. Qed.

Lemma NoDup_class_dir c : NoDup (class_dir c).
Proof. unfold class_dir. rewrite sort_names_perm. apply NoDup_remove_dups. Qed.

Lemma map_fst_omap_pair {B} (g : string -> option B) (l : list string) :
  (forall k, k ∈ l -> is_Some (g k)) ->
  map fst (omap (fun k => (fun b => (k, b)) <$> g k) l) = l.
Proof.
  induction l as [|k l IH]; intros Hg; [done|]. simpl.
  destruct (Hg k (list_elem_of_here _ _)) as [b Hb]. rewrite Hb. simpl.
  f_equal. apply IH. intros k' Hk'. apply Hg. by apply list_elem_of_further.
Qed.

Lemma map_fst_getmembers c : map fst (getmembers c) = class_dir c.
Proof. apply map_fst_omap_pair. intros k. apply elem_of_class_dir. Qed.

Lemma elem_of_getmembers c x m : (x, m) ∈ getmembers c <-> mro_lookup x (cls_mro c) = Some m.
Proof.
  unfold getmembers. rewrite list_elem_of_omap. split.
  - intros (k & Hk & Hm). destruct (mro_lookup k (cls_mro c)) eqn:Hl; simplify_eq/=. done.
  - intros Hm. exists x. split; [apply elem_of_class_dir; eauto|]. by rewrite Hm.
Qed.

Lemma sublist_list_filter {A} (f : A -> bool) (l : list A) : List.filter f l `sublist_of` l.
Proof.
  induction l as [|x l IH]; simpl; [done|].
  destruct (f x); [by apply sublist_skip|by apply sublist_cons].
Qed.

Lemma elem_of_list_filter_bool {A} (f : A -> bool) (l : list A) x :
  x ∈ List.filter f l <-> x ∈ l /\ f x = true.
Proof. rewrite !list_elem_of_In. apply filter_In. Qed.

Lemma module_own_attr_ok m w ty d k v :
  w_heap w !! m = Some (OModule ty d) -> d !! k = Some v -> module_own_attr m k w = (Ok v, w).
Proof. intros Hm Hk. unfold module_own_attr. py_step. by rewrite Hk. Qed.

#[export] Hint Resolve module_own_attr_ok : datapkg.

Lemma sublist_map {A B} (f : A -> B) (l1 l2 : list A) :
  l1 `sublist_of` l2 -> map f l1 `sublist_of` map f l2.
Proof. induction 1; simpl; by constructor. Qed.

(** ** [create_lazy_package] *)

(** From a state where [sys.modules[pkg]] is a module with [__dict__] [d0],
    [create_lazy_package] binds [pkg] to a fresh [LazyModule] whose
    [__dict__] is [d0] over the entries of [LazyModule.__init__]
    (line 59: the original's entries win), then [__all__] (line 61). *)
Lemma create_lazy_package_run pkg loader names orig ty d0 w :
  w_modules w !! pkg = Some orig -> w_heap w !! orig = Some (OModule ty d0) ->
  w_heap w !! w_next w = None ->
  exists w', create_lazy_package pkg loader names w = (Ok tt, w') /\
    w_modules w' = <[pkg := w_next w]> (w_modules w) /\ w_next w' = S (w_next w) /\
    w_heap w' = <[w_next w := OModule LazyModuleType
                   (<["__all__" := VStrList (default [] names)]>
                      (d0 ∪ <["_loader" := loader]> (module_init_dict pkg)))]> (w_heap w).
Proof.
  intros Hm Ho Hfresh. assert (orig <> w_next w) as Hne by congruence.
  eexists. unfold create_lazy_package, sys_modules_getitem, LazyModule_init, module_dict_update,
    sys_modules_setitem, module_store, module_dict, deref, heap_store, alloc.
  se_unfold. simpl. rewrite Hm. simpl.
  repeat (first [rewrite lookup_insert_eq | rewrite lookup_insert_ne by congruence | rewrite Ho]; simpl).
  split; [reflexivity|]. cbn [w_modules w_next w_heap with_heap with_modules with_next].
  split_and!; [done|done|]. by rewrite !insert_insert_eq.
Qed.

(** [getattr(module, name)] for a name in the module's [__dict__] other
    than the type's descriptors [__class__] and [__dict__]. *)
Lemma getattr_module_hit class_of call1 m w ty d n v :
  w_heap w !! m = Some (OModule ty d) -> d !! n = Some v -> n <> "__class__" -> n <> "__dict__" ->
  getattr_module class_of call1 m n w = (Ok v, w).
Proof.
  intros Hm Hn Hc Hd. pose proof (module_getattro_global call1 m w ty d Hm n v Hn Hc Hd) as Hh.
  unfold getattr_module. rewrite (se_bind_ok _ _ _ _ _ (deref_ok _ _ _ Hm)).
  destruct ty; [exact Hh|exact (se_catch_ok _ _ _ _ _ Hh)].
Qed.

(** C20: [create_lazy_package] round trip: after it, every global of the
    original module but [__all__] reads back through [datapkg.name] as the
    value the original bound, and [__all__] reads back as the names given;
    a global of the original named [_loader] therefore replaces the
    [LazyModule]'s own [self._loader]. [__class__] and [__dict__] are
    excepted: they are data descriptors of the module type, which
    [object.__getattribute__] consults before the module's [__dict__]. *)
Theorem create_lazy_package_roundtrip class_of call1 pkg loader names orig ty d0 w :
  w_modules w !! pkg = Some orig -> w_heap w !! orig = Some (OModule ty d0) ->
  w_heap w !! w_next w = None ->
  exists w', create_lazy_package pkg loader names w = (Ok tt, w') /\
    w_modules w' !! pkg = Some (w_next w) /\
    getattr_module class_of call1 (w_next w) "__all__" w' = (Ok (VStrList (default [] names)), w') /\
    forall k v, k <> "__all__" -> k <> "__class__" -> k <> "__dict__" -> d0 !! k = Some v ->
      getattr_module class_of call1 (w_next w) k w' = (Ok v, w').
Proof.
  intros Hm Ho Hfresh.
  destruct (create_lazy_package_run pkg loader names orig ty d0 w Hm Ho Hfresh)
    as (w' & Hrun & Hmods & _ & Hheap).
  assert (w_heap w' !! w_next w = Some (OModule LazyModuleType
            (<["__all__" := VStrList (default [] names)]>
               (d0 ∪ <["_loader" := loader]> (module_init_dict pkg))))) as Hl
    by (rewrite Hheap; apply lookup_insert_eq).
  exists w'. split_and!; [done|rewrite Hmods; apply lookup_insert_eq| |].
  - eapply getattr_module_hit; [exact Hl|apply lookup_insert_eq|done|done].
  - intros k v Hk Hc Hd Hv. eapply getattr_module_hit; [exact Hl| |done|done].
    rewrite lookup_insert_ne by congruence. by apply lookup_union_Some_l.
Qed.

Lemma create_lazy_package_roundtrip_witness :
  exists w', create_lazy_package "pkg" (VRef 7) None shadow_world = (Ok tt, w') /\
    w_modules w' !! "pkg" = Some (w_next shadow_world) /\
    getattr_module (fun _ => None) (fun _ _ => raise (TypeError "not callable"))
      (w_next shadow_world) "__all__" w' = (Ok (VStrList (default [] None)), w') /\
    forall k v, k <> "__all__" -> k <> "__class__" -> k <> "__dict__" ->
      (<["_loader" := VStr "mine"]> (<["__name__" := VStr "pkg"]> ∅) : gmap string pyval) !! k = Some v ->
      getattr_module (fun _ => None) (fun _ _ => raise (TypeError "not callable"))
        (w_next shadow_world) k w' = (Ok v, w').
Proof. apply (create_lazy_package_roundtrip _ _ _ _ _ 0 ModuleType); vm_compute; reflexivity. Defined.

(** With the package's own [_loader] copied over the [LazyModule]'s, a
    dataset read forwards to that global, not to the loader instance it
    was given, and fails. *)
Example lazy_module_loader_shadowed :
  let w' := (create_lazy_package "pkg" (VRef 7) None shadow_world).2 in
  LazyModule_getattr (fun _ => None) 1 "machines" w' =
  (Err (AttributeError "Module 'pkg' has no attribute 'machines'"
          (Some (AttributeError (object_attr_error_msg "object" "machines") None))), w').
Proof. vm_compute. reflexivity. Qed.

(** ** [discover_cached_properties] *)

(** C19: [discover_cached_properties(cls)] lists each name once, in
    the order of [dir(cls)] (sorted by name), and lists exactly the names
    that do not start with an underscore and whose attribute on the class,
    along its MRO, is a [cached_property]. *)
Theorem discover_cached_properties_spec c :
  NoDup (discover_cached_properties c) /\
  discover_cached_properties c `sublist_of` class_dir c /\
  forall x, x ∈ discover_cached_properties c <->
    startswith_underscore x = false /\
    exists f, mro_lookup x (cls_mro c) = Some (MCachedProperty f).
Proof.
  assert (discover_cached_properties c `sublist_of` class_dir c) as Hsub.
  { unfold discover_cached_properties. rewrite <- map_fst_getmembers.
    apply sublist_map, sublist_list_filter. }
  split_and!; [|done|].
  - eapply sublist_NoDup; [apply NoDup_class_dir|exact Hsub].
  - intros x. unfold discover_cached_properties.
    rewrite list_elem_of_In, in_map_iff. split.
    + intros ([x' m] & <- & Hin). apply list_elem_of_In, elem_of_list_filter_bool in Hin.
      destruct Hin as [Hin Hp]. apply elem_of_getmembers in Hin. simpl in *.
      apply andb_prop in Hp as [Hu Hc]. destruct m; try discriminate.
      split; [by destruct (startswith_underscore x')|eauto].
    + intros [Hu [f Hf]]. exists (x, MCachedProperty f). split; [done|].
      apply list_elem_of_In, elem_of_list_filter_bool. split.
      * by apply elem_of_getmembers.
      * simpl. by rewrite Hu.
Qed.
End Package.
