(* ===== verification/DatapkgV1.v ===== *)
(** * Version 1, the package: [src/datapkg/__init__.py]

    The package declares [_Loader], a [BaseDatasetLoader] with the cached
    properties [machines] and [persons], and ends its body with
    [_Loader.install(__name__)]: from then on [sys.modules["datapkg"]] is a
    [LazyModule] whose [_loader] is the one [_Loader] instance, and
    [datapkg.machines] reaches [cached_property.__get__] on that instance,
    which calls [load_csv("machines.csv")] once and keeps the table in the
    instance [__dict__].

    [v1_import] is the import of the package (the module object, its entry
    in [sys.modules], its body, and the value [import] returns, which is
    [sys.modules["datapkg"]] after the body ran); [v1_access] is a client's
    [datapkg.name]. *)

From stdpp Require Import base gmap strings list.
From S2P Require Import Prelude PyRuntime Attr Registry LoaderV1.
Import Package.
Local Open Scope se_scope.

Module V1.

(** ** [class _Loader(BaseDatasetLoader)] (lines 4-13) *)

(** In the property bodies, [self.load_csv] is [BaseDatasetLoader.load_csv]
    bound to [self]: [_Loader] does not override it and the instance
    [__dict__] only ever holds the datasets, so the call is direct. *)

(** [@cached_property def machines(self): return self.load_csv("machines.csv")] *)
Definition machines (self : oid) : PyM pyval := load_csv self "machines.csv".

(** [@cached_property def persons(self): return self.load_csv("persons.csv")] *)
Definition persons (self : oid) : PyM pyval := load_csv self "persons.csv".

Definition _Loader_dict : list (string * member) :=
  [("__module__", MData (VStr "datapkg"));
   ("__doc__", MData (VStr "Example dataset loader."));
   ("machines", MCachedProperty machines);
   ("persons", MCachedProperty persons)].

Definition _Loader : pyclass :=
  mkClass "_Loader" [_Loader_dict; BaseDatasetLoader_dict; object_dict].

(** The classes of the program, by name ([type(obj)]). *)
Definition class_of (name : string) : option pyclass :=
  if String.eqb name "_Loader" then Some _Loader
  else if String.eqb name "BaseDatasetLoader" then Some BaseDatasetLoader
  else None.

(** ** The package body *)

(** The globals of [datapkg.package] once its body ran (package.py lines
    1-111: imports, then the definitions). *)
Definition package_globals : gmap string pyval :=
  <["__name__" := VStr "datapkg.package"]> (<["csv" := VExt "csv"]>
  (<["cached_property" := VExt "functools.cached_property"]>
  (<["resources" := VExt "importlib.resources"]> (<["inspect" := VExt "inspect"]>
  (<["sys" := VExt "sys"]> (<["types" := VExt "types"]>
  (<["LazyModule" := VClass "LazyModule"]>
  (<["create_lazy_package" := VFunc "create_lazy_package"]>
  (<["BaseDatasetLoader" := VClass "BaseDatasetLoader"]> ∅))))))))).

(** [from datapkg.package import BaseDatasetLoader] (line 2): the submodule
    is imported, bound as the attribute [package] of the package, and the
    name is bound. *)
Definition import_package_submodule (m : oid) : PyM unit :=
  let* pm := alloc (OModule ModuleType package_globals) in
  let* _ := sys_modules_setitem "datapkg.package" pm in
  let* _ := module_store m "package" (VRef pm) in
  module_store m "BaseDatasetLoader" (VClass "BaseDatasetLoader").

(** The body of [src/datapkg/__init__.py] (lines 1-16), in module [m]. *)
Definition v1_exec (m : oid) : PyM unit :=
  let* _ := module_store m "cached_property" (VExt "functools.cached_property") in
  let* _ := import_package_submodule m in
  let* _ := module_store m "_Loader" (VClass "_Loader") in
  let* cls := global_get m "_Loader" in
  let* name := global_get m "__name__" in
  match cls with
  | VClass c =>
      match class_of c with
      | Some k => install k (str_of name)
      | None => raise (TypeError "not a class")
      end
  | _ => raise (AttributeError "install" None)
  end.

(** [import pkg] the first time: the import system enters a new module in
    [sys.modules], runs the body, and returns [sys.modules[pkg]] as the body
    left it. *)
Definition v1_import (pkg : string) : PyM oid :=
  let* m := alloc (OModule ModuleType (<["__name__" := VStr pkg]> ∅)) in
  let* _ := sys_modules_setitem pkg m in
  let* _ := v1_exec m in
  import_module pkg.

(** The package defines no function a module [__getattr__] could call. *)
Definition no_call (f arg : pyval) : PyM pyval := raise (TypeError "not callable").

(** A client's [datapkg.name], with [datapkg] imported. *)
Definition v1_access (pkg name : string) : PyM pyval :=
  let* m := import_module pkg in
  getattr_module class_of no_call m name.

(** A client's [from datapkg import *]: [datapkg.__all__], then
    [getattr(datapkg, name)] for each name it lists, in order. *)
Fixpoint v1_read_all (pkg : string) (names : list string) : PyM unit :=
  match names with
  | [] => return tt
  | n :: rest => let* _ := v1_access pkg n in v1_read_all pkg rest
  end.

Definition v1_import_star (pkg : string) : PyM unit :=
  let* all := v1_access pkg "__all__" in
  match all with
  | VStrList names => v1_read_all pkg names
  | _ => raise (TypeError "__all__ must be a list of str")
  end.

(** The datasets the cached properties declare. *)
Definition decl1 : gmap string string :=
  <["machines" := "machines.csv"]> (<["persons" := "persons.csv"]> ∅).

(** ** The representation invariant *)

(** Where the package keeps its state: the [LazyModule] and the loader. *)
Record layout1 := mkLayout1 { l1_mod : oid; l1_loader : oid }.

Definition lazy_globals_ok (l : layout1) (d : gmap string pyval) : Prop :=
  d !! "_loader" = Some (VRef (l1_loader l)) /\ d !! "__name__" = Some (VStr "datapkg") /\
  d !! "__getattr__" = None /\ d !! "__all__" = Some (VStrList ["machines"; "persons"]) /\
  (forall n, is_Some (decl1 !! n) -> d !! n = None) /\
  (forall n, n ∈ ["DATA_DIR"; "load_csv"; "discover_cached_properties"; "install"] -> d !! n = None).

(** The package state at layout [l]: the loader's [__dict__] is [slots]. *)
Record repr1 (l : layout1) (slots : gmap string pyval) (w : world) : Prop := {
  repr1_module : w_modules w !! "datapkg" = Some (l1_mod l);
  repr1_globals : exists d, w_heap w !! l1_mod l = Some (OModule LazyModuleType d) /\
                            lazy_globals_ok l d;
  repr1_loader : w_heap w !! l1_loader l = Some (OInst "_Loader" slots);
  repr1_slots : forall n v, slots !! n = Some v -> is_Some (decl1 !! n);
  repr1_distinct : l1_mod l <> l1_loader l;
  repr1_alloc : l1_mod l < w_next w /\ l1_loader l < w_next w
}.

Definition lazy_dict (w : world) : option (gmap string pyval) :=
  m ← w_modules w !! "datapkg";
  match w_heap w !! m with
  | Some (OModule _ d) => Some d
  | _ => None
  end.

(** The abstraction to the registry's cache: the loader's [__dict__]. *)
Definition loader_slots (w : world) : gmap string pyval :=
  match lazy_dict w with
  | Some d =>
      match d !! "_loader" with
      | Some (VRef i) => match w_heap w !! i with Some (OInst _ D) => D | _ => ∅ end
      | _ => ∅
      end
  | None => ∅
  end.

(** Names resolved without reaching a dataset: the module [__dict__], the
    attributes of the type [LazyModule] and the loader's class
    attributes. *)
Definition attr1 (w : world) (n : string) : bool :=
  match lazy_dict w with
  | Some d => bool_decide (is_Some (d !! n))
  | None => false
  end || bool_decide (is_Some (mro_lookup n (modtype_mro LazyModuleType))) ||
  bool_decide (is_Some (mro_lookup n (cls_mro _Loader))).

Definition v1_inv (w : world) : Prop := exists l, repr1 l (loader_slots w) w.

(** The exception [LazyModule.__getattr__] raises for an unknown name. *)
Definition v1_unknown (n : string) : exc :=
  AttributeError ("Module 'datapkg' has no attribute '" +:+ n +:+ "'")
    (Some (AttributeError ("'_Loader' object has no attribute '" +:+ n +:+ "'") None)).

(** The state right after [import datapkg] in [example_world]. *)
Definition v1_world : world := (v1_import "datapkg" example_world).2.

(** [raise AttributeError(f"Module 'datapkg' has no attribute '{name}'")
    from exc] for an [AttributeError] of the loader; other outcomes pass. *)
Definition forward1 (n : string) (rw : result exc pyval * world) : result exc pyval * world :=
  match rw with
  | (Err (AttributeError msg c), w') =>
      (Err (AttributeError ("Module 'datapkg' has no attribute '" +:+ n +:+ "'")
                           (Some (AttributeError msg c))), w')
  | _ => rw
  end.

(** ** Lemmas on the invariant and the loader *)

Lemma loader_slots_repr l slots w : repr1 l slots w -> loader_slots w = slots.
Proof.
  intros Hr. destruct (repr1_globals l slots w Hr) as (d & Hm & Hld & _).
  unfold loader_slots, lazy_dict. rewrite (repr1_module l slots w Hr). simpl.
  by rewrite Hm, Hld, (repr1_loader l slots w Hr).
Qed.

Lemma repr1_ext l slots w w1 : repr1 l slots w -> heap_ext w w1 -> repr1 l slots w1.
Proof.
  intros Hr (Hmod & Hnext & Hheap). destruct (repr1_alloc l slots w Hr) as [Ham Hal].
  split; try apply Hr.
  - rewrite Hmod. apply Hr.
  - rewrite Hheap by done. apply Hr.
  - rewrite Hheap by done. apply Hr.
  - lia.
Qed.

Lemma repr1_store l slots w n v :
  repr1 l slots w -> is_Some (decl1 !! n) ->
  repr1 l (<[n := v]> slots)
    (with_heap (<[l1_loader l := OInst "_Loader" (<[n := v]> slots)]> (w_heap w)) w).
Proof.
  intros Hr Hn. split; simpl; try apply Hr.
  - destruct (repr1_globals l slots w Hr) as (d & Hm & Hg). exists d.
    rewrite lookup_insert_ne by (symmetry; apply Hr). done.
  - apply lookup_insert_eq.
  - intros n' v'. destruct (decide (n' = n)) as [->|Hne]; [done|].
    rewrite lookup_insert_ne by done. apply Hr.
Qed.

Lemma load_csv_logged self f w : load_csv self f w = load_logged "data" f w.
Proof. reflexivity. Qed.

(** ** Attribute lookup on the loader *)

Lemma decl1_cases n f :
  decl1 !! n = Some f ->
  (n = "machines" /\ f = "machines.csv") \/ (n = "persons" /\ f = "persons.csv").
Proof.
  unfold decl1. rewrite !lookup_insert, lookup_empty.
  repeat case_decide; intros; simplify_eq; auto.
Qed.

(** The class attribute of a declared dataset is its cached property, whose
    body is the loader of its file. *)
Lemma Loader_cached_property n f :
  decl1 !! n = Some f ->
  exists body, mro_lookup n (cls_mro _Loader) = Some (MCachedProperty body) /\
               forall self w, body self w = load_logged "data" f w.
Proof. intros Hf. destruct (decl1_cases n f Hf) as [[-> ->]|[-> ->]]; by eexists. Qed.

(** The only cached properties of [_Loader] are the declared datasets. *)
Lemma Loader_cached_declared n body :
  mro_lookup n (cls_mro _Loader) = Some (MCachedProperty body) -> is_Some (decl1 !! n).
Proof.
  intros H. apply mro_lookup_in in H. simpl in H.
  repeat (apply elem_of_cons in H as [H|H]; [simplify_eq; by eexists|]).
  by apply not_elem_of_nil in H.
Qed.

Lemma class_of_Loader : class_of "_Loader" = Some _Loader.
Proof. reflexivity. Qed.

Lemma loader_inst l slots w :
  repr1 l slots w -> inst_dict (l1_loader l) w = (Ok ("_Loader", slots), w).
Proof.
  intros Hr. pose proof (repr1_loader l slots w Hr). unfold inst_dict. py_run.
Qed.

#[local] Hint Resolve loader_inst : datapkg.

Lemma loader_getattr_hit l slots w n v :
  repr1 l slots w -> slots !! n = Some v ->
  object_getattribute class_of (l1_loader l) n w = (Ok v, w).
Proof.
  intros Hr Hv. destruct (repr1_slots l slots w Hr n v Hv) as [f Hf].
  destruct (Loader_cached_property n f Hf) as (body & Hb & _).
  unfold object_getattribute. py_step. cbn [fst snd].
  by rewrite class_of_Loader, Hb, Hv.
Qed.

Lemma loader_getattr_miss l slots w n f :
  repr1 l slots w -> slots !! n = None -> decl1 !! n = Some f ->
  object_getattribute class_of (l1_loader l) n w =
  match load_logged "data" f w with
  | (Ok v, w1) =>
      (Ok v, with_heap (<[l1_loader l := OInst "_Loader" (<[n := v]> slots)]> (w_heap w1)) w1)
  | (Err e, w1) => (Err e, w1)
  end.
Proof.
  intros Hr Hn Hf. destruct (Loader_cached_property n f Hf) as (body & Hb & Hbody).
  unfold object_getattribute. py_step. cbn [fst snd]. rewrite class_of_Loader, Hb, Hn.
  unfold cached_property_get. py_step. cbn [fst snd]. rewrite Hn.
  destruct (load_logged "data" f w) as [[v|e] w1] eqn:Hl.
  - rewrite (se_bind_ok _ _ _ v w1) by (by rewrite Hbody).
    pose proof (load_logged_ext "data" f w) as Hext. rewrite Hl in Hext.
    pose proof (loader_inst l slots w1 (repr1_ext l slots w w1 Hr Hext)).
    unfold inst_dict_set. py_run.
  - by rewrite (se_bind_err _ _ _ e w1) by (by rewrite Hbody).
Qed.

Lemma loader_getattr_unknown l slots w n :
  repr1 l slots w -> slots !! n = None -> mro_lookup n (cls_mro _Loader) = None ->
  object_getattribute class_of (l1_loader l) n w =
  (Err (AttributeError ("'_Loader' object has no attribute '" +:+ n +:+ "'") None), w).
Proof.
  intros Hr Hn Hm. unfold object_getattribute. py_step. cbn [fst snd].
  by rewrite class_of_Loader, Hm, Hn.
Qed.

(** Any other class attribute of the loader ([DATA_DIR], [load_csv], ...)
    is read without changing anything. *)
Lemma loader_getattr_classattr l slots w n m :
  repr1 l slots w -> slots !! n = None -> mro_lookup n (cls_mro _Loader) = Some m ->
  (forall body, m <> MCachedProperty body) ->
  object_getattribute class_of (l1_loader l) n w =
    (Ok (match m with
         | MFunction => VMethod (l1_loader l) n
         | MClassMethod => VClassMethod "_Loader" n
         | MData v => v
         | MDescr => instance_descr_get (l1_loader l) _Loader n
         | MCachedProperty _ => VNone
         end), w).
Proof.
  intros Hr Hn Hm Hnc.
  destruct m as [body| | |v|]; [by destruct (Hnc body)| | | |];
    unfold object_getattribute; py_step; cbn [fst snd];
    rewrite class_of_Loader, Hm, ?Hn; reflexivity.
Qed.

(** ** The [LazyModule] level *)

Lemma v1_access_dict l slots w n v :
  repr1 l slots w -> (exists d, w_heap w !! l1_mod l = Some (OModule LazyModuleType d) /\
                                d !! n = Some v) -> n <> "__class__" -> n <> "__dict__" ->
  v1_access "datapkg" n w = (Ok v, w).
Proof.
  intros Hr (d & Hm & Hn) Hc Hd. pose proof (repr1_module l slots w Hr).
  unfold v1_access, getattr_module. py_step. py_step.
  unfold catch_attribute_error, se_catch.
  by rewrite (module_getattro_global _ _ _ _ d Hm n v Hn Hc Hd).
Qed.

(** A name the [LazyModule]'s [__dict__] does not bind is forwarded to the
    loader. *)
Lemma v1_access_forward l slots w n r w' :
  repr1 l slots w ->
  (exists d, w_heap w !! l1_mod l = Some (OModule LazyModuleType d) /\ d !! n = None) ->
  mro_lookup n (modtype_mro LazyModuleType) = None ->
  object_getattribute class_of (l1_loader l) n w = (r, w') ->
  w_heap w' !! l1_mod l = w_heap w !! l1_mod l ->
  v1_access "datapkg" n w = forward1 n (r, w').
Proof.
  intros Hr (d0 & Hm0 & Hn) Ht Hget Hm'. pose proof (repr1_module l slots w Hr).
  destruct (repr1_globals l slots w Hr) as (d & Hm & Hld & Hname & Hga & _ & _).
  rewrite Hm in Hm0. injection Hm0 as <-.
  unfold v1_access, getattr_module. py_step. py_step.
  unfold catch_attribute_error, se_catch.
  rewrite (module_getattro_miss _ _ _ _ d Hm n Hn Ht Hga). cbv beta iota.
  unfold LazyModule_getattr, LazyModule_except, catch_attribute_error, se_catch.
  rewrite (se_bind_ok _ _ _ _ _ (module_own_attr_ok _ _ _ _ _ _ Hm Hld)). simpl.
  rewrite Hget. destruct r as [v|e]; [done|]. destruct e; try done. simpl.
  rewrite <- Hm' in Hm. py_run.
Qed.

Lemma slots_undeclared l slots w n :
  repr1 l slots w -> decl1 !! n = None -> slots !! n = None.
Proof.
  intros Hr Hn. destruct (slots !! n) as [v|] eqn:Hv; [|done].
  destruct (repr1_slots l slots w Hr n v Hv). congruence.
Qed.

Lemma lazy_dict_repr l slots w :
  repr1 l slots w -> exists d, lazy_dict w = Some d /\
    w_heap w !! l1_mod l = Some (OModule LazyModuleType d) /\ lazy_globals_ok l d.
Proof.
  intros Hr. destruct (repr1_globals l slots w Hr) as (d & Hm & Hg).
  exists d. unfold lazy_dict. rewrite (repr1_module l slots w Hr). simpl. by rewrite Hm.
Qed.

Lemma module_has_no_dataset l slots w n f :
  repr1 l slots w -> decl1 !! n = Some f ->
  exists d, w_heap w !! l1_mod l = Some (OModule LazyModuleType d) /\ d !! n = None.
Proof.
  intros Hr Hf. destruct (repr1_globals l slots w Hr) as (d & Hm & (_ & _ & _ & _ & Hd & _)).
  exists d. split; [done|]. apply Hd. eauto.
Qed.

(** No dataset name is an attribute of the type [LazyModule]. *)
Lemma decl1_not_type n f : decl1 !! n = Some f -> mro_lookup n (modtype_mro LazyModuleType) = None.
Proof. intros Hf. by destruct (decl1_cases n f Hf) as [[-> _]|[-> _]]. Qed.

(** The first read of [datapkg.__annotations__] stores a new dict in the
    [LazyModule]: the state stays one of the package. *)
Lemma repr1_annotate l slots w d :
  repr1 l slots w -> w_heap w !! l1_mod l = Some (OModule LazyModuleType d) ->
  repr1 l slots (module_annotate (l1_mod l) LazyModuleType d w).
Proof.
  intros Hr Hm. destruct (repr1_alloc l slots w Hr) as (Ham & Hal).
  destruct (repr1_globals l slots w Hr) as (d' & Hm' & (Hld & Hname & Hga & Hall & Hds & Hcls)).
  rewrite Hm in Hm'. injection Hm' as <-.
  split; simpl; try apply Hr.
  - eexists. split; [apply lookup_insert_eq|].
    split_and!; try (rewrite lookup_insert_ne; [done|done]).
    + intros n [f Hf]. rewrite lookup_insert_ne; [apply Hds; eauto|].
      intros <-. by destruct (decl1_cases _ _ Hf) as [[? _]|[? _]].
    + intros n Hin. rewrite lookup_insert_ne; [by apply Hcls|]. intros <-. set_solver.
  - rewrite !lookup_insert_ne; [apply Hr|lia|]. apply Hr.
  - lia.
Qed.

(** ** The laws of [LazyNamespace] for version 1 *)

Lemma v1_path_inj n1 n2 f1 f2 :
  decl1 !! n1 = Some f1 -> decl1 !! n2 = Some f2 ->
  resource_path "data" f1 = resource_path "data" f2 -> n1 = n2.
Proof.
  intros H1 H2 Hp.
  destruct (decl1_cases n1 f1 H1) as [[-> ->]|[-> ->]],
           (decl1_cases n2 f2 H2) as [[-> ->]|[-> ->]]; done.
Qed.

(** A read of an undeclared name changes at most the [LazyModule]'s
    [__annotations__]: the module or its type resolves it, or the loader
    does, or the chained [AttributeError] is raised. *)
Lemma v1_access_undeclared_state l n w :
  repr1 l (loader_slots w) w -> decl1 !! n = None ->
  (v1_access "datapkg" n w).2 = w \/
  exists d, w_heap w !! l1_mod l = Some (OModule LazyModuleType d) /\
    (v1_access "datapkg" n w).2 = module_annotate (l1_mod l) LazyModuleType d w.
Proof.
  intros Hr Hn. destruct (repr1_globals l _ w Hr) as (d & Hm & (_ & _ & Hga & _)).
  pose proof (repr1_module l _ w Hr). destruct (repr1_alloc l _ w Hr) as (Ham & _).
  pose proof (slots_undeclared l _ w n Hr Hn) as Hs.
  destruct (module_getattro_cases no_call (l1_mod l) w LazyModuleType d Hm n ltac:(lia))
    as [(Hd & Ht & _)|[[v Hv]|(_ & _ & Hv)]].
  - left. destruct (mro_lookup n (cls_mro _Loader)) as [m|] eqn:Hml.
    + unshelve epose proof (loader_getattr_classattr l _ w n m Hr Hs Hml _) as Hget.
      { intros body ->. apply Loader_cached_declared in Hml as [? ?]. congruence. }
      by rewrite (v1_access_forward l _ w n _ _ Hr (ex_intro _ d (conj Hm Hd)) Ht Hget).
    + by rewrite (v1_access_forward l _ w n _ _ Hr (ex_intro _ d (conj Hm Hd)) Ht
                    (loader_getattr_unknown l _ w n Hr Hs Hml)).
  - left. assert (v1_access "datapkg" n w = (Ok v, w)) as ->; [|done].
    unfold v1_access, getattr_module. py_step. py_step.
    unfold catch_attribute_error, se_catch. by rewrite Hv.
  - right. exists d. split; [done|].
    assert (v1_access "datapkg" n w = (Ok (VRef (w_next w)), module_annotate (l1_mod l) LazyModuleType d w))
      as ->; [|done].
    unfold v1_access, getattr_module. py_step. py_step.
    unfold catch_attribute_error, se_catch. by rewrite Hv.
Qed.

Lemma v1_access_undeclared n w :
  v1_inv w -> decl1 !! n = None ->
  v1_inv (v1_access "datapkg" n w).2 /\ loader_slots (v1_access "datapkg" n w).2 = loader_slots w /\
  w_loads (v1_access "datapkg" n w).2 = w_loads w /\
  w_stdout (v1_access "datapkg" n w).2 = w_stdout w.
Proof.
  intros [l Hr] Hn. destruct (v1_access_undeclared_state l n w Hr Hn) as [->|(d & Hm & ->)].
  - by split; [exists l|].
  - pose proof (repr1_annotate l _ w d Hr Hm) as Hr1. rewrite <- (loader_slots_repr _ _ _ Hr1).
    split_and!; [exists l|..]; by rewrite ?(loader_slots_repr _ _ _ Hr1).
Qed.

Lemma v1_access_unknown n w :
  v1_inv w -> decl1 !! n = None -> attr1 w n = false ->
  v1_access "datapkg" n w = (Err (v1_unknown n), w).
Proof.
  intros [l Hr] Hn Ha. destruct (lazy_dict_repr l _ w Hr) as (d & Hld & Hm & _).
  unfold attr1 in Ha. rewrite Hld in Ha. apply orb_false_iff in Ha as [Ha Hml].
  apply orb_false_iff in Ha as [Hd Ht].
  apply bool_decide_eq_false_1, eq_None_not_Some in Hd, Ht, Hml.
  by rewrite (v1_access_forward l _ w n _ _ Hr (ex_intro _ d (conj Hm Hd)) Ht
                (loader_getattr_unknown l _ w n Hr (slots_undeclared l _ w n Hr Hn) Hml)).
Qed.

Lemma v1_access_hit n f v w :
  v1_inv w -> decl1 !! n = Some f -> loader_slots w !! n = Some v ->
  v1_access "datapkg" n w = (Ok v, w).
Proof.
  intros [l Hr] Hf Hv.
  by rewrite (v1_access_forward l _ w n _ _ Hr (module_has_no_dataset l _ w n f Hr Hf) (decl1_not_type n f Hf)
                (loader_getattr_hit l _ w n v Hr Hv)).
Qed.

Lemma v1_access_miss_ok n f v w w1 :
  v1_inv w -> decl1 !! n = Some f -> loader_slots w !! n = None ->
  load_logged "data" f w = (Ok v, w1) ->
  exists w2, v1_access "datapkg" n w = (Ok v, w2) /\ v1_inv w2 /\
    loader_slots w2 = <[n := v]> (loader_slots w) /\
    w_loads w2 = w_loads w1 /\ w_stdout w2 = w_stdout w1 /\ same_env w2 w1 /\
    (heap_wf w1 -> heap_grows w1 w2).
Proof.
  intros [l Hr] Hf Hn Hl.
  pose proof (loader_getattr_miss l _ w n f Hr Hn Hf) as Hget. rewrite Hl in Hget.
  pose proof (load_logged_ext "data" f w) as Hext. rewrite Hl in Hext.
  pose proof (repr1_ext l _ w w1 Hr Hext) as Hr1.
  pose proof (repr1_store l _ w1 n v Hr1 (mk_is_Some _ _ Hf)) as Hr2.
  eexists. split_and!.
  - rewrite (v1_access_forward l _ w n _ _ Hr (module_has_no_dataset l _ w n f Hr Hf) (decl1_not_type n f Hf) Hget);
      [done|].
    destruct Hext as (_ & _ & Hh). simpl.
    rewrite lookup_insert_ne by (symmetry; apply Hr). apply Hh, Hr.
  - exists l. by rewrite (loader_slots_repr _ _ _ Hr2).
  - by rewrite (loader_slots_repr _ _ _ Hr2).
  - done.
  - done.
  - by split.
  - intros Hwf. by eapply store_grows; [|exact (repr1_loader l _ w1 Hr1)|].
Qed.

Lemma v1_access_miss_err n f e w w1 :
  v1_inv w -> decl1 !! n = Some f -> loader_slots w !! n = None ->
  load_logged "data" f w = (Err e, w1) ->
  v1_access "datapkg" n w = (Err e, w1) /\ v1_inv w1 /\ loader_slots w1 = loader_slots w.
Proof.
  intros [l Hr] Hf Hn Hl.
  pose proof (loader_getattr_miss l _ w n f Hr Hn Hf) as Hget. rewrite Hl in Hget.
  pose proof (load_logged_ext "data" f w) as Hext. rewrite Hl in Hext.
  pose proof (repr1_ext l _ w w1 Hr Hext) as Hr1.
  rewrite (loader_slots_repr _ _ _ Hr1). split_and!; [|eexists; by rewrite (loader_slots_repr _ _ _ Hr1)|done].
  rewrite (v1_access_forward l _ w n _ _ Hr (module_has_no_dataset l _ w n f Hr Hf) (decl1_not_type n f Hf) Hget).
  - simpl. destruct e; try done. by destruct (load_logged_err_not_attr "data" _ _ _ _ msg cause Hl).
  - destruct Hext as (_ & _ & Hh). apply Hh, Hr.
Qed.

(** Version 1 is a lazy namespace: the [LazyModule] over the [_Loader]
    instance discharges the registry laws. *)
#[export] Instance v1_namespace : LazyNamespace := {|
  ln_decl := decl1;
  ln_path := resource_path "data";
  ln_load := load_logged "data";
  ln_log := fun f => ["loading " +:+ f];
  ln_access := v1_access "datapkg";
  ln_cache := loader_slots;
  ln_inv := v1_inv;
  ln_attr := attr1;
  ln_unknown := fun _ n => v1_unknown n;
  ln_path_inj := v1_path_inj;
  ln_load_trace := load_logged_trace "data";
  ln_load_log := load_logged_log "data";
  ln_load_env := load_logged_env "data";
  ln_load_heap := load_logged_heap "data";
  ln_access_undeclared := v1_access_undeclared;
  ln_access_unknown := v1_access_unknown;
  ln_access_hit := v1_access_hit;
  ln_access_miss_ok := v1_access_miss_ok;
  ln_access_miss_err := v1_access_miss_err
|}.

(** ** The import *)

Lemma Loader_discovered : discover_cached_properties _Loader = ["machines"; "persons"].
Proof. vm_compute. reflexivity. Qed.

Lemma v1_import_run w0 :
  exists w1 d, v1_import "datapkg" w0 = (Ok (S (S (S (w_next w0)))), w1) /\
  w_loads w1 = w_loads w0 /\ w_stdout w1 = w_stdout w0 /\ same_env w1 w0 /\
  w_heap w1 !! S (S (S (w_next w0))) = Some (OModule LazyModuleType d) /\
  d !! "__all__" = Some (VStrList ["machines"; "persons"]) /\
  repr1 (mkLayout1 (S (S (S (w_next w0)))) (S (S (w_next w0)))) ∅ w1.
Proof.
  do 2 eexists. unfold v1_import, v1_exec, import_package_submodule,
    module_store, global_get, module_dict, deref, heap_store, alloc. se_unfold. simpl.
  repeat (first [rewrite lookup_insert_eq | rewrite lookup_insert_ne by (lia || discriminate)];
          simpl).
  unfold install, create_lazy_package, LazyModule_init, module_dict_update, module_store,
    sys_modules_setitem, sys_modules_getitem, import_module, module_dict, deref, heap_store, alloc.
  rewrite Loader_discovered. se_unfold. simpl.
  repeat (first [rewrite lookup_insert_eq | rewrite lookup_insert_ne by (lia || discriminate)];
          simpl).
  split; [reflexivity|]. split; [reflexivity|]. split; [reflexivity|].
  split; [split; reflexivity|].
  split; [simpl; rewrite lookup_insert_eq; reflexivity|]. split; [reflexivity|].
  split; simpl.
  - apply lookup_insert_eq.
  - eexists. rewrite lookup_insert_eq. split; [done|].
    split_and!; try reflexivity.
    + intros n [f Hf]. by destruct (decl1_cases n f Hf) as [[-> _]|[-> _]].
    + intros n Hn. repeat (apply elem_of_cons in Hn as [->|Hn]; [reflexivity|]).
      by apply not_elem_of_nil in Hn.
  - rewrite !lookup_insert_ne by lia. apply lookup_insert_eq.
  - intros n v Hv. by rewrite lookup_empty in Hv.
  - lia.
  - lia.
Qed.

Lemma v1_import_inv w0 : v1_inv (v1_import "datapkg" w0).2.
Proof.
  destruct (v1_import_run w0) as (w1 & d & -> & _ & _ & _ & _ & _ & Hr). simpl.
  eexists. by rewrite (loader_slots_repr _ _ _ Hr).
Qed.

Lemma v1_all l slots w :
  repr1 l slots w -> v1_access "datapkg" "__all__" w = (Ok (VStrList ["machines"; "persons"]), w).
Proof.
  intros Hr. destruct (repr1_globals l slots w Hr) as (d & Hm & (_ & _ & _ & Hall & _)).
  exact (v1_access_dict l slots w "__all__" _ Hr (ex_intro _ d (conj Hm Hall)) ltac:(done) ltac:(done)).
Qed.

(** ** Properties of version 1 *)

Lemma v1_world_inv : v1_inv v1_world.
Proof. apply v1_import_inv. Qed.

(** C17: importing the package, from any process state, leaves in
    [sys.modules["datapkg"]] a [LazyModule] over a fresh [_Loader] whose
    [__dict__] is empty (nothing loaded, nothing printed, no file read),
    and whose [__all__] lists the discovered datasets [machines] and
    [persons]. *)
Theorem v1_import_installs w0 :
  let w1 := (v1_import "datapkg" w0).2 in
  v1_inv w1 /\ loader_slots w1 = ∅ /\ w_loads w1 = w_loads w0 /\ w_stdout w1 = w_stdout w0 /\
  v1_access "datapkg" "__all__" w1 = (Ok (VStrList (discover_cached_properties _Loader)), w1).
Proof.
  destruct (v1_import_run w0) as (w1 & d & Hrun & Hl & Ho & _ & _ & _ & Hr).
  simpl. rewrite Hrun. simpl. split; [eexists; by rewrite (loader_slots_repr _ _ _ Hr)|].
  rewrite (loader_slots_repr _ _ _ Hr), Loader_discovered. split_and!; try done.
  exact (v1_all _ _ _ Hr).
Qed.

(** However many datasets a client has read, [datapkg.__all__]
    is the declared set [["machines"; "persons"]]: the known names do not
    depend on what was accessed. *)
Theorem v1_names_stable ns w :
  v1_inv w ->
  v1_access "datapkg" "__all__" (run_accesses ns w).2 =
  (Ok (VStrList ["machines"; "persons"]), (run_accesses ns w).2).
Proof.
  intros Hinv. destruct (run_accesses_inv (H := v1_namespace) ns w Hinv) as [l Hr].
  exact (v1_all _ _ _ Hr).
Qed.

Lemma v1_names_stable_witness :
  v1_access "datapkg" "__all__" (run_accesses ["machines"; "vehicles"] v1_world).2 =
  (Ok (VStrList ["machines"; "persons"]), (run_accesses ["machines"; "vehicles"] v1_world).2).
Proof. apply v1_names_stable. exact v1_world_inv. Defined.

(** C2: every read of [datapkg.name] through the [LazyModule],
    for a declared dataset or a name neither the module nor the loader's
    class resolves, returns what the registry's [get] returns on the cache
    the loader's [__dict__] holds (an unknown name as the chained
    [AttributeError]), and leaves the same cache, loader trace and output. *)
Theorem v1_refines_registry n w :
  v1_inv w -> (decl1 !! n = None -> attr1 w n = false) ->
  let '(r, w') := v1_access "datapkg" n w in
  let '(r', c', w'') := reg_get decl1 (load_logged "data") n (loader_slots w) w in
  r = report (v1_unknown n) r' /\
  loader_slots w' = c' /\ w_loads w' = w_loads w'' /\ w_stdout w' = w_stdout w''.
Proof. exact (access_refines_reg_get (H := v1_namespace) n w). Qed.

Lemma v1_refines_registry_witness :
  let '(r, w') := v1_access "datapkg" "persons" v1_world in
  let '(r', c', w'') := reg_get decl1 (load_logged "data") "persons" (loader_slots v1_world) v1_world in
  r = report (v1_unknown "persons") r' /\
  loader_slots w' = c' /\ w_loads w' = w_loads w'' /\ w_stdout w' = w_stdout w''.
Proof. apply v1_refines_registry; [exact v1_world_inv|vm_compute; discriminate]. Defined.

(** C9: a client that reads a declared dataset at least once, with
    no failed read, from a state where it is not loaded yet, makes the
    loader read its file exactly once and print ["loading <file>"] exactly
    once. *)
Theorem v1_loads_and_prints_once ns w n f :
  v1_inv w -> decl1 !! n = Some f -> loader_slots w !! n = None -> n ∈ ns ->
  failures n ns (run_accesses ns w).1 = 0 ->
  occurrences (resource_path "data" f) (w_loads (run_accesses ns w).2) =
    occurrences (resource_path "data" f) (w_loads w) + 1 /\
  occurrences ("loading " +:+ f) (w_stdout (run_accesses ns w).2) =
    occurrences ("loading " +:+ f) (w_stdout w) + 1.
Proof.
  intros Hinv Hf Hn Hin H0. split.
  - exact (run_loads_exactly_once (H := v1_namespace) ns w n f Hinv Hf Hn Hin H0).
  - exact (run_prints_exactly_once (H := v1_namespace) (fun g => "loading " +:+ g) ns w n f
             (resource_path_inj "data") (fun _ => eq_refl) (string_app_inj _) Hinv Hf Hn Hin H0).
Qed.

Lemma v1_loads_and_prints_once_witness :
  occurrences (resource_path "data" "persons.csv")
    (w_loads (run_accesses ["persons"; "machines"; "persons"] v1_world).2) =
    occurrences (resource_path "data" "persons.csv") (w_loads v1_world) + 1 /\
  occurrences ("loading " +:+ "persons.csv")
    (w_stdout (run_accesses ["persons"; "machines"; "persons"] v1_world).2) =
    occurrences ("loading " +:+ "persons.csv") (w_stdout v1_world) + 1.
Proof.
  apply (v1_loads_and_prints_once _ _ "persons");
    [exact v1_world_inv|reflexivity|vm_compute; reflexivity|
     by vm_compute; left|vm_compute; reflexivity].
Defined.

(** All successful reads of one dataset in a sequence of reads
    return the same object, the one [cached_property] stored in the
    loader's [__dict__]. *)
Theorem v1_same_object ns w n i j v1 v2 :
  v1_inv w -> is_Some (decl1 !! n) -> ns !! i = Some n -> ns !! j = Some n ->
  (run_accesses ns w).1 !! i = Some (Ok v1) -> (run_accesses ns w).1 !! j = Some (Ok v2) ->
  v1 = v2.
Proof. exact (run_same_object (H := v1_namespace) ns w n i j v1 v2). Qed.

Lemma v1_same_object_witness : VRef 4 = VRef 4.
Proof.
  apply (v1_same_object ["machines"; "persons"; "machines"] v1_world "machines" 0 2);
    [exact v1_world_inv|by eexists|reflexivity|reflexivity|
     vm_compute; reflexivity|vm_compute; reflexivity].
Defined.

(** C13: a failed load of a declared dataset raises the loader's
    exception unchanged (it is not an [AttributeError], so
    [LazyModule.__getattr__] does not rewrite it), stores nothing, and the
    next read calls the loader again. *)
Theorem v1_failed_load_retried n f x w w1 :
  v1_inv w -> decl1 !! n = Some f -> loader_slots w !! n = None ->
  load_logged "data" f w = (Err x, w1) ->
  v1_access "datapkg" n w = (Err x, w1) /\ loader_slots w1 !! n = None /\
  w_loads (v1_access "datapkg" n w1).2 = w_loads w1 ++ [resource_path "data" f].
Proof. exact (failed_load_retried (H := v1_namespace) n f x w w1). Qed.

Lemma v1_failed_load_retried_witness :
  let w := (v1_import "datapkg" broken_world).2 in
  v1_access "datapkg" "machines" w = (Err (FileNotFoundError "data/machines.csv"),
                                      (load_logged "data" "machines.csv" w).2) /\
  loader_slots (load_logged "data" "machines.csv" w).2 !! "machines" = None /\
  w_loads (v1_access "datapkg" "machines" (load_logged "data" "machines.csv" w).2).2 =
  w_loads (load_logged "data" "machines.csv" w).2 ++ [resource_path "data" "machines.csv"].
Proof.
  apply (v1_failed_load_retried _ "machines.csv");
    [apply v1_import_inv|reflexivity|vm_compute; reflexivity|vm_compute; reflexivity].
Defined.

(** C15: reading a name that neither the module nor the loader's
    class binds raises [AttributeError("Module 'datapkg' has no attribute
    'n'")] chained from the loader's own [AttributeError], and changes
    nothing. *)
Theorem v1_unknown_name n w :
  v1_inv w -> decl1 !! n = None -> attr1 w n = false ->
  v1_access "datapkg" n w = (Err (v1_unknown n), w).
Proof.
  exact (v1_access_unknown n w).
Qed.

Lemma v1_unknown_name_witness :
  v1_access "datapkg" "vehicles" v1_world = (Err (v1_unknown "vehicles"), v1_world).
Proof. apply v1_unknown_name; [exact v1_world_inv|reflexivity|vm_compute; reflexivity]. Defined.

Lemma v1_access_classattr l slots w n m :
  repr1 l slots w -> n ∈ ["DATA_DIR"; "load_csv"; "discover_cached_properties"; "install"] ->
  decl1 !! n = None -> mro_lookup n (cls_mro _Loader) = Some m ->
  (forall body, m <> MCachedProperty body) ->
  v1_access "datapkg" n w =
    (Ok (match m with
         | MFunction => VMethod (l1_loader l) n
         | MClassMethod => VClassMethod "_Loader" n
         | MData v => v
         | MDescr => instance_descr_get (l1_loader l) _Loader n
         | MCachedProperty _ => VNone
         end), w).
Proof.
  intros Hr Hin Hn Hm Hnc. destruct (lazy_dict_repr l _ w Hr) as (d & _ & Hd & Hg).
  assert (mro_lookup n (modtype_mro LazyModuleType) = None) as Ht.
  { repeat (apply elem_of_cons in Hin as [->|Hin]; [reflexivity|]). by apply not_elem_of_nil in Hin. }
  rewrite (v1_access_forward l _ w n _ _ Hr (ex_intro _ d (conj Hd (proj2 (proj2 (proj2 (proj2 (proj2 Hg)))) n Hin))) Ht
             (loader_getattr_classattr l _ w n m Hr (slots_undeclared l _ w n Hr Hn) Hm Hnc));
    [|done]. by destruct m.
Qed.

(** C32: the [LazyModule] forwards every name to the loader, so
    the loader's own attributes are readable as attributes of the package:
    [datapkg.DATA_DIR] is ["data"], [datapkg.load_csv] is the loader's bound
    method and [datapkg.install] the classmethod bound to [_Loader]; none of
    them is rejected as an unknown name. *)
Theorem v1_loader_attributes_exposed w :
  v1_inv w ->
  v1_access "datapkg" "DATA_DIR" w = (Ok (VStr "data"), w) /\
  (exists self, v1_access "datapkg" "load_csv" w = (Ok (VMethod self "load_csv"), w)) /\
  v1_access "datapkg" "install" w = (Ok (VClassMethod "_Loader" "install"), w).
Proof.
  intros [l Hr].
  split_and!; [|exists (l1_loader l)|];
    [apply (v1_access_classattr l (loader_slots w) w _ (MData (VStr "data")))
    |apply (v1_access_classattr l (loader_slots w) w _ MFunction)
    |apply (v1_access_classattr l (loader_slots w) w _ MClassMethod)];
    solve [done | set_solver | reflexivity].
Qed.

Lemma v1_loader_attributes_exposed_witness :
  v1_access "datapkg" "DATA_DIR" v1_world = (Ok (VStr "data"), v1_world) /\
  (exists self, v1_access "datapkg" "load_csv" v1_world = (Ok (VMethod self "load_csv"), v1_world)) /\
  v1_access "datapkg" "install" v1_world = (Ok (VClassMethod "_Loader" "install"), v1_world).
Proof. apply v1_loader_attributes_exposed. exact v1_world_inv. Defined.

(** C33: [load_csv] reads the package directory from
    [BaseDatasetLoader.DATA_DIR], not from the instance: for a loader
    instance whose class overrides [DATA_DIR] with [dir], [self.DATA_DIR]
    is [dir], yet [self.load_csv(f)] reads ["data/" + f]. *)
Theorem load_csv_ignores_override cls_of self cn d c dir f w :
  w_heap w !! self = Some (OInst cn d) -> cls_of cn = Some c ->
  d !! "DATA_DIR" = None -> mro_lookup "DATA_DIR" (cls_mro c) = Some (MData (VStr dir)) ->
  object_getattribute cls_of self "DATA_DIR" w = (Ok (VStr dir), w) /\
  w_loads (load_csv self f w).2 = w_loads w ++ [resource_path "data" f].
Proof.
  intros Hh Hc Hd Hm. rewrite load_csv_logged, load_logged_trace. split; [|done].
  unfold object_getattribute, inst_dict. py_run. simpl. by rewrite Hc, Hd, Hm.
Qed.

Lemma load_csv_ignores_override_witness :
  let Sub := mkClass "Sub" [[("DATA_DIR", MData (VStr "other"))];
                            BaseDatasetLoader_dict; object_dict] in
  let w := with_heap {[0 := OInst "Sub" ∅]} (with_next 1 example_world) in
  object_getattribute (fun cn => if String.eqb cn "Sub" then Some Sub else None) 0 "DATA_DIR" w =
    (Ok (VStr "other"), w) /\
  w_loads (load_csv 0 "x.csv" w).2 = w_loads w ++ [resource_path "data" "x.csv"].
Proof. intros Sub w. by apply (load_csv_ignores_override _ 0 "Sub" ∅ Sub). Defined.

(** The scenario of spec section 8 on version 1.  Reading
    [machines] twice and [vehicles] once reads [machines.csv] once, prints
    ["loading machines.csv"] once, returns the same list twice, leaves
    [persons] unloaded and rejects [vehicles] with the chained error. *)
Example v1_scenario :
  let '(rs, w') := run_accesses ["machines"; "machines"; "vehicles"] v1_world in
  rs = [Ok (VRef 4); Ok (VRef 4); Err (v1_unknown "vehicles")] /\
  w_heap w' !! 4 = Some (OTable [["id"; "type"]; ["1"; "drill"]]) /\
  w_loads w' = ["data/machines.csv"] /\ w_stdout w' = ["loading machines.csv"] /\
  loader_slots w' !! "persons" = None.
Proof. vm_compute. split_and!; reflexivity. Qed.

(** A first read of a dataset whose file is present loads it, prints its
    line and fills its slot. *)
Lemma v1_access_present n f w rows :
  v1_inv w -> decl1 !! n = Some f -> loader_slots w !! n = None -> "data" ∈ w_packages w ->
  w_files w !! resource_path "data" f = Some (CsvFile rows) ->
  exists v w', v1_access "datapkg" n w = (Ok v, w') /\ v1_inv w' /\
    loader_slots w' = <[n := v]> (loader_slots w) /\
    w_loads w' = w_loads w ++ [resource_path "data" f] /\
    w_stdout w' = w_stdout w ++ ["loading " +:+ f] /\ same_env w' w.
Proof.
  intros Hinv Hf Hn Hp Hfile.
  destruct (load_logged_present "data" f w rows Hp Hfile) as (v & w1 & Hl).
  pose proof (load_logged_trace "data" f w) as Htr. pose proof (load_logged_log "data" f w) as Hlog.
  pose proof (load_logged_env "data" f w) as Henv. rewrite Hl in Htr, Hlog, Henv. cbn [snd] in Htr, Hlog, Henv.
  destruct (v1_access_miss_ok n f v w w1 Hinv Hf Hn Hl) as (w2 & Hacc & Hinv2 & Hs2 & Hl2 & Ho2 & He2 & _).
  exists v, w2. split_and!; try congruence. exact (same_env_trans _ _ _ He2 Henv).
Qed.

(** C34: [__all__] lists the datasets, so [from datapkg import *] right
    after the import of version 1 loads every dataset, in any process whose
    resource package [data] exists: when both files are present, each is
    read and announced, in the order of [__all__], and both slots are
    filled; when [machines.csv] is missing, the star import fails with its
    [FileNotFoundError] before reading [persons.csv], and fills nothing. *)
Theorem v1_star_import_loads_all w0 :
  "data" ∈ w_packages w0 ->
  let w1 := (v1_import "datapkg" w0).2 in
  ((exists r1 r2, w_files w0 !! "data/machines.csv" = Some (CsvFile r1) /\
                  w_files w0 !! "data/persons.csv" = Some (CsvFile r2)) ->
   exists w2 v1 v2, v1_import_star "datapkg" w1 = (Ok tt, w2) /\
     w_loads w2 = w_loads w0 ++ ["data/machines.csv"; "data/persons.csv"] /\
     w_stdout w2 = w_stdout w0 ++ ["loading machines.csv"; "loading persons.csv"] /\
     loader_slots w2 = <["persons" := v2]> (<["machines" := v1]> ∅)) /\
  (w_files w0 !! "data/machines.csv" = None ->
   exists w2, v1_import_star "datapkg" w1 = (Err (FileNotFoundError "data/machines.csv"), w2) /\
     w_loads w2 = w_loads w0 ++ ["data/machines.csv"] /\ loader_slots w2 = ∅).
Proof.
  intros Hpk w1. destruct (v1_import_run w0) as (w1' & d & Hrun & Hl1 & Ho1 & [Hf1 Hp1] & _ & _ & Hr1).
  unfold w1. rewrite Hrun. cbn [snd].
  pose proof (loader_slots_repr _ _ _ Hr1) as Hs1.
  assert (v1_inv w1') as Hinv1 by (eexists; by rewrite Hs1).
  unfold v1_import_star. rewrite (se_bind_ok _ _ _ _ _ (v1_all _ _ _ Hr1)). cbn [v1_read_all].
  split.
  - intros (r1 & r2 & Hm & Hp).
    destruct (v1_access_present "machines" "machines.csv" w1' r1 Hinv1 eq_refl)
      as (v1 & w2 & Hacc2 & Hinv2 & Hs2 & Hl2 & Ho2 & [Hf2 Hp2]);
      [by rewrite Hs1|by rewrite Hp1|by rewrite Hf1|].
    destruct (v1_access_present "persons" "persons.csv" w2 r2 Hinv2 eq_refl)
      as (v2 & w3 & Hacc3 & _ & Hs3 & Hl3 & Ho3 & _);
      [by rewrite Hs2, Hs1|by rewrite Hp2, Hp1|by rewrite Hf2, Hf1|].
    exists w3, v1, v2. rewrite (se_bind_ok _ _ _ _ _ Hacc2), (se_bind_ok _ _ _ _ _ Hacc3).
    split_and!; [done| | |by rewrite Hs3, Hs2, Hs1].
    + by rewrite Hl3, Hl2, Hl1, <- app_assoc.
    + by rewrite Ho3, Ho2, Ho1, <- app_assoc.
  - intros Hm. destruct (load_logged_missing "data" "machines.csv" w1') as (w2 & Hl);
      [by rewrite Hp1|by rewrite Hf1|].
    pose proof (load_logged_trace "data" "machines.csv" w1') as Htr. rewrite Hl in Htr. cbn [snd] in Htr.
    destruct (v1_access_miss_err "machines" "machines.csv" _ w1' w2 Hinv1 eq_refl ltac:(by rewrite Hs1) Hl)
      as (Hacc & _ & Hs2).
    exists w2. rewrite (se_bind_err _ _ _ _ _ Hacc). split_and!; [done|by rewrite Htr, Hl1|by rewrite Hs2].
Qed.

Lemma v1_star_import_loads_all_witness :
  let w1 := (v1_import "datapkg" example_world).2 in
  ((exists r1 r2, w_files example_world !! "data/machines.csv" = Some (CsvFile r1) /\
                  w_files example_world !! "data/persons.csv" = Some (CsvFile r2)) ->
   exists w2 v1 v2, v1_import_star "datapkg" w1 = (Ok tt, w2) /\
     w_loads w2 = w_loads example_world ++ ["data/machines.csv"; "data/persons.csv"] /\
     w_stdout w2 = w_stdout example_world ++ ["loading machines.csv"; "loading persons.csv"] /\
     loader_slots w2 = <["persons" := v2]> (<["machines" := v1]> ∅)) /\
  (w_files example_world !! "data/machines.csv" = None ->
   exists w2, v1_import_star "datapkg" w1 = (Err (FileNotFoundError "data/machines.csv"), w2) /\
     w_loads w2 = w_loads example_world ++ ["data/machines.csv"] /\ loader_slots w2 = ∅).
Proof. apply v1_star_import_loads_all. set_solver. Defined.

End V1.
