(* ===== verification/SingletonV2.v ===== *)
(** * Version 2: the singleton [datapkg.datapkg]

    Models [src/v2/datapkg/__init__.py].  Importing the package runs its
    body ([v2_exec]): it binds [DATA_DIR = "data"], the class [_loader] with
    one [cached_property] per dataset, the function [_load_csv], the single
    instance [datapkg = _loader()] and [__all__ = ["datapkg"]].  A client
    holds the instance ([from datapkg import datapkg]) and reads
    [datapkg.name]: [object.__getattribute__] finds the value in the
    instance [__dict__], or runs the cached property, whose body calls the
    module's [_load_csv] and stores the table in the instance [__dict__].

    The bodies of [machines] and [persons] read the global [_load_csv] of
    the module they were defined in, and [_load_csv] reads the global
    [DATA_DIR]: the class is therefore a function of the module object
    [m] ([_loader m]).

    Two client writes show that the cache is not write-once: an
    assignment [datapkg.machines = v] ([v2_setattr]) fills a slot without
    a load, and [del datapkg.machines] ([v2_delattr]) empties it, so the
    next read loads again. *)

From stdpp Require Import base gmap strings list.
From S2P Require Import Prelude PyRuntime Attr Registry.
Local Open Scope se_scope.

Module V2.

(** [def _load_csv(filename)] (lines 18-22), in module [m]: print the
    line, then read [DATA_DIR/filename]. *)
Definition _load_csv (m : oid) (filename : pyval) : PyM pyval :=
  let* _ := print ("loading " +:+ str_of filename) in
  let* data_dir := global_get m "DATA_DIR" in
  match data_dir, filename with
  | VStr pkg, VStr file =>
      let* rows := read_csv_resource pkg file in
      let* r := alloc (OTable rows) in
      return (VRef r)
  | _, _ => raise (TypeError "expected str")
  end.

(** Calling a function object of the module with one argument. *)
Definition call1 (m : oid) (f arg : pyval) : PyM pyval :=
  match f with
  | VFunc q => if String.eqb q "_load_csv" then _load_csv m arg else raise (TypeError "not callable")
  | _ => raise (TypeError "not callable")
  end.

(** [@cached_property def machines(self): return _load_csv("machines.csv")]
    (lines 9-11). *)
Definition machines (m : oid) (self : oid) : PyM pyval :=
  let* f := global_get m "_load_csv" in
  call1 m f (VStr "machines.csv").

(** [@cached_property def persons(self): return _load_csv("persons.csv")]
    (lines 13-15). *)
Definition persons (m : oid) (self : oid) : PyM pyval :=
  let* f := global_get m "_load_csv" in
  call1 m f (VStr "persons.csv").

(** The class body of [class _loader:] (lines 7-15), with the descriptors
    [__dict__] and [__weakref__] that [type] adds to a class whose base is
    [object]. *)
Definition _loader_dict (m : oid) : list (string * member) :=
  [("__module__", MData (VStr "datapkg")); ("__doc__", MData VNone);
   ("machines", MCachedProperty (machines m));
   ("persons", MCachedProperty (persons m));
   ("__dict__", MDescr); ("__weakref__", MDescr)].

Definition _loader (m : oid) : pyclass := mkClass "_loader" [_loader_dict m; object_dict].

(** The classes of the program defined in module [m], by name. *)
Definition class_of (m : oid) (name : string) : option pyclass :=
  if String.eqb name "_loader" then Some (_loader m) else None.

(** The module body (lines 1-26), executed in the fresh module [m]. *)
Definition v2_exec (m : oid) : PyM unit :=
  let* _ := module_store m "csv" (VExt "csv") in
  let* _ := module_store m "cached_property" (VExt "functools.cached_property") in
  let* _ := module_store m "resources" (VExt "importlib.resources") in
  let* _ := module_store m "DATA_DIR" (VStr "data") in
  let* _ := module_store m "_loader" (VClass "_loader") in
  let* _ := module_store m "_load_csv" (VFunc "_load_csv") in
  let* cls := global_get m "_loader" in
  match cls with
  | VClass c =>
      let* r := alloc (OInst c ∅) in
      let* _ := module_store m "datapkg" (VRef r) in
      module_store m "__all__" (VStrList ["datapkg"])
  | _ => raise (TypeError "not callable")
  end.

(** [import datapkg] the first time. *)
Definition v2_import (pkg : string) : PyM oid :=
  let* m := alloc (OModule ModuleType (<["__name__" := VStr pkg]> ∅)) in
  let* _ := se_modify (fun w => with_modules (<[pkg := m]> (w_modules w)) w) in
  let* _ := v2_exec m in
  return m.

(** A client's [datapkg.name] for [from datapkg import datapkg]: the
    instance the module binds, then the attribute of the instance. *)
Definition v2_access (pkg name : string) : PyM pyval :=
  let* m := import_module pkg in
  let* inst := module_getattro (call1 m) m "datapkg" in
  getattr_object (class_of m) inst name.

(** A client's [datapkg.name = v], with [from datapkg import datapkg]:
    [cached_property] is not a data descriptor, so [object.__setattr__]
    writes the instance [__dict__]. *)
Definition v2_setattr (pkg name : string) (v : pyval) : PyM unit :=
  let* m := import_module pkg in
  let* inst := module_getattro (call1 m) m "datapkg" in
  match inst with
  | VRef i => inst_dict_set i name v
  | _ => raise (AttributeError (object_attr_error_msg "object" name) None)
  end.

(** A client's [del datapkg.name], with [from datapkg import datapkg]:
    [cached_property] has no [__delete__], so [object.__delattr__] removes
    the name from the instance [__dict__]. *)
Definition v2_delattr (pkg name : string) : PyM unit :=
  let* m := import_module pkg in
  let* inst := module_getattro (call1 m) m "datapkg" in
  match inst with
  | VRef i => inst_dict_del i name
  | _ => raise (AttributeError (object_attr_error_msg "object" name) None)
  end.

(** The datasets the cached properties declare. *)
Definition decl2 : gmap string string :=
  <["machines" := "machines.csv"]> (<["persons" := "persons.csv"]> ∅).

(** ** The representation invariant *)

(** Where the package keeps its state: the module and the instance. *)
Record layout2 := mkLayout2 { l2_mod : oid; l2_inst : oid }.

Definition globals2_ok (l : layout2) (d : gmap string pyval) : Prop :=
  d !! "datapkg" = Some (VRef (l2_inst l)) /\ d !! "DATA_DIR" = Some (VStr "data") /\
  d !! "_load_csv" = Some (VFunc "_load_csv") /\ d !! "__all__" = Some (VStrList ["datapkg"]).

(** The package state at layout [l]: the instance [__dict__] is [slots]. *)
Record repr2 (l : layout2) (slots : gmap string pyval) (w : world) : Prop := {
  repr2_module : w_modules w !! "datapkg" = Some (l2_mod l);
  repr2_globals : exists d, w_heap w !! l2_mod l = Some (OModule ModuleType d) /\
                            globals2_ok l d;
  repr2_inst : w_heap w !! l2_inst l = Some (OInst "_loader" slots);
  repr2_slots : forall n v, slots !! n = Some v -> is_Some (decl2 !! n);
  repr2_distinct : l2_mod l <> l2_inst l;
  repr2_alloc : l2_mod l < w_next w /\ l2_inst l < w_next w
}.

(** The abstraction to the registry's cache: the [__dict__] of
    [datapkg.datapkg]. *)
Definition inst_slots (w : world) : gmap string pyval :=
  match w_modules w !! "datapkg" with
  | Some m =>
      match w_heap w !! m with
      | Some (OModule _ d) =>
          match d !! "datapkg" with
          | Some (VRef i) => match w_heap w !! i with Some (OInst _ D) => D | _ => ∅ end
          | _ => ∅
          end
      | _ => ∅
      end
  | None => ∅
  end.

(** Names the class [_loader] resolves without a cached property. *)
Definition attr2 (w : world) (n : string) : bool :=
  match w_modules w !! "datapkg" with
  | Some m => bool_decide (is_Some (mro_lookup n (cls_mro (_loader m))))
  | None => false
  end.

Definition v2_inv (w : world) : Prop := exists l, repr2 l (inst_slots w) w.

(** The exception [object.__getattribute__] raises for an unknown name. *)
Definition v2_unknown (n : string) : exc :=
  AttributeError (object_attr_error_msg "_loader" n) None.

(** The state right after [import datapkg] in [example_world]. *)
Definition v2_world : world := (v2_import "datapkg" example_world).2.

(** ** Lemmas on the invariant *)

Lemma inst_slots_repr l slots w : repr2 l slots w -> inst_slots w = slots.
Proof.
  intros Hr. destruct (repr2_globals l slots w Hr) as (d & Hm & Hi & _).
  unfold inst_slots. rewrite (repr2_module l slots w Hr), Hm, Hi.
  by rewrite (repr2_inst l slots w Hr).
Qed.

Lemma repr2_ext l slots w w1 : repr2 l slots w -> heap_ext w w1 -> repr2 l slots w1.
Proof.
  intros Hr (Hmod & Hnext & Hheap). destruct (repr2_alloc l slots w Hr) as [Ham Hai].
  split; try apply Hr.
  - rewrite Hmod. apply Hr.
  - rewrite Hheap by done. apply Hr.
  - rewrite Hheap by done. apply Hr.
  - lia.
Qed.

Lemma repr2_store l slots w n v :
  repr2 l slots w -> is_Some (decl2 !! n) ->
  repr2 l (<[n := v]> slots)
    (with_heap (<[l2_inst l := OInst "_loader" (<[n := v]> slots)]> (w_heap w)) w).
Proof.
  intros Hr Hn. split; simpl; try apply Hr.
  - destruct (repr2_globals l slots w Hr) as (d & Hm & Hg). exists d.
    rewrite lookup_insert_ne by (symmetry; apply Hr). done.
  - apply lookup_insert_eq.
  - intros n' v'. destruct (decide (n' = n)) as [->|Hne]; [done|].
    rewrite lookup_insert_ne by done. apply Hr.
Qed.

Lemma repr2_delete l slots w n :
  repr2 l slots w ->
  repr2 l (delete n slots) (with_heap (<[l2_inst l := OInst "_loader" (delete n slots)]> (w_heap w)) w).
Proof.
  intros Hr. split; simpl; try apply Hr.
  - destruct (repr2_globals l slots w Hr) as (d & Hm & Hg). exists d.
    rewrite lookup_insert_ne by (symmetry; apply Hr). done.
  - apply lookup_insert_eq.
  - intros n' v' Hv'. apply lookup_delete_Some in Hv' as [_ Hv']. exact (repr2_slots l slots w Hr n' v' Hv').
Qed.

Lemma slots2_undeclared l slots w n :
  repr2 l slots w -> decl2 !! n = None -> slots !! n = None.
Proof.
  intros Hr Hn. destruct (slots !! n) as [v|] eqn:Hv; [|done].
  destruct (repr2_slots l slots w Hr n v Hv). congruence.
Qed.

Lemma decl2_cases n f :
  decl2 !! n = Some f ->
  (n = "machines" /\ f = "machines.csv") \/ (n = "persons" /\ f = "persons.csv").
Proof.
  unfold decl2. rewrite !lookup_insert, lookup_empty.
  repeat case_decide; intros; simplify_eq; auto.
Qed.

(** ** The loader *)

(** [_load_csv(f)] as the property bodies call it, in the module the
    invariant describes, is the printing loader of [DATA_DIR]. *)
Lemma call_load_csv l slots w f :
  repr2 l slots w ->
  (let* g := global_get (l2_mod l) "_load_csv" in call1 (l2_mod l) g (VStr f)) w =
  load_logged "data" f w.
Proof.
  intros Hr. destruct (repr2_globals l slots w Hr) as (d & Hm & _ & Hdir & Hload & _).
  rewrite (se_bind_ok _ _ _ _ _ (global_get_ok _ _ _ _ _ _ Hm Hload)). simpl.
  unfold _load_csv, load_logged. rewrite !print_bind.
  rewrite (se_bind_ok _ _ _ _ _ (global_get_ok (with_stdout _ w) _ _ _ _ _ Hm Hdir)).
  reflexivity.
Qed.

Lemma loader2_cached_property m n f :
  decl2 !! n = Some f ->
  exists body, mro_lookup n (cls_mro (_loader m)) = Some (MCachedProperty body) /\
    forall l slots self w, repr2 l slots w -> l2_mod l = m -> body self w = load_logged "data" f w.
Proof.
  intros Hf. destruct (decl2_cases n f Hf) as [[-> ->]|[-> ->]];
    eexists; (split; [reflexivity|]); intros l slots self w Hr <-; exact (call_load_csv l slots w _ Hr).
Qed.

Lemma loader2_cached_declared m n body :
  mro_lookup n (cls_mro (_loader m)) = Some (MCachedProperty body) -> is_Some (decl2 !! n).
Proof.
  intros H. apply mro_lookup_in in H. simpl in H.
  repeat (apply elem_of_cons in H as [H|H]; [simplify_eq; by eexists|]).
  by apply not_elem_of_nil in H.
Qed.

(** [datapkg.datapkg.name] is [object.__getattribute__] on the instance. *)
Lemma v2_access_inst l slots w n :
  repr2 l slots w ->
  v2_access "datapkg" n w = object_getattribute (class_of (l2_mod l)) (l2_inst l) n w.
Proof.
  intros Hr. pose proof (repr2_module l slots w Hr).
  destruct (repr2_globals l slots w Hr) as (d & Hm & Hi & _).
  unfold v2_access. py_step. by rewrite (se_bind_ok _ _ _ _ _ (module_getattro_global _ _ _ _ _ Hm _ _ Hi ltac:(done) ltac:(done))).
Qed.

(** ** The laws of [LazyNamespace] for version 2 *)

Section Laws.
Context (l : layout2) (w : world).
Hypothesis Hr : repr2 l (inst_slots w) w.

Lemma v2_class : class_of (l2_mod l) "_loader" = Some (_loader (l2_mod l)).
Proof. reflexivity. Qed.

Lemma v2_inst : w_heap w !! l2_inst l = Some (OInst "_loader" (inst_slots w)).
Proof. apply Hr. Qed.

Lemma v2_access_hit' n v : inst_slots w !! n = Some v -> v2_access "datapkg" n w = (Ok v, w).
Proof.
  intros Hv. rewrite (v2_access_inst _ _ _ _ Hr).
  destruct (repr2_slots _ _ _ Hr n v Hv) as [f Hf].
  destruct (loader2_cached_property (l2_mod l) n f Hf) as (body & Hb & _).
  apply (object_getattribute_hit _ _ _ _ _ _ v2_inst v2_class n v Hv). by rewrite Hb.
Qed.

Lemma v2_access_undeclared' n : decl2 !! n = None -> (v2_access "datapkg" n w).2 = w.
Proof.
  intros Hn. pose proof (slots2_undeclared _ _ _ n Hr Hn) as Hs.
  rewrite (v2_access_inst _ _ _ _ Hr).
  destruct (mro_lookup n (cls_mro (_loader (l2_mod l)))) as [m|] eqn:Hm.
  - rewrite (object_getattribute_plain _ _ _ _ _ _ v2_inst v2_class n m Hs Hm); [done|].
    intros body ->. apply loader2_cached_declared in Hm as [? ?]. congruence.
  - by rewrite (object_getattribute_unknown _ _ _ _ _ _ v2_inst v2_class n Hs Hm).
Qed.

Lemma v2_access_unknown' n :
  decl2 !! n = None -> attr2 w n = false -> v2_access "datapkg" n w = (Err (v2_unknown n), w).
Proof.
  intros Hn Ha. unfold attr2 in Ha. rewrite (repr2_module _ _ _ Hr) in Ha.
  apply bool_decide_eq_false_1, eq_None_not_Some in Ha.
  rewrite (v2_access_inst _ _ _ _ Hr).
  by rewrite (object_getattribute_unknown _ _ _ _ _ _ v2_inst v2_class n
                (slots2_undeclared _ _ _ n Hr Hn) Ha).
Qed.

Lemma v2_access_miss_ok' n f v w1 :
  decl2 !! n = Some f -> inst_slots w !! n = None -> load_logged "data" f w = (Ok v, w1) ->
  exists w2, v2_access "datapkg" n w = (Ok v, w2) /\ v2_inv w2 /\
    inst_slots w2 = <[n := v]> (inst_slots w) /\
    w_loads w2 = w_loads w1 /\ w_stdout w2 = w_stdout w1 /\ same_env w2 w1 /\
    (heap_wf w1 -> heap_grows w1 w2).
Proof.
  intros Hf Hn Hl. destruct (loader2_cached_property (l2_mod l) n f Hf) as (body & Hm & Hb).
  pose proof (load_logged_ext "data" f w) as Hext. rewrite Hl in Hext. cbn [snd] in Hext.
  pose proof (repr2_ext _ _ _ _ Hr Hext) as Hr1.
  pose proof (repr2_store _ _ _ n v Hr1 (mk_is_Some _ _ Hf)) as Hr2.
  eexists. split_and!.
  - rewrite (v2_access_inst _ _ _ _ Hr).
    apply (object_getattribute_cached_ok _ _ _ _ _ _ v2_inst v2_class n body v w1 Hn Hm);
      [by rewrite (Hb l _ _ _ Hr)|apply Hr1].
  - exists l. by rewrite (inst_slots_repr _ _ _ Hr2).
  - by rewrite (inst_slots_repr _ _ _ Hr2).
  - done.
  - done.
  - by split.
  - intros Hwf. by eapply store_grows; [|exact (repr2_inst l _ w1 Hr1)|].
Qed.

Lemma v2_access_miss_err' n f e w1 :
  decl2 !! n = Some f -> inst_slots w !! n = None -> load_logged "data" f w = (Err e, w1) ->
  v2_access "datapkg" n w = (Err e, w1) /\ v2_inv w1 /\ inst_slots w1 = inst_slots w.
Proof.
  intros Hf Hn Hl. destruct (loader2_cached_property (l2_mod l) n f Hf) as (body & Hm & Hb).
  pose proof (load_logged_ext "data" f w) as Hext. rewrite Hl in Hext. cbn [snd] in Hext.
  pose proof (repr2_ext _ _ _ _ Hr Hext) as Hr1.
  rewrite (inst_slots_repr _ _ _ Hr1). split_and!; [|exists l; by rewrite (inst_slots_repr _ _ _ Hr1)|done].
  rewrite (v2_access_inst _ _ _ _ Hr).
  apply (object_getattribute_cached_err _ _ _ _ _ _ v2_inst v2_class n body e w1 Hn Hm).
  by rewrite (Hb l _ _ _ Hr).
Qed.
End Laws.

Lemma v2_path_inj n1 n2 f1 f2 :
  decl2 !! n1 = Some f1 -> decl2 !! n2 = Some f2 ->
  resource_path "data" f1 = resource_path "data" f2 -> n1 = n2.
Proof.
  intros H1 H2 Hp.
  destruct (decl2_cases n1 f1 H1) as [[-> ->]|[-> ->]],
           (decl2_cases n2 f2 H2) as [[-> ->]|[-> ->]]; done.
Qed.

(** On the singleton, a read of an undeclared name changes nothing. *)
Lemma v2_access_undeclared n w :
  v2_inv w -> decl2 !! n = None ->
  v2_inv (v2_access "datapkg" n w).2 /\ inst_slots (v2_access "datapkg" n w).2 = inst_slots w /\
  w_loads (v2_access "datapkg" n w).2 = w_loads w /\ w_stdout (v2_access "datapkg" n w).2 = w_stdout w.
Proof. intros [l Hr] Hn. rewrite (v2_access_undeclared' l w Hr n Hn). by split; [exists l|]. Qed.

(** Version 2 is a lazy namespace: the instance [datapkg.datapkg]
    discharges the registry laws. *)
#[export] Instance v2_namespace : LazyNamespace := {|
  ln_decl := decl2;
  ln_path := resource_path "data";
  ln_load := load_logged "data";
  ln_log := fun f => ["loading " +:+ f];
  ln_access := v2_access "datapkg";
  ln_cache := inst_slots;
  ln_inv := v2_inv;
  ln_attr := attr2;
  ln_unknown := fun _ n => v2_unknown n;
  ln_path_inj := v2_path_inj;
  ln_load_trace := load_logged_trace "data";
  ln_load_log := load_logged_log "data";
  ln_load_env := load_logged_env "data";
  ln_load_heap := load_logged_heap "data";
  ln_access_undeclared := v2_access_undeclared;
  ln_access_unknown n w Hinv := let '(ex_intro _ l Hr) := Hinv in v2_access_unknown' l w Hr n;
  ln_access_hit n f v w Hinv _ := let '(ex_intro _ l Hr) := Hinv in v2_access_hit' l w Hr n v;
  ln_access_miss_ok n f v w w1 Hinv := let '(ex_intro _ l Hr) := Hinv in v2_access_miss_ok' l w Hr n f v w1;
  ln_access_miss_err n f e w w1 Hinv := let '(ex_intro _ l Hr) := Hinv in v2_access_miss_err' l w Hr n f e w1
|}.

(** ** The import *)

Lemma v2_import_run w0 :
  exists w1, v2_import "datapkg" w0 = (Ok (w_next w0), w1) /\
  w_loads w1 = w_loads w0 /\ w_stdout w1 = w_stdout w0 /\ same_env w1 w0 /\
  repr2 (mkLayout2 (w_next w0) (S (w_next w0))) ∅ w1.
Proof.
  eexists. unfold v2_import, v2_exec, module_store, global_get, module_dict,
    deref, heap_store, alloc. se_unfold. simpl.
  repeat (first [rewrite lookup_insert_eq | rewrite lookup_insert_ne by (lia || discriminate)];
          simpl).
  split; [reflexivity|]. split; [reflexivity|]. split; [reflexivity|].
  split; [split; reflexivity|].
  split; simpl.
  - apply lookup_insert_eq.
  - eexists. rewrite lookup_insert_eq. split; [done|]. split_and!; reflexivity.
  - rewrite !lookup_insert_ne by lia. apply lookup_insert_eq.
  - intros n v Hv. by rewrite lookup_empty in Hv.
  - lia.
  - lia.
Qed.

Lemma v2_import_inv w0 : v2_inv (v2_import "datapkg" w0).2.
Proof.
  destruct (v2_import_run w0) as (w1 & -> & _ & _ & _ & Hr). simpl.
  eexists. by rewrite (inst_slots_repr _ _ _ Hr).
Qed.

Lemma v2_world_inv : v2_inv v2_world.
Proof. apply v2_import_inv. Qed.

(** ** Properties of version 2 *)

(** C18: importing the package, from any process state, binds
    [datapkg.datapkg] to a fresh [_loader] instance whose [__dict__] is
    empty (nothing loaded, nothing printed, no file read) and sets
    [__all__] to [["datapkg"]]. *)
Theorem v2_import_installs w0 :
  let '(r, w1) := v2_import "datapkg" w0 in
  v2_inv w1 /\ inst_slots w1 = ∅ /\ w_loads w1 = w_loads w0 /\ w_stdout w1 = w_stdout w0 /\
  exists m, r = Ok m /\
    module_getattro (call1 m) m "__all__" w1 = (Ok (VStrList ["datapkg"]), w1).
Proof.
  destruct (v2_import_run w0) as (w1 & -> & Hl & Ho & _ & Hr).
  rewrite (inst_slots_repr _ _ _ Hr). split_and!; [by eexists; rewrite (inst_slots_repr _ _ _ Hr)|done..|].
  destruct (repr2_globals _ _ _ Hr) as (d & Hm & (_ & _ & _ & Hall)).
  eexists. split; [done|]. exact (module_getattro_global _ _ _ _ _ Hm _ _ Hall ltac:(done) ltac:(done)).
Qed.

(** C3: every read of [datapkg.name] on the singleton, for a
    declared dataset or a name its class does not resolve, returns what the
    registry's [get] returns on the cache the instance [__dict__] holds
    (an unknown name as [AttributeError]), and leaves the same cache, loader
    trace and output. *)
Theorem v2_refines_registry n w :
  v2_inv w -> (decl2 !! n = None -> attr2 w n = false) ->
  let '(r, w') := v2_access "datapkg" n w in
  let '(r', c', w'') := reg_get decl2 (load_logged "data") n (inst_slots w) w in
  r = report (v2_unknown n) r' /\
  inst_slots w' = c' /\ w_loads w' = w_loads w'' /\ w_stdout w' = w_stdout w''.
Proof. exact (access_refines_reg_get (H := v2_namespace) n w). Qed.

Lemma v2_refines_registry_witness :
  let '(r, w') := v2_access "datapkg" "machines" v2_world in
  let '(r', c', w'') := reg_get decl2 (load_logged "data") "machines" (inst_slots v2_world) v2_world in
  r = report (v2_unknown "machines") r' /\
  inst_slots w' = c' /\ w_loads w' = w_loads w'' /\ w_stdout w' = w_stdout w''.
Proof. apply v2_refines_registry; [exact v2_world_inv|vm_compute; discriminate]. Defined.

(** C10: a client that reads a declared dataset of the singleton at
    least once, with no failed read, from a state where it is not loaded
    yet, makes the loader read its file exactly once and print
    ["loading <file>"] exactly once. *)
Theorem v2_loads_and_prints_once ns w n f :
  v2_inv w -> decl2 !! n = Some f -> inst_slots w !! n = None -> n ∈ ns ->
  failures n ns (run_accesses ns w).1 = 0 ->
  occurrences (resource_path "data" f) (w_loads (run_accesses ns w).2) =
    occurrences (resource_path "data" f) (w_loads w) + 1 /\
  occurrences ("loading " +:+ f) (w_stdout (run_accesses ns w).2) =
    occurrences ("loading " +:+ f) (w_stdout w) + 1.
Proof.
  intros Hinv Hf Hn Hin H0. split.
  - exact (run_loads_exactly_once (H := v2_namespace) ns w n f Hinv Hf Hn Hin H0).
  - exact (run_prints_exactly_once (H := v2_namespace) (fun g => "loading " +:+ g) ns w n f
             (resource_path_inj "data") (fun _ => eq_refl) (string_app_inj _) Hinv Hf Hn Hin H0).
Qed.

Lemma v2_loads_and_prints_once_witness :
  occurrences (resource_path "data" "machines.csv")
    (w_loads (run_accesses ["machines"; "persons"; "machines"] v2_world).2) =
    occurrences (resource_path "data" "machines.csv") (w_loads v2_world) + 1 /\
  occurrences ("loading " +:+ "machines.csv")
    (w_stdout (run_accesses ["machines"; "persons"; "machines"] v2_world).2) =
    occurrences ("loading " +:+ "machines.csv") (w_stdout v2_world) + 1.
Proof.
  apply (v2_loads_and_prints_once _ _ "machines");
    [exact v2_world_inv|reflexivity|vm_compute; reflexivity|
     by vm_compute; left|vm_compute; reflexivity].
Defined.

(** A failed load raises the loader's exception, stores
    nothing in the instance, and the next read calls the loader again. *)
Theorem v2_failed_load_retried n f x w w1 :
  v2_inv w -> decl2 !! n = Some f -> inst_slots w !! n = None ->
  load_logged "data" f w = (Err x, w1) ->
  v2_access "datapkg" n w = (Err x, w1) /\ inst_slots w1 !! n = None /\
  w_loads (v2_access "datapkg" n w1).2 = w_loads w1 ++ [resource_path "data" f].
Proof. exact (failed_load_retried (H := v2_namespace) n f x w w1). Qed.

Lemma v2_failed_load_retried_witness :
  let w := (v2_import "datapkg" broken_world).2 in
  v2_access "datapkg" "machines" w = (Err (FileNotFoundError "data/machines.csv"),
                                      (load_logged "data" "machines.csv" w).2) /\
  inst_slots (load_logged "data" "machines.csv" w).2 !! "machines" = None /\
  w_loads (v2_access "datapkg" "machines" (load_logged "data" "machines.csv" w).2).2 =
  w_loads (load_logged "data" "machines.csv" w).2 ++ [resource_path "data" "machines.csv"].
Proof.
  apply (v2_failed_load_retried _ "machines.csv");
    [apply v2_import_inv|reflexivity|vm_compute; reflexivity|vm_compute; reflexivity].
Defined.

(** Reading a name the class [_loader] does not resolve
    raises [AttributeError("'_loader' object has no attribute 'n'")] and
    changes nothing. *)
Theorem v2_unknown_name n w :
  v2_inv w -> decl2 !! n = None -> attr2 w n = false ->
  v2_access "datapkg" n w = (Err (v2_unknown n), w).
Proof.
  intros [l Hr] Hn Ha.
  pose proof (v2_access_undeclared' l w Hr n Hn) as Hw.
  pose proof (v2_access_unknown' l w Hr n Hn Ha) as He.
  destruct (v2_access "datapkg" n w). simpl in *. by subst.
Qed.

Lemma v2_unknown_name_witness :
  v2_access "datapkg" "vehicles" v2_world = (Err (v2_unknown "vehicles"), v2_world).
Proof. apply v2_unknown_name; [exact v2_world_inv|reflexivity|vm_compute; reflexivity]. Defined.

(** The scenario of spec section 8 on the singleton.
    Reading [machines] twice and [vehicles] once reads [machines.csv] once,
    prints ["loading machines.csv"] once, returns the same list twice,
    leaves [persons] unloaded and rejects [vehicles]. *)
Example v2_scenario :
  let '(rs, w') := run_accesses ["machines"; "machines"; "vehicles"] v2_world in
  rs = [Ok (VRef 2); Ok (VRef 2); Err (v2_unknown "vehicles")] /\
  w_heap w' !! 2 = Some (OTable [["id"; "type"]; ["1"; "drill"]]) /\
  w_loads w' = ["data/machines.csv"] /\ w_stdout w' = ["loading machines.csv"] /\
  inst_slots w' !! "persons" = None.
Proof. vm_compute. split_and!; reflexivity. Qed.


(** The cache is not write-once: a client that assigns
    [datapkg.machines = v] fills the slot with [v] without any load, and
    every later read returns [v]. *)
Theorem v2_client_fills_slot n f v w :
  v2_inv w -> decl2 !! n = Some f ->
  exists w1, v2_setattr "datapkg" n v w = (Ok tt, w1) /\ v2_inv w1 /\
    inst_slots w1 = <[n := v]> (inst_slots w) /\ w_loads w1 = w_loads w /\
    v2_access "datapkg" n w1 = (Ok v, w1).
Proof.
  intros [l Hr] Hf. pose proof (repr2_store l _ w n v Hr (mk_is_Some _ _ Hf)) as Hr1.
  pose proof (repr2_module l _ w Hr).
  destruct (repr2_globals l _ w Hr) as (d & Hm & Hi & _).
  exists (with_heap (<[l2_inst l := OInst "_loader" (<[n := v]> (inst_slots w))]> (w_heap w)) w).
  split_and!.
  - unfold v2_setattr. py_step. rewrite (se_bind_ok _ _ _ _ _ (module_getattro_global _ _ _ _ _ Hm _ _ Hi ltac:(done) ltac:(done))).
    unfold inst_dict_set. rewrite (se_bind_ok _ _ _ _ _ (inst_dict_ok _ _ _ _ (repr2_inst _ _ _ Hr))).
    reflexivity.
  - exists l. by rewrite (inst_slots_repr _ _ _ Hr1).
  - by rewrite (inst_slots_repr _ _ _ Hr1).
  - done.
  - apply (v2_access_hit' l); [by rewrite (inst_slots_repr _ _ _ Hr1)|].
    by rewrite (inst_slots_repr _ _ _ Hr1), lookup_insert_eq.
Qed.

(** The cache can be emptied: [del datapkg.name] on a filled slot
    removes the value without a load, the state stays one of version 2,
    and the next read loads the file again; on an empty slot it raises
    [AttributeError] and changes nothing. *)
Theorem v2_client_deletes_slot n f w :
  v2_inv w -> decl2 !! n = Some f ->
  match inst_slots w !! n with
  | Some _ =>
      exists w1, v2_delattr "datapkg" n w = (Ok tt, w1) /\ v2_inv w1 /\
        inst_slots w1 = delete n (inst_slots w) /\ w_loads w1 = w_loads w /\
        w_loads (v2_access "datapkg" n w1).2 = w_loads w1 ++ [resource_path "data" f]
  | None => v2_delattr "datapkg" n w = (Err (AttributeError (object_attr_error_msg "_loader" n) None), w)
  end.
Proof.
  intros [l Hr] Hf. pose proof (repr2_delete l _ w n Hr) as Hr1.
  pose proof (repr2_module l _ w Hr). destruct (repr2_globals l _ w Hr) as (d & Hm & Hi & _).
  assert (v2_delattr "datapkg" n w =
          match inst_slots w !! n with
          | Some _ => heap_store (l2_inst l) (OInst "_loader" (delete n (inst_slots w))) w
          | None => (Err (AttributeError (object_attr_error_msg "_loader" n) None), w)
          end) as ->.
  { unfold v2_delattr, inst_dict_del. py_step.
    rewrite (se_bind_ok _ _ _ _ _ (module_getattro_global _ _ _ _ _ Hm _ _ Hi ltac:(done) ltac:(done))).
    rewrite (se_bind_ok _ _ _ _ _ (inst_dict_ok _ _ _ _ (repr2_inst _ _ _ Hr))). simpl.
    by destruct (inst_slots w !! n). }
  destruct (inst_slots w !! n) as [v|] eqn:Hn; [|done].
  eexists. split_and!; [reflexivity| |by rewrite (inst_slots_repr _ _ _ Hr1)|done|].
  - exists l. by rewrite (inst_slots_repr _ _ _ Hr1).
  - apply (access_miss_loads (H := v2_namespace) n f); [|done|].
    + exists l. by rewrite (inst_slots_repr _ _ _ Hr1).
    + simpl. by rewrite (inst_slots_repr _ _ _ Hr1), lookup_delete_eq.
Qed.

(** C30: the cache of version 2 is not write-once: a client that
    assigns [datapkg.machines = v] fills the slot with [v] without a load,
    and later reads return [v]; a client that runs [del datapkg.machines]
    on a filled slot empties it without a load, and the next read loads
    the file again; on an empty slot [del] raises [AttributeError] and
    changes nothing. *)
Theorem v2_client_writes_cache n f v w :
  v2_inv w -> decl2 !! n = Some f ->
  (exists w1, v2_setattr "datapkg" n v w = (Ok tt, w1) /\ v2_inv w1 /\
     inst_slots w1 = <[n := v]> (inst_slots w) /\ w_loads w1 = w_loads w /\
     v2_access "datapkg" n w1 = (Ok v, w1)) /\
  match inst_slots w !! n with
  | Some _ =>
      exists w1, v2_delattr "datapkg" n w = (Ok tt, w1) /\ v2_inv w1 /\
        inst_slots w1 = delete n (inst_slots w) /\ w_loads w1 = w_loads w /\
        w_loads (v2_access "datapkg" n w1).2 = w_loads w1 ++ [resource_path "data" f]
  | None => v2_delattr "datapkg" n w = (Err (AttributeError (object_attr_error_msg "_loader" n) None), w)
  end.
Proof. intros Hinv Hf. split; [exact (v2_client_fills_slot n f v w Hinv Hf)|exact (v2_client_deletes_slot n f w Hinv Hf)]. Qed.

Lemma v2_client_writes_cache_witness :
  let w := (v2_access "datapkg" "machines" v2_world).2 in
  ((exists w1, v2_setattr "datapkg" "persons" (VStrList ["not"; "a"; "table"]) w = (Ok tt, w1) /\
     v2_inv w1 /\ inst_slots w1 = <["persons" := VStrList ["not"; "a"; "table"]]> (inst_slots w) /\
     w_loads w1 = w_loads w /\
     v2_access "datapkg" "persons" w1 = (Ok (VStrList ["not"; "a"; "table"]), w1)) /\
   v2_delattr "datapkg" "persons" w =
     (Err (AttributeError (object_attr_error_msg "_loader" "persons") None), w)) /\
  ((exists w1, v2_setattr "datapkg" "machines" VNone w = (Ok tt, w1) /\ v2_inv w1 /\
     inst_slots w1 = <["machines" := VNone]> (inst_slots w) /\ w_loads w1 = w_loads w /\
     v2_access "datapkg" "machines" w1 = (Ok VNone, w1)) /\
   exists w1, v2_delattr "datapkg" "machines" w = (Ok tt, w1) /\ v2_inv w1 /\
     inst_slots w1 = delete "machines" (inst_slots w) /\ w_loads w1 = w_loads w /\
     w_loads (v2_access "datapkg" "machines" w1).2 = w_loads w1 ++ [resource_path "data" "machines.csv"]).
Proof.
  intros w. pose proof (proj1 (access_cases (H := v2_namespace) "machines" v2_world _ _
                                 v2_world_inv (surjective_pairing _))) as Hinv.
  assert (inst_slots w !! "persons" = None) as Hp by (vm_compute; reflexivity).
  assert (inst_slots w !! "machines" = Some (VRef 2)) as Hm by (vm_compute; reflexivity).
  destruct (v2_client_writes_cache "persons" "persons.csv" (VStrList ["not"; "a"; "table"]) w Hinv eq_refl)
    as [H1 H2]. rewrite Hp in H2.
  destruct (v2_client_writes_cache "machines" "machines.csv" VNone w Hinv eq_refl) as [H3 H4].
  rewrite Hm in H4. exact (conj (conj H1 H2) (conj H3 H4)).
Defined.

End V2.
