(* ===== verification/Scheduler.v ===== *)
(** * Interleavings of threads over the interpreter state

    Threads share the interpreter state ([world]); each is the name it
    reads and a position in the code, of a type [P] chosen by the program
    being run.  [tstep n p w] runs the next atomic segment of a thread at
    [p] reading [n], or is [None] once the thread has finished.  [step]
    runs one segment of any thread, so [rtc step] is the set of all
    interleavings; [run_schedule] runs a given schedule and is sound for
    [step]; [run_alone] runs one thread with no other. *)

From stdpp Require Import base list relations strings.
From S2P Require Import Prelude PyRuntime.

(** The threads (each a name and its position) and the shared state. *)
Definition config (P : Type) : Type := list (string * P) * world.

Section Scheduler.
Context {P : Type} (tstep : string -> P -> world -> option (P * world)).

(** The scheduler runs one segment of any unfinished thread. *)
Inductive step : config P -> config P -> Prop :=
| step_thread ts w i n p p' w' :
    ts !! i = Some (n, p) -> tstep n p w = Some (p', w') ->
    step (ts, w) (<[i := (n, p')]> ts, w').

(** A thread run alone for at most [fuel] segments. *)
Fixpoint run_alone (fuel : nat) (n : string) (p : P) (w : world) : P * world :=
  match fuel with
  | 0 => (p, w)
  | S k =>
      match tstep n p w with
      | Some (p', w') => run_alone k n p' w'
      | None => (p, w)
      end
  end.

(** A schedule: the threads to run, in order. *)
Definition sched_step (c : config P) (i : nat) : option (config P) :=
  match c.1 !! i with
  | Some (n, p) => (fun pw => (<[i := (n, pw.1)]> c.1, pw.2)) <$> tstep n p c.2
  | None => None
  end.

Fixpoint run_schedule (s : list nat) (c : config P) : option (config P) :=
  match s with
  | [] => Some c
  | i :: s' => sched_step c i ≫= run_schedule s'
  end.

(** The segments the threads still have to run, when a thread at [p]
    has at most [rank p] left. *)
Definition weight (rank : P -> nat) (ts : list (string * P)) : nat :=
  sum_list_with (fun t => rank t.2) ts.
End Scheduler.

Section SchedulerLemmas.
Context {P : Type} (tstep : string -> P -> world -> option (P * world)).

(** A schedule the executable scheduler accepts is an interleaving. *)
Lemma run_schedule_sound sch c c' :
  run_schedule tstep sch c = Some c' -> rtc (step tstep) c c'.
Proof.
  revert c. induction sch as [|i sch IH]; intros [ts w] Hrun; simpl in Hrun; [by simplify_eq|].
  destruct (sched_step tstep (ts, w) i) as [c1|] eqn:Hs; [|done]. simpl in Hrun.
  unfold sched_step in Hs. simpl in Hs.
  destruct (ts !! i) as [[n p]|] eqn:Hi; [|done].
  destruct (tstep n p w) as [[p' w']|] eqn:Ht; [|done]. simpl in Hs. simplify_eq.
  eapply rtc_l; [by eapply step_thread|]. auto.
Qed.

(** A step is possible exactly when some thread has a segment to run. *)
Lemma red_step_iff c :
  red (step tstep) c <-> Exists (fun t => is_Some (tstep t.1 t.2 c.2)) c.1.
Proof.
  destruct c as [ts w]. rewrite Exists_exists. simpl. split.
  - intros [c' Hs]. inversion Hs as [ts0 w0 i n p p' w' Hi Ht]; subst.
    exists (n, p). split; [by eapply list_elem_of_lookup_2|]. by eexists.
  - intros ([n p] & Hin & [[p' w'] Ht]). apply list_elem_of_lookup_1 in Hin as [i Hi].
    eexists. by eapply step_thread.
Qed.
End SchedulerLemmas.

#[export] Instance red_step_dec {P} (tstep : string -> P -> world -> option (P * world)) c :
  Decision (red (step tstep) c).
Proof.
  destruct (decide (Exists (fun t => is_Some (tstep t.1 t.2 c.2)) c.1)) as [H|H];
    [left|right]; by rewrite red_step_iff.
Defined.

(** ** Termination and liveness

    When every segment lowers the position of its thread in a ranking,
    every interleaving is finite, of at most [weight] steps; when moreover
    only the final positions have no segment, no interleaving stops with
    a thread unfinished. *)
Section Termination.
Context {P : Type} (tstep : string -> P -> world -> option (P * world)).
Context (rank : P -> nat) (final : P -> Prop).
Hypothesis Hrank : forall n p w p' w', tstep n p w = Some (p', w') -> rank p' < rank p.
Hypothesis Hfinal : forall n p w, tstep n p w = None <-> final p.

Lemma step_weight c c' : step tstep c c' -> weight rank c'.1 < weight rank c.1.
Proof.
  intros [ts w i n p p' w' Hi Ht]. simpl. unfold weight.
  pose proof (sum_list_with_insert (fun t => rank t.2) ts i (n, p') (n, p) Hi).
  pose proof (Hrank _ _ _ _ _ Ht). simpl in *. lia.
Qed.

Lemma nsteps_weight k c c' : nsteps (step tstep) k c c' -> k + weight rank c'.1 <= weight rank c.1.
Proof. induction 1 as [|k c c1 c' Hs _ IH]; [lia|]. pose proof (step_weight _ _ Hs). lia. Qed.

Lemma step_sn c : sn (step tstep) c.
Proof.
  revert c. change (well_founded (flip (step tstep))).
  apply (wf_projected (<) (fun c => weight rank c.1)); [|exact lt_wf].
  intros c c' Hs. exact (step_weight _ _ Hs).
Qed.

Lemma nf_step_final c : nf (step tstep) c -> Forall (fun t => final t.2) c.1.
Proof.
  destruct c as [ts w]. intros Hnf. apply Forall_lookup_2. intros i [n p] Hi. simpl.
  apply (Hfinal n p w). destruct (tstep n p w) as [[p' w']|] eqn:Ht; [|done].
  destruct Hnf. eexists. by eapply step_thread.
Qed.

Lemma step_finishes c : exists c', rtc (step tstep) c c' /\ Forall (fun t => final t.2) c'.1.
Proof.
  destruct (sn_wn c (step_sn c)) as (c' & Hs & Hnf). exists c'. split; [done|].
  exact (nf_step_final c' Hnf).
Qed.
End Termination.
