(* ===== verification/CachedProperty.v ===== *)
(** * Reads that end in [functools.cached_property], under threads

    Versions 1 and 2 both keep a dataset in a [cached_property] of a loader
    instance.  [cached_property.__get__] (Python 3.12 and later) looks the
    name up in the instance [__dict__] and, on a miss, calls the decorated
    function and stores its value, holding no lock.  A client's read is
    therefore three atomic segments between which another thread can run:
    - the lookup, up to the cache check ([getattr_prefix] for
      [object.__getattribute__] and [__get__], after whatever the version
      does first to reach the instance);
    - the call of the decorated function;
    - the store in the instance [__dict__], and the return.
    The call and the store run inside the [try] blocks of the frames the
    lookup entered: a thread about to call or store carries the handler
    [h] of [except AttributeError] (version 1: [LazyModule.__getattr__],
    lines 40-43; version 2: none, [no_handler]).  [cp_step lookup] is one
    segment of a thread, for the generic scheduler of [Scheduler]; every
    interleaving of such threads terminates and ends with every thread
    finished ([cp_interleavings_terminate], [cp_threads_finish]). *)

From stdpp Require Import base gmap list relations strings.
From S2P Require Import Prelude PyRuntime Attr Scheduler.
Local Open Scope se_scope.

Module CachedProp.

(** Where a thread is: before its read, about to call the property's
    function, about to store its value, or finished. *)
Inductive cp_pc :=
| Start
| Call (f : oid -> PyM pyval) (self : oid) (h : exc -> PyM pyval)
| Store (self : oid) (v : pyval) (h : exc -> PyM pyval)
| Done (r : result exc pyval).

(** No enclosing [try]: the exception propagates. *)
Definition no_handler (e : exc) : PyM pyval := raise e.

(** [getattr(v, name)] on an instance, up to the cache check of
    [cached_property.__get__]: [Attr.object_getattribute] and
    [Attr.cached_property_get] cut before the call of [func]. *)
Definition getattr_prefix (cls_of : string -> option pyclass) (h : exc -> PyM pyval)
    (v : pyval) (name : string) : PyM cp_pc :=
  match v with
  | VRef self =>
      let* cd := inst_dict self in
      match cls_of cd.1 with
      | None => raise (SystemError "unknown class")
      | Some c =>
          match mro_lookup name (cls_mro c) with
          | Some MDescr => return (Done (Ok (instance_descr_get self c name)))
          | found =>
              match cd.2 !! name with
              | Some x => return (Done (Ok x))
              | None =>
                  match found with
                  | Some (MCachedProperty f) =>
                      let* cd' := inst_dict self in
                      match cd'.2 !! name with
                      | Some x => return (Done (Ok x))
                      | None => return (Call f self h)
                      end
                  | Some MFunction => return (Done (Ok (VMethod self name)))
                  | Some MClassMethod => return (Done (Ok (VClassMethod (cls_name c) name)))
                  | Some (MData x) => return (Done (Ok x))
                  | _ => raise (AttributeError (object_attr_error_msg (cls_name c) name) None)
                  end
              end
          end
      end
  | _ => raise (AttributeError (object_attr_error_msg "object" name) None)
  end.

(** A segment run inside [try: ... except AttributeError as e: h(e)]: its
    outcome as the thread's next position; an exception finishes it. *)
Definition settle_in {A} (h : exc -> PyM pyval) (c : PyM A) (k : A -> cp_pc) (w : world)
    : cp_pc * world :=
  match c w with
  | (Ok a, w') => (k a, w')
  | (Err e, w') =>
      match e with
      | AttributeError _ _ => let '(r, w'') := h e w' in (Done r, w'')
      | _ => (Done (Err e), w')
      end
  end.

(** One segment of a thread reading [name], whose lookup is [lookup]. *)
Definition cp_step (lookup : string -> PyM cp_pc) (name : string) (p : cp_pc) (w : world)
    : option (cp_pc * world) :=
  match p with
  | Start => Some (settle_in no_handler (lookup name) (fun q => q) w)
  | Call f self h => Some (settle_in h (f self) (fun v => Store self v h) w)
  | Store self v h => Some (settle_in h (inst_dict_set self name v) (fun _ => Done (Ok v)) w)
  | Done _ => None
  end.

(** [k] client threads, each about to read [name]. *)
Definition cp_readers (name : string) (k : nat) : list (string * cp_pc) := replicate k (name, Start).

Definition cp_results (ts : list (string * cp_pc)) : list (option (result exc pyval)) :=
  map (fun np => match np.2 with Done r => Some r | _ => None end) ts.

(** How many segments a thread at [p] has left at most. *)
Definition cp_rank (p : cp_pc) : nat :=
  match p with Start => 3 | Call _ _ _ => 2 | Store _ _ _ => 1 | Done _ => 0 end.

Definition cp_done (p : cp_pc) : Prop := match p with Done _ => True | _ => False end.

(** A thread's position agrees with a package at layout [l] whose
    invariant is [R]: a thread about to call a function calls, on the
    instance, the loader of a declared dataset; a thread about to store
    stores a declared dataset in the instance. *)
Definition cp_thread_ok {L} (R : L -> gmap string pyval -> world -> Prop) (inst : L -> oid)
    (decl : gmap string string) (load : string -> PyM pyval) (l : L) (t : string * cp_pc) : Prop :=
  match t.2 with
  | Call f self _ =>
      self = inst l /\ exists fn, decl !! t.1 = Some fn /\ forall s w, R l s w -> f self w = load fn w
  | Store self _ _ => self = inst l /\ is_Some (decl !! t.1)
  | _ => True
  end.

(** ** The interface of a package read through a [cached_property]

    What the bound on loads needs of a version: its invariant [cpp_repr]
    (a layout and the instance [__dict__]), the instance, the declared
    datasets and their loader; its lookup segment keeps the invariant
    with the same instance [__dict__], reads no file, and leaves a thread
    that agrees with the package; the store keeps the invariant and
    reads no file; the loader keeps the invariant, reads exactly its path,
    and never raises [AttributeError]. *)
Class CPPackage := {
  cpp_layout : Type;
  cpp_repr : cpp_layout -> gmap string pyval -> world -> Prop;
  cpp_inst : cpp_layout -> oid;
  cpp_decl : gmap string string;
  cpp_path : string -> string;
  cpp_load : string -> PyM pyval;
  cpp_lookup : string -> PyM cp_pc;

  cpp_lookup_not_start n w q w' : cpp_lookup n w = (Ok q, w') -> q <> Start;
  cpp_lookup_ok l s w n :
    cpp_repr l s w -> exists r w1, cpp_lookup n w = (r, w1) /\ cpp_repr l s w1 /\
      w_loads w1 = w_loads w /\
      forall q, r = Ok q -> cp_thread_ok cpp_repr cpp_inst cpp_decl cpp_load l (n, q);
  cpp_store l s w n v :
    cpp_repr l s w -> is_Some (cpp_decl !! n) ->
    exists s' w', inst_dict_set (cpp_inst l) n v w = (Ok tt, w') /\ cpp_repr l s' w' /\
                  w_loads w' = w_loads w;
  cpp_load_repr l s w f : cpp_repr l s w -> cpp_repr l s (cpp_load f w).2;
  cpp_load_trace f w : w_loads (cpp_load f w).2 = w_loads w ++ [cpp_path f];
  cpp_load_not_attr f w e w' msg x : cpp_load f w = (Err e, w') -> e <> AttributeError msg x;
  cpp_path_inj n1 n2 f1 f2 :
    cpp_decl !! n1 = Some f1 -> cpp_decl !! n2 = Some f2 -> cpp_path f1 = cpp_path f2 -> n1 = n2
}.

Section CPDefs.
Context `{CPPackage}.

(** The state is one of the package, and every thread agrees with it. *)
Definition cpp_cfg_inv (c : config cp_pc) : Prop :=
  exists l s, cpp_repr l s c.2 /\ Forall (cp_thread_ok cpp_repr cpp_inst cpp_decl cpp_load l) c.1.

(** A thread reading [n] that may still call the loader. *)
Definition cp_is_pending (n : string) (t : string * cp_pc) : bool :=
  String.eqb t.1 n && match t.2 with Start | Call _ _ _ => true | _ => false end.

Definition cp_pending (n : string) (ts : list (string * cp_pc)) : nat :=
  length (List.filter (cp_is_pending n) ts).
End CPDefs.

(** ** Lemmas *)

Lemma getattr_prefix_not_start cls_of h v n w q w' :
  getattr_prefix cls_of h v n w = (Ok q, w') -> q <> Start.
Proof. unfold getattr_prefix. se_unfold. intros H. repeat (case_match; simplify_eq/=; try done). Qed.

(** The prefix on an instance of a known class: a read of its
    [__dict__], then of the MRO; the state is unchanged. *)
Lemma getattr_prefix_inst cls_of h self cn slots c n w :
  w_heap w !! self = Some (OInst cn slots) -> cls_of cn = Some c ->
  getattr_prefix cls_of h (VRef self) n w =
  (match mro_lookup n (cls_mro c) with
   | Some MDescr => Ok (Done (Ok (instance_descr_get self c n)))
   | found =>
       match slots !! n with
       | Some x => Ok (Done (Ok x))
       | None =>
           match found with
           | Some (MCachedProperty f) => Ok (Call f self h)
           | Some MFunction => Ok (Done (Ok (VMethod self n)))
           | Some MClassMethod => Ok (Done (Ok (VClassMethod (cls_name c) n)))
           | Some (MData x) => Ok (Done (Ok x))
           | _ => Err (AttributeError (object_attr_error_msg (cls_name c) n) None)
           end
       end
   end, w).
Proof.
  intros Hi Hc. pose proof (inst_dict_ok _ _ _ _ Hi) as Hd. unfold getattr_prefix.
  rewrite (se_bind_ok _ _ _ _ _ Hd). cbn [fst snd]. rewrite Hc.
  destruct (mro_lookup n (cls_mro c)) as [[]|]; try done;
    destruct (slots !! n) eqn:Hs; try done.
  rewrite (se_bind_ok _ _ _ _ _ Hd). cbn [fst snd]. by rewrite Hs.
Qed.

Lemma settle_in_done {A} h (c : PyM A) k w p w' :
  settle_in h c k w = (p, w') -> (exists a, c w = (Ok a, w') /\ p = k a) \/ cp_done p.
Proof.
  unfold settle_in. destruct (c w) as [[a|e] w1]; intros H; [left; simplify_eq; eauto|right].
  destruct e; simplify_eq; try done. destruct (h _ w1). by simplify_eq.
Qed.

Lemma settle_in_ok {A} h (c : PyM A) k w a w' : c w = (Ok a, w') -> settle_in h c k w = (k a, w').
Proof. intros Hc. unfold settle_in. by rewrite Hc. Qed.

Lemma settle_in_err {A} h (c : PyM A) k w e w' :
  c w = (Err e, w') -> (forall msg x, e <> AttributeError msg x) -> settle_in h c k w = (Done (Err e), w').
Proof. intros Hc He. unfold settle_in. rewrite Hc. destruct e as [msg x| | | | | | |]; try done. by destruct (He msg x). Qed.

Lemma settle_in_no_handler {A} (c : PyM A) k w e w' :
  c w = (Err e, w') -> settle_in no_handler c k w = (Done (Err e), w').
Proof. intros Hc. unfold settle_in. rewrite Hc. by destruct e. Qed.

Lemma cp_step_none lookup n p w : cp_step lookup n p w = None <-> cp_done p.
Proof. by destruct p. Qed.

Lemma cp_rank_le p : cp_rank p <= 3.
Proof. destruct p; simpl; lia. Qed.

Section Termination.
Context (lookup : string -> PyM cp_pc).
Hypothesis Hlookup : forall n w q w', lookup n w = (Ok q, w') -> q <> Start.

(** A thread never goes back to its start, nor from its call to a call. *)
Lemma cp_step_progress n p w p' w' :
  cp_step lookup n p w = Some (p', w') ->
  p' <> Start /\ (p <> Start -> match p' with Call _ _ _ => False | _ => True end).
Proof.
  intros Ht. destruct p as [|f self h|self v h|r]; simpl in Ht; [..|done]; injection Ht as Ht;
    destruct (settle_in_done _ _ _ _ _ _ Ht) as [(a & Ha & ->)|Hd];
    try (destruct p'; simpl in *; done); [split; [exact (Hlookup _ _ _ _ Ha)|done]|done..].
Qed.

(** Each segment moves its thread forward. *)
Lemma cp_step_rank n p w p' w' : cp_step lookup n p w = Some (p', w') -> cp_rank p' < cp_rank p.
Proof.
  intros Ht. destruct p as [|f self h|self v h|r]; simpl in Ht; [..|done]; injection Ht as Ht;
    destruct (settle_in_done _ _ _ _ _ _ Ht) as [(a & Ha & ->)|Hd];
    try (simpl; lia); try (destruct p'; simpl in *; done || lia).
  pose proof (Hlookup _ _ _ _ Ha). destruct a; simpl; done || lia.
Qed.

(** Every interleaving of such threads is finite, of at most three
    segments per thread, and ends with every thread finished. *)
Lemma cp_interleavings_terminate c :
  sn (step (cp_step lookup)) c /\
  forall k c', nsteps (step (cp_step lookup)) k c c' -> k <= 3 * length c.1.
Proof.
  split; [exact (step_sn _ cp_rank cp_step_rank c)|].
  intros k c' Hk. pose proof (nsteps_weight _ cp_rank cp_step_rank _ _ _ Hk).
  pose proof (sum_list_with_le (fun t : string * cp_pc => cp_rank t.2) 3 c.1 (fun t => cp_rank_le t.2)).
  unfold weight in *. lia.
Qed.

Lemma cp_threads_finish c :
  (exists c', rtc (step (cp_step lookup)) c c' /\ Forall (fun t => cp_done t.2) c'.1) /\
  (forall c', nf (step (cp_step lookup)) c' -> Forall (fun t => cp_done t.2) c'.1).
Proof.
  split.
  - exact (step_finishes _ cp_rank cp_done cp_step_rank (cp_step_none lookup) c).
  - exact (nf_step_final _ cp_done (cp_step_none lookup)).
Qed.
End Termination.

(** ** The bound on loads, for every package of the interface *)

Section Bound.
Context `{CPPackage}.

Local Abbreviation thread_ok := (cp_thread_ok cpp_repr cpp_inst cpp_decl cpp_load).

(** A segment keeps the position agreeing and the state one of the
    package; only the call of the property's function reads a file. *)
Lemma cpp_step_effect l s w n p p' w' :
  cpp_repr l s w -> thread_ok l (n, p) -> cp_step cpp_lookup n p w = Some (p', w') ->
  thread_ok l (n, p') /\ (exists s', cpp_repr l s' w') /\
  match p with
  | Call _ _ _ => exists fn, cpp_decl !! n = Some fn /\ w_loads w' = w_loads w ++ [cpp_path fn]
  | _ => w_loads w' = w_loads w
  end.
Proof.
  intros Hr Hok Ht. destruct p as [|f self h|self v h|r]; simpl in Hok, Ht; [| | |done]; injection Ht as Ht.
  - destruct (cpp_lookup_ok l s w n Hr) as ([q|e] & w1 & Hl & Hr1 & Hl1 & Hq);
      [rewrite (settle_in_ok _ _ _ _ _ _ Hl) in Ht|rewrite (settle_in_no_handler _ _ _ _ _ Hl) in Ht];
      injection Ht as <- <-; split_and!; eauto; done.
  - destruct Hok as (-> & fn & Hfn & Hf). pose proof (Hf s w Hr) as Hc.
    pose proof (cpp_load_repr l s w fn Hr) as Hr1. pose proof (cpp_load_trace fn w) as Htr.
    destruct (cpp_load fn w) as [[v|e] w1] eqn:Hl; simpl in *;
      [rewrite (settle_in_ok _ _ _ _ _ _ Hc) in Ht|
       rewrite (settle_in_err _ _ _ _ _ _ Hc (fun msg x => cpp_load_not_attr _ _ _ _ msg x Hl)) in Ht];
      injection Ht as <- <-;
      (split_and!; [|by eexists|by exists fn]); [split; [done|by eexists]|done].
  - destruct Hok as (-> & Hd). destruct (cpp_store l s w n v Hr Hd) as (s' & w1 & Hst & Hr1 & Hl1).
    rewrite (settle_in_ok _ _ _ _ _ _ Hst) in Ht. injection Ht as <- <-. split_and!; eauto; done.
Qed.

Lemma cpp_cfg_inv_insert l s ts i n p w :
  cpp_repr l s w -> Forall (thread_ok l) ts -> thread_ok l (n, p) -> cpp_cfg_inv (<[i := (n, p)]> ts, w).
Proof. intros Hr Hts Hp. exists l, s. split; [done|]. by apply Forall_insert. Qed.

Lemma cpp_step_inv c c' : cpp_cfg_inv c -> step (cp_step cpp_lookup) c c' -> cpp_cfg_inv c'.
Proof.
  intros (l & s & Hr & Hts) Hstep. destruct Hstep as [ts w i n p p' w' Hi Ht]. simpl in *.
  destruct (cpp_step_effect l s w n p p' w' Hr (Forall_lookup_1 _ _ _ _ Hts Hi) Ht)
    as (Hok & [s' Hr'] & _).
  exact (cpp_cfg_inv_insert l s' ts i n p' w' Hr' Hts Hok).
Qed.

(** A step does not increase the loads of [f] plus the readers of its name
    that may still load it. *)
Lemma cpp_step_loads c c' n f :
  cpp_cfg_inv c -> step (cp_step cpp_lookup) c c' -> cpp_decl !! n = Some f ->
  occurrences (cpp_path f) (w_loads c'.2) + cp_pending n c'.1 <=
  occurrences (cpp_path f) (w_loads c.2) + cp_pending n c.1.
Proof.
  intros (l & s & Hr & Hts) Hstep Hf. destruct Hstep as [ts w i n' p p' w' Hi Ht]. simpl in *.
  destruct (cpp_step_effect l s w n' p p' w' Hr (Forall_lookup_1 _ _ _ _ Hts Hi) Ht) as (_ & _ & Hl).
  destruct (cp_step_progress _ cpp_lookup_not_start _ _ _ _ _ Ht) as [Hp1 Hp2].
  pose proof (length_filter_insert (cp_is_pending n) ts i (n', p') (n', p) Hi) as Hlen.
  unfold cp_pending, cp_is_pending in *; simpl in Hlen.
  destruct p as [|g self h|self v h|r]; [rewrite Hl| |rewrite Hl|done].
  - destruct (String.eqb n' n), p'; simpl in Hlen; try done; lia.
  - destruct Hl as (fn & Hfn & ->). rewrite occurrences_app.
    specialize (Hp2 ltac:(done)). destruct (String.eqb_spec n' n) as [->|Hne].
    + rewrite Hf in Hfn. injection Hfn as <-. rewrite occurrences_singleton_eq.
      destruct p'; try done; simpl in Hlen; lia.
    + rewrite occurrences_singleton_ne
        by (intros Heq; apply Hne; apply (cpp_path_inj n' n fn f Hfn Hf); congruence).
      simpl in Hlen. lia.
  - specialize (Hp2 ltac:(done)). destruct (String.eqb n' n), p'; simpl in Hlen; try done; lia.
Qed.

Lemma cpp_rtc_loads c c' n f :
  cpp_cfg_inv c -> rtc (step (cp_step cpp_lookup)) c c' -> cpp_decl !! n = Some f ->
  cpp_cfg_inv c' /\
  occurrences (cpp_path f) (w_loads c'.2) + cp_pending n c'.1 <=
  occurrences (cpp_path f) (w_loads c.2) + cp_pending n c.1.
Proof.
  intros Hinv Hsteps Hf. induction Hsteps as [c|c c1 c' Hstep _ IH]; [done|].
  pose proof (cpp_step_loads c c1 n f Hinv Hstep Hf).
  destruct (IH (cpp_step_inv c c1 Hinv Hstep)) as [? ?]. split; [done|lia].
Qed.

Lemma cp_pending_readers n k : cp_pending n (cp_readers n k) = k.
Proof.
  induction k as [|k IH]; [done|]. unfold cp_pending, cp_readers, cp_is_pending in *. simpl.
  rewrite String.eqb_refl. simpl. by rewrite IH.
Qed.

(** Under every interleaving of [k] threads that start to read the
    declared dataset [n] together, the state stays one of the package and
    the loader reads its file at most [k] times. *)
Lemma cpp_loads_bounded l s w k c' n f :
  cpp_repr l s w -> cpp_decl !! n = Some f ->
  rtc (step (cp_step cpp_lookup)) (cp_readers n k, w) c' ->
  (exists l' s', cpp_repr l' s' c'.2) /\
  occurrences (cpp_path f) (w_loads c'.2) <= occurrences (cpp_path f) (w_loads w) + k.
Proof.
  intros Hr Hf Hsteps.
  assert (cpp_cfg_inv (cp_readers n k, w)) as Hinv
    by (exists l, s; split; [done|by apply Forall_replicate]).
  destruct (cpp_rtc_loads _ c' n f Hinv Hsteps Hf) as [(l' & s' & Hr' & _) Hle].
  simpl in Hle. rewrite cp_pending_readers in Hle. split; [eauto|lia].
Qed.
End Bound.

End CachedProp.
