(* ===== verification/Concurrency.v ===== *)
(** * Interleaved reads of version 3

    Spec section 5 asks that the loader run at most once per name even when
    several threads read a dataset for the first time together.  The hook
    of [src/v3/datapkg/__init__.py] is check-then-load-then-store with no
    lock: between the test of line 15 and the store of line 16 another
    thread can run, in particular while [_load_csv] waits for the file.

    [__getattr__] is cut at those points into four segments, each a
    sequence of the statements of [HookV3.V3.__getattr__]: [seg_entry]
    (lines 13-15), [seg_load] (the right-hand side of line 16), [seg_store]
    (its target) and [seg_return] (line 17).  A thread is a name and the
    segment it runs next ([pc]); [Scheduler.step] runs one segment of one
    thread on the shared state, so its reflexive-transitive closure is every
    interleaving of the threads at segment granularity.  Each segment is
    atomic here: every interleaving of the model is one of CPython, which
    can also switch inside a segment.

    The theorems: a thread alone runs [__getattr__] exactly, in four steps;
    every interleaving keeps the representation invariant of version 3 at
    the same layout, never empties a slot and changes neither the module's
    globals, [AVAILABLE], the filenames nor the files ([frame_same]), so
    the reads of a segment other than its slot access give the same value
    at any point of an interleaving; and two threads reading [machines] together can
    both call the loader and return two different lists. *)

From stdpp Require Import base gmap strings list relations.
From S2P Require Import Prelude PyRuntime Attr Registry HookV3 Scheduler.
Import V3.
Local Open Scope se_scope.

Module Interleaving.

(** ** Segments of [__getattr__] *)

(** Where a thread inside [__getattr__(name)] stands. *)
Inductive pc :=
| Entry                           (** before line 13 *)
| Miss                            (** line 15 found the slot [None] *)
| Loaded (v : pyval)              (** [_load_csv] of line 16 returned [v] *)
| Hit                             (** before line 17 *)
| Finished (r : result exc pyval). (** returned or raised [r] *)

(** Lines 13-15: the membership test, then the slot. *)
Definition seg_entry (m : oid) (name : string) : PyM pc :=
  let* avail := global_get m "AVAILABLE" in
  let* present := dict_contains avail name in
  if negb present then
    let* modname := global_get m "__name__" in
    raise (AttributeError (str_of modname +:+ " does not have " +:+ name) None)
  else
    let* avail1 := global_get m "AVAILABLE" in
    let* entry1 := dict_getitem avail1 name in
    let* cached := dict_getitem entry1 "cached" in
    return (match cached with VNone => Miss | _ => Hit end).

(** Line 16, right-hand side: [_load_csv(AVAILABLE[name]["filename"])]. *)
Definition seg_load (m : oid) (name : string) : PyM pyval :=
  let* avail2 := global_get m "AVAILABLE" in
  let* entry2 := dict_getitem avail2 name in
  let* filename := dict_getitem entry2 "filename" in
  _load_csv m filename.

(** Line 16, target: [AVAILABLE[name]["cached"] = v]. *)
Definition seg_store (m : oid) (name : string) (v : pyval) : PyM unit :=
  let* avail3 := global_get m "AVAILABLE" in
  let* entry3 := dict_getitem avail3 name in
  dict_setitem entry3 "cached" v.

(** Line 17: [return AVAILABLE[name]["cached"]]. *)
Definition seg_return (m : oid) (name : string) : PyM pyval :=
  let* avail4 := global_get m "AVAILABLE" in
  let* entry4 := dict_getitem avail4 name in
  dict_getitem entry4 "cached".

(** Runs a segment; an exception ends the thread with it. *)
Definition settle {A} (c : PyM A) (k : A -> pc) (w : world) : pc * world :=
  match c w with
  | (Ok a, w') => (k a, w')
  | (Err e, w') => (Finished (Err e), w')
  end.

(** One segment of a thread reading [name]; a finished thread has none. *)
Definition thread_step (m : oid) (name : string) (p : pc) (w : world) : option (pc * world) :=
  match p with
  | Entry => Some (settle (seg_entry m name) id w)
  | Miss => Some (settle (seg_load m name) Loaded w)
  | Loaded v => Some (settle (seg_store m name v) (fun _ => Hit) w)
  | Hit => Some (settle (seg_return m name) (fun v => Finished (Ok v)) w)
  | Finished _ => None
  end.

(** ** Interleavings *)

(** [n] threads starting to read [name]. *)
Definition readers (name : string) (k : nat) : list (string * pc) := replicate k (name, Entry).

(** The result of each thread, once finished. *)
Definition results (ts : list (string * pc)) : list (option (result exc pyval)) :=
  map (fun t => match t.2 with Finished r => Some r | _ => None end) ts.

(** Two threads that read [machines] together, each preempted while it
    waits for the file, in this order: both test (lines 13-15), the first
    loads, stores and returns, then the second loads, stores and returns. *)
Definition race_schedule : list nat := [0; 1; 0; 0; 0; 1; 1; 1].

(** How many segments a thread at [p] has left at most. *)
Definition pc_rank (p : pc) : nat :=
  match p with Entry => 4 | Miss => 3 | Loaded _ => 2 | Hit => 1 | Finished _ => 0 end.

Definition is_finished (p : pc) : Prop := match p with Finished _ => True | _ => False end.

(** ** The invariant of an interleaving *)

(** What a thread's position tells of the shared state: past the test a
    thread reads a declared name, a loaded value is not [None], and a
    thread about to return finds its slot filled. *)
Definition thread_ok (slots : gmap string pyval) (t : string * pc) : Prop :=
  match t.2 with
  | Miss => is_Some (decl_map !! t.1)
  | Loaded v => is_Some (decl_map !! t.1) /\ v <> VNone
  | Hit => is_Some (slots !! t.1)
  | _ => True
  end.

(** The state is one of version 3 for the module [m], and every thread's
    position agrees with it. *)
Definition cfg_inv (m : oid) (c : config pc) : Prop :=
  exists l, l_mod l = m /\ repr l (cache_of c.2) c.2 /\ Forall (thread_ok (cache_of c.2)) c.1.

(** The invariant at the layout [l]. *)
Definition cfg_at (l : layout) (c : config pc) : Prop :=
  repr l (cache_of c.2) c.2 /\ Forall (thread_ok (cache_of c.2)) c.1.

(** What no segment changes: [sys.modules], the resource files and the
    module object of the package (its globals).  With [repr] at one layout
    it follows that [AVAILABLE] and each [AVAILABLE[n]["filename"]] are
    the same objects and values too: only the slots [AVAILABLE[n]["cached"]]
    change, and new objects are allocated. *)
Definition frame_same (l : layout) (w w' : world) : Prop :=
  w_modules w' = w_modules w /\ same_env w' w /\ w_heap w' !! l_mod l = w_heap w !! l_mod l.

(** Every slot filled in [s] is filled in [s']. *)
Definition filled_le (s s' : gmap string pyval) : Prop :=
  forall n, is_Some (s !! n) -> is_Some (s' !! n).

(** A thread reading [n] that may still call the loader: it has not
    passed line 16's call yet. *)
Definition is_pending (n : string) (t : string * pc) : bool :=
  String.eqb t.1 n && match t.2 with Entry | Miss => true | _ => false end.

Definition pending (n : string) (ts : list (string * pc)) : nat :=
  length (List.filter (is_pending n) ts).

(** ** A thread alone runs [__getattr__] *)

(** The hook is the composition of its segments, on every state. *)
Lemma getattr_segments m n w :
  __getattr__ m n w =
  match seg_entry m n w with
  | (Ok Miss, w1) =>
      match seg_load m n w1 with
      | (Ok v, w2) =>
          match seg_store m n v w2 with
          | (Ok _, w3) => seg_return m n w3
          | (Err e, w3) => (Err e, w3)
          end
      | (Err e, w2) => (Err e, w2)
      end
  | (Ok _, w1) => seg_return m n w1
  | (Err e, w1) => (Err e, w1)
  end.
Proof.
  unfold __getattr__, seg_entry, seg_load, seg_store, seg_return. se_unfold.
  repeat (case_match; simplify_eq/=; try done).
Qed.

Lemma seg_entry_cases m n w p w' : seg_entry m n w = (Ok p, w') -> p = Miss \/ p = Hit.
Proof. unfold seg_entry. se_unfold. intros H. repeat (case_match; simplify_eq/=; auto). Qed.

(** The segments are the hook: a thread that runs alone
    finishes within four segments, with the result and the state of
    [__getattr__(name)], on every state. *)
Theorem run_thread_getattr m n w :
  run_alone (thread_step m) 4 n Entry w = (Finished (__getattr__ m n w).1, (__getattr__ m n w).2).
Proof.
  rewrite getattr_segments. unfold run_alone, thread_step, settle.
  destruct (seg_entry m n w) as [[p|e] w1] eqn:He; [|done].
  destruct (seg_entry_cases m n w p w1 He) as [->| ->];
    repeat (case_match; simplify_eq/=; try done).
Qed.

(** ** The segments on a state of the invariant *)

Section Segments.
Context (l : layout) (slots : gmap string pyval) (w : world) (n : string).
Hypothesis Hr : repr l slots w.

Lemma seg_entry_undeclared :
  decl_map !! n = None ->
  seg_entry (l_mod l) n w = (Err (AttributeError ("datapkg does not have " +:+ n) None), w).
Proof.
  intros Hn. destruct (repr_globals l slots w Hr) as (d & Hm & Hav & _ & Hname & _).
  pose proof (repr_avail l slots w Hr) as Ha.
  unfold seg_entry. do 2 py_step.
  assert (l_entry l !! n = None) as He.
  { destruct (l_entry l !! n) eqn:He; [|done].
    destruct (proj1 (repr_entry_dom l slots w Hr n) (mk_is_Some _ _ He)). congruence. }
  rewrite lookup_fmap, He, bool_decide_eq_false_2 by (by intros []). cbn [negb].
  py_step. done.
Qed.

Context (e : oid) (f : string).
Hypothesis He : l_entry l !! n = Some e.
Hypothesis Hf : decl_map !! n = Some f.

Lemma seg_entry_declared :
  seg_entry (l_mod l) n w = (Ok (match slots !! n with Some _ => Hit | None => Miss end), w).
Proof.
  destruct (repr_facts l slots w n e f Hr He Hf) as (d & Hm & (Hav & _) & Ha & Hent).
  unfold seg_entry. py_step. py_step.
  rewrite lookup_fmap, He, bool_decide_eq_true_2 by done. cbn [negb]. py_run.
  unfold slot. destruct (slots !! n) as [v|] eqn:Hv; [|done].
  destruct (repr_slots l slots w Hr n v Hv) as [_ Hnone]. by destruct v.
Qed.

Lemma seg_load_declared : seg_load (l_mod l) n w = load_table "data" f w.
Proof.
  destruct (repr_facts l slots w n e f Hr He Hf) as (d & Hm & (Hav & _) & Ha & Hent).
  unfold seg_load. do 3 py_step. exact (load_csv_data l slots w f Hr).
Qed.

Lemma seg_store_declared v :
  seg_store (l_mod l) n v w = (Ok tt, with_heap (<[e := ODict (entry_dict f v)]> (w_heap w)) w).
Proof.
  destruct (repr_facts l slots w n e f Hr He Hf) as (d & Hm & (Hav & _) & Ha & Hent).
  unfold seg_store. py_run. by rewrite (dict_setitem_ok _ _ _ _ _ Hent), entry_dict_store.
Qed.

Lemma seg_return_hit v : slots !! n = Some v -> seg_return (l_mod l) n w = (Ok v, w).
Proof.
  intros Hv. destruct (repr_facts l slots w n e f Hr He Hf) as (d & Hm & (Hav & _) & Ha & Hent).
  unfold slot in Hent. rewrite Hv in Hent. unfold seg_return. py_run.
Qed.
End Segments.

(** ** Every interleaving keeps the invariant *)

Lemma thread_ok_mono s s' t : filled_le s s' -> thread_ok s t -> thread_ok s' t.
Proof. intros Hle. destruct t as [n []]; simpl; try apply Hle; auto. Qed.

Lemma filled_le_insert s n v : filled_le s (<[n := v]> s).
Proof. intros k Hk. destruct (decide (k = n)) as [->|Hne]; [by rewrite lookup_insert_eq|]. by rewrite lookup_insert_ne. Qed.

Lemma cfg_at_intro l s ts i n p w :
  repr l s w -> Forall (thread_ok s) ts -> thread_ok s (n, p) ->
  cfg_at l (<[i := (n, p)]> ts, w) /\ cache_of w = s.
Proof.
  intros Hr Hts Hp. pose proof (cache_of_repr _ _ _ Hr) as Hc. split; [|done].
  split; simpl; rewrite Hc; [done|]. by apply Forall_insert.
Qed.

Lemma frame_same_refl l w : frame_same l w w.
Proof. split_and!; done. Qed.

Lemma frame_same_trans l w1 w2 w3 : frame_same l w1 w2 -> frame_same l w2 w3 -> frame_same l w1 w3.
Proof.
  intros (Hm1 & He1 & Hh1) (Hm2 & He2 & Hh2). split_and!; [congruence|eapply same_env_trans; eauto|congruence].
Qed.

(** The load of line 16 only allocates. *)
Lemma frame_load l s w f : repr l s w -> frame_same l w (load_table "data" f w).2.
Proof.
  intros Hr. destruct (load_table_ext "data" f w) as (Hm & _ & Hh).
  split_and!; [done|apply load_table_env|apply Hh, (repr_alloc l s w Hr)].
Qed.

(** The store of line 16 writes an entry dict, not the module. *)
Lemma frame_store l s w n e o : repr l s w -> l_entry l !! n = Some e ->
  frame_same l w (with_heap (<[e := o]> (w_heap w)) w).
Proof.
  intros Hr He. split_and!; [done|done|]. simpl.
  apply lookup_insert_ne. intros Heq. apply (proj1 (proj2 (repr_distinct l s w Hr) n e He)). done.
Qed.

(** One segment of one thread keeps the invariant at the same layout,
    empties no slot and keeps the frame. *)
Lemma step_inv_at l c c' :
  cfg_at l c -> step (thread_step (l_mod l)) c c' ->
  cfg_at l c' /\ filled_le (cache_of c.2) (cache_of c'.2) /\ frame_same l c.2 c'.2.
Proof.
  intros [Hr Hts] Hstep. destruct Hstep as [ts w i n p p' w' Hi Ht]. simpl in *.
  pose proof (Forall_lookup_1 _ _ _ _ Hts Hi) as Hok.
  remember (cache_of w) as s eqn:Hs0. unfold thread_step, settle in Ht.
  destruct p as [| | v | | r]; simpl in Hok; try discriminate.
  - destruct (decl_map !! n) as [f|] eqn:Hf.
    + destruct (entry_of_decl l s w n f Hr Hf) as [e He].
      rewrite (seg_entry_declared l s w n Hr e f He Hf) in Ht. injection Ht as <- <-.
      destruct (cfg_at_intro l s ts i n (match s !! n with Some _ => Hit | None => Miss end) w Hr Hts)
        as [? ->]; [destruct (s !! n) eqn:Hs; unfold thread_ok; simpl; [rewrite Hs|rewrite Hf]; by eexists|].
      split_and!; [done|by intros k|apply frame_same_refl].
    + rewrite (seg_entry_undeclared l s w n Hr Hf) in Ht. injection Ht as <- <-.
      destruct (cfg_at_intro l s ts i n (Finished (Err (AttributeError ("datapkg does not have " +:+ n) None))) w Hr Hts I) as [Hc ->].
      split_and!; [exact Hc|by intros k|apply frame_same_refl].
  - destruct Hok as [f Hf]. destruct (entry_of_decl l s w n f Hr Hf) as [e He].
    rewrite (seg_load_declared l s w n Hr e f He Hf) in Ht.
    pose proof (repr_ext l s w _ Hr (load_table_ext "data" f w)) as Hr1.
    pose proof (frame_load l s w f Hr) as Hfr.
    destruct (load_table "data" f w) as [[v|x] w1] eqn:Hl; injection Ht as <- <-; simpl in Hr1, Hfr.
    + destruct (cfg_at_intro l s ts i n (Loaded v) w1 Hr1 Hts) as [? ->];
        [split; [eauto|exact (load_table_not_none _ _ _ _ _ Hl)]|]. split_and!; [done|by intros k|done].
    + destruct (cfg_at_intro l s ts i n (Finished (Err x)) w1 Hr1 Hts I) as [Hc ->].
      split_and!; [exact Hc|by intros k|done].
  - destruct Hok as [[f Hf] Hv]. destruct (entry_of_decl l s w n f Hr Hf) as [e He].
    rewrite (seg_store_declared l s w n Hr e f He Hf v) in Ht. injection Ht as <- <-.
    pose proof (repr_store l s w n e f v Hr He Hf Hv) as Hr1.
    destruct (cfg_at_intro l _ ts i n Hit _ Hr1
                (Forall_impl _ _ _ Hts (fun t => thread_ok_mono _ _ t (filled_le_insert s n v))))
      as [? ->]; [unfold thread_ok; simpl; by rewrite lookup_insert_eq|].
    split_and!; [done|apply filled_le_insert|exact (frame_store l s w n e _ Hr He)].
  - destruct Hok as [v Hv]. destruct (repr_slots l s w Hr n v Hv) as [[f Hf] _].
    destruct (entry_of_decl l s w n f Hr Hf) as [e He].
    rewrite (seg_return_hit l s w n Hr e f He Hf v Hv) in Ht. injection Ht as <- <-.
    destruct (cfg_at_intro l s ts i n (Finished (Ok v)) w Hr Hts I) as [Hc ->].
    split_and!; [exact Hc|by intros k|apply frame_same_refl].
Qed.

(** One segment of one thread keeps the invariant and empties no slot. *)
Lemma step_inv m c c' :
  cfg_inv m c -> step (thread_step m) c c' -> cfg_inv m c' /\ filled_le (cache_of c.2) (cache_of c'.2).
Proof.
  intros (l & <- & Hc) Hstep. destruct (step_inv_at l c c' Hc Hstep) as (Hc' & Hle & _).
  split; [by exists l|done].
Qed.

(** The layout of [imported_world]: the module, the entry dicts of
    [machines] and [persons], and [AVAILABLE], allocated in that order. *)
Definition imported_layout : layout :=
  mkLayout 0 3 (<["machines" := 1]> (<["persons" := 2]> ∅)).

Lemma imported_layout_repr : repr imported_layout (cache_of imported_world) imported_world.
Proof.
  destruct (v3_import_run example_world) as (w1 & Hrun & _ & _ & Hr).
  unfold imported_world. rewrite Hrun. simpl. by rewrite (cache_of_repr _ _ _ Hr).
Qed.

(** Threads that have not started agree with any state of version 3. *)
Lemma readers_inv name k w m :
  v3_inv w -> w_modules w !! "datapkg" = Some m -> cfg_inv m (readers name k, w).
Proof.
  intros [l Hr] Hm. exists l. split_and!; [|done|].
  - rewrite (repr_module _ _ _ Hr) in Hm. by injection Hm.
  - apply Forall_replicate. done.
Qed.

(** C21: under every interleaving of threads reading the package,
    the state stays one of version 3 at the same layout (the invariant
    [repr] of a single thread, with the same module, [AVAILABLE] and
    entry dicts), no filled slot is emptied, and [sys.modules], the files
    and the module's globals never change: the only shared state a
    segment writes is a slot [AVAILABLE[n]["cached"]] (and new objects).
    The race below loses loads, not consistency. *)
Theorem interleavings_keep_invariant l c c' :
  cfg_at l c -> rtc (step (thread_step (l_mod l))) c c' ->
  cfg_at l c' /\ filled_le (cache_of c.2) (cache_of c'.2) /\ frame_same l c.2 c'.2.
Proof.
  intros Hinv Hsteps. induction Hsteps as [c|c c1 c' Hstep _ IH].
  { split_and!; [done|by intros k|apply frame_same_refl]. }
  destruct (step_inv_at l c c1 Hinv Hstep) as (Hinv1 & Hle1 & Hfr1).
  destruct (IH Hinv1) as (Hinv' & Hle' & Hfr'). split_and!; [done| |exact (frame_same_trans _ _ _ _ Hfr1 Hfr')].
  intros k Hk. by apply Hle', Hle1.
Qed.


(** ** How many loads an interleaving makes *)

(** Only the segment of line 16's call reads a file: the loader's path. *)
Lemma thread_step_loads l s w n p p' w' :
  repr l s w -> thread_ok s (n, p) -> thread_step (l_mod l) n p w = Some (p', w') ->
  (p = Miss /\ exists f, decl_map !! n = Some f /\ w_loads w' = w_loads w ++ [resource_path "data" f]) \/
  (p <> Miss /\ w_loads w' = w_loads w).
Proof.
  intros Hr Hok Ht. unfold thread_step, settle in Ht.
  destruct p as [| | v | | r]; simpl in Hok; try discriminate; [| left | right | right].
  - right. split; [done|]. destruct (decl_map !! n) as [f|] eqn:Hf.
    + destruct (entry_of_decl l s w n f Hr Hf) as [e He].
      rewrite (seg_entry_declared l s w n Hr e f He Hf) in Ht. by injection Ht as _ <-.
    + rewrite (seg_entry_undeclared l s w n Hr Hf) in Ht. by injection Ht as _ <-.
  - destruct Hok as [f Hf]. destruct (entry_of_decl l s w n f Hr Hf) as [e He].
    rewrite (seg_load_declared l s w n Hr e f He Hf) in Ht. split; [done|]. exists f.
    split; [done|]. rewrite <- (load_table_trace "data" f w).
    destruct (load_table "data" f w) as [[]] eqn:Hl; by injection Ht as _ <-.
  - destruct Hok as [[f Hf] Hv]. destruct (entry_of_decl l s w n f Hr Hf) as [e He].
    rewrite (seg_store_declared l s w n Hr e f He Hf v) in Ht. by injection Ht as _ <-.
  - destruct Hok as [v Hv]. destruct (repr_slots l s w Hr n v Hv) as [[f Hf] _].
    destruct (entry_of_decl l s w n f Hr Hf) as [e He].
    rewrite (seg_return_hit l s w n Hr e f He Hf v Hv) in Ht. by injection Ht as _ <-.
Qed.

(** A thread past its first segment never goes back before the call. *)
Lemma thread_step_progress m n p w p' w' :
  thread_step m n p w = Some (p', w') -> p <> Entry -> p' <> Entry /\ p' <> Miss.
Proof.
  unfold thread_step, settle. intros Ht Hp.
  destruct p; try done; repeat case_match; simplify_eq; done.
Qed.

(** A step does not increase the loads of [f] plus the readers of its name
    that may still load it. *)
Lemma step_loads m c c' n f :
  cfg_inv m c -> step (thread_step m) c c' -> decl_map !! n = Some f ->
  occurrences (resource_path "data" f) (w_loads c'.2) + pending n c'.1 <=
  occurrences (resource_path "data" f) (w_loads c.2) + pending n c.1.
Proof.
  intros (l & <- & Hr & Hts) Hstep Hf. destruct Hstep as [ts w i n' p p' w' Hi Ht]. simpl.
  pose proof (Forall_lookup_1 _ _ _ _ Hts Hi) as Hok.
  pose proof (length_filter_insert (is_pending n) ts i (n', p') (n', p) Hi) as Hlen.
  unfold pending. unfold is_pending in *; simpl in Hlen.
  destruct (thread_step_loads l _ w n' p p' w' Hr Hok Ht) as [(-> & f' & Hf' & Hl)|(Hp & Hl)];
    rewrite Hl; [rewrite occurrences_app|].
  - destruct (thread_step_progress _ _ _ _ _ _ Ht ltac:(done)) as [Hp1 Hp2].
    destruct (String.eqb_spec n' n) as [->|Hne].
    + rewrite Hf in Hf'. injection Hf' as <-. rewrite occurrences_singleton_eq.
      destruct p'; try done; simpl in Hlen; lia.
    + rewrite occurrences_singleton_ne
        by (intros Heq; apply Hne; apply (v3_path_inj n' n f' f Hf' Hf); congruence).
      simpl in Hlen. lia.
  - destruct p as [| | v | | r]; [destruct (String.eqb n' n), p'; simpl in Hlen; lia|done|..];
      destruct (thread_step_progress _ _ _ _ _ _ Ht ltac:(done)) as [Hp1 Hp2];
      destruct (String.eqb n' n), p'; simpl in Hlen; try done; lia.
Qed.


Lemma pending_readers n k : pending n (readers n k) = k.
Proof.
  induction k as [|k IH]; [done|]. unfold pending, readers, is_pending in *. simpl.
  rewrite String.eqb_refl. simpl. by rewrite IH.
Qed.

Lemma rtc_loads m c c' n f :
  cfg_inv m c -> rtc (step (thread_step m)) c c' -> decl_map !! n = Some f ->
  occurrences (resource_path "data" f) (w_loads c'.2) + pending n c'.1 <=
  occurrences (resource_path "data" f) (w_loads c.2) + pending n c.1.
Proof.
  intros Hinv Hsteps Hf. induction Hsteps as [c|c c1 c' Hstep _ IH]; [done|].
  pose proof (step_loads m c c1 n f Hinv Hstep Hf).
  pose proof (proj1 (step_inv m c c1 Hinv Hstep)) as Hinv1. specialize (IH Hinv1). lia.
Qed.

(** C22: under every interleaving of [k] threads that start to
    read the dataset [n] together, the loader reads its file at most [k]
    times: each thread calls it at most once. *)
Theorem concurrent_loads_bounded m k w c' n f :
  v3_inv w -> w_modules w !! "datapkg" = Some m -> decl_map !! n = Some f ->
  rtc (step (thread_step m)) (readers n k, w) c' ->
  occurrences (resource_path "data" f) (w_loads c'.2) <=
  occurrences (resource_path "data" f) (w_loads w) + k.
Proof.
  intros Hinv Hm Hf Hsteps.
  pose proof (rtc_loads m _ c' n f (readers_inv n k w m Hinv Hm) Hsteps Hf) as Hle.
  simpl in Hle. rewrite pending_readers in Hle. lia.
Qed.

(** The state after [import datapkg] has its module at [0]. *)
Lemma imported_world_module : w_modules imported_world !! "datapkg" = Some 0.
Proof. vm_compute. reflexivity. Qed.

Lemma concurrent_loads_bounded_witness :
  let c' := default (readers "machines" 2, imported_world)
              (run_schedule (thread_step 0) race_schedule (readers "machines" 2, imported_world)) in
  occurrences (resource_path "data" "machines.csv") (w_loads c'.2) <=
  occurrences (resource_path "data" "machines.csv") (w_loads imported_world) + 2.
Proof.
  apply (concurrent_loads_bounded 0 2 imported_world _ "machines");
    [exact imported_world_inv|exact imported_world_module|reflexivity|].
  apply (run_schedule_sound (thread_step 0) race_schedule). vm_compute. reflexivity.
Defined.

(** ** Every interleaving ends, with every thread finished *)

(** Each segment moves its thread forward. *)
Lemma thread_step_rank m n p w p' w' :
  thread_step m n p w = Some (p', w') -> pc_rank p' < pc_rank p.
Proof.
  unfold thread_step, settle. intros Ht.
  destruct p; [destruct (seg_entry m n w) as [[q|e] w1] eqn:He|
               destruct (seg_load m n w) as [[]]|destruct (seg_store m n v w) as [[]]|
               destruct (seg_return m n w) as [[]]|done]; simplify_eq/=; try lia.
  destruct (seg_entry_cases m n w _ _ He) as [-> | ->]; simpl; lia.
Qed.

(** Only a finished thread has no segment left. *)
Lemma thread_step_none m n p w : thread_step m n p w = None <-> is_finished p.
Proof. by destruct p. Qed.

Lemma pc_rank_le p : pc_rank p <= 4.
Proof. destruct p; simpl; lia. Qed.

(** C23: spec section 5 does not hold of version 3: two threads
    reading [machines] together can both call the loader, and return two
    different lists; the first thread's list is not the one cached. *)
Example concurrent_double_load :
  exists c', rtc (step (thread_step 0)) (readers "machines" 2, imported_world) c' /\
    results c'.1 = [Some (Ok (VRef 4)); Some (Ok (VRef 5))] /\
    w_loads c'.2 = ["data/machines.csv"; "data/machines.csv"] /\
    cache_of c'.2 !! "machines" = Some (VRef 5).
Proof.
  exists (default (readers "machines" 2, imported_world)
            (run_schedule (thread_step 0) race_schedule (readers "machines" 2, imported_world))).
  split; [apply (run_schedule_sound (thread_step 0) race_schedule); vm_compute; reflexivity|].
  vm_compute. split_and!; reflexivity.
Qed.

Lemma interleavings_keep_invariant_witness :
  let c := (readers "machines" 2, imported_world) in
  let c' := default c (run_schedule (thread_step 0) race_schedule c) in
  cfg_at imported_layout c' /\ filled_le (cache_of c.2) (cache_of c'.2) /\
  frame_same imported_layout c.2 c'.2.
Proof.
  apply (interleavings_keep_invariant imported_layout);
    [split; [exact imported_layout_repr|apply Forall_replicate; done]|].
  apply (run_schedule_sound (thread_step 0) race_schedule). vm_compute. reflexivity.
Defined.

(** Every interleaving of threads reading version 3 is finite, and
    the threads run at most four segments each: an interleaving of the
    threads of [c] has at most [4 * length c.1] steps. *)
Theorem interleavings_terminate m c :
  sn (step (thread_step m)) c /\
  forall k c', nsteps (step (thread_step m)) k c c' -> k <= 4 * length c.1.
Proof.
  split; [exact (step_sn _ pc_rank (thread_step_rank m) c)|].
  intros k c' Hk. pose proof (nsteps_weight _ pc_rank (thread_step_rank m) _ _ _ Hk).
  pose proof (sum_list_with_le (fun t : string * pc => pc_rank t.2) 4 c.1 (fun t => pc_rank_le t.2)).
  unfold weight in *. lia.
Qed.

(** No thread reading version 3 is left waiting: an interleaving in
    which no thread can run a segment has every thread finished, and from
    every configuration some interleaving finishes every thread. *)
Theorem threads_finish m c :
  (exists c', rtc (step (thread_step m)) c c' /\ Forall (fun t => is_finished t.2) c'.1) /\
  (forall c', nf (step (thread_step m)) c' -> Forall (fun t => is_finished t.2) c'.1).
Proof.
  split.
  - exact (step_finishes _ pc_rank is_finished (thread_step_rank m) (thread_step_none m) c).
  - exact (nf_step_final _ is_finished (thread_step_none m)).
Qed.

End Interleaving.
