(* ===== verification/ConcurrencyV2.v ===== *)
(** * Version 2 under threads: [cached_property] is check-then-store

    [functools.cached_property.__get__] (Python 3.12 and later) looks the
    name up in the instance [__dict__], and on a miss calls the decorated
    function and then stores its value: it holds no lock.  A read
    [datapkg.machines] of version 2 ([SingletonV2.v2_access]) therefore
    runs in three atomic segments between which the interpreter may switch
    threads:
    - [seg_lookup]: the import, [datapkg.datapkg], the instance lookup and
      the cache check of [cached_property.__get__];
    - the call of the property's function, here [V2.machines] or
      [V2.persons] (lines 9-15), which calls [_load_csv] (lines 18-22);
    - the store of the value in the instance [__dict__] and the return.
    The threads are those of [CachedProperty] with the lookup [seg_lookup]
    and no handler.  [run_alone_v2_access] shows that the three segments
    run alone are [v2_access]; version 2 discharges the interface
    [CPPackage] ([v2_cp]), whence the bound on loads
    ([concurrent_loads_bounded_v2]), termination and liveness; the
    [Example] below is a schedule of two readers under which both load
    and print, and each returns its own table. *)

From stdpp Require Import base gmap list relations strings.
From S2P Require Import Prelude PyRuntime Attr Registry SingletonV2 Scheduler CachedProperty.
Local Open Scope se_scope.

Module Interleaving2.
Import V2 CachedProp.

(** The lookup segment: [v2_access] up to the cache check of
    [cached_property.__get__]; no frame of the code has a [try]. *)
Definition seg_lookup (pkg name : string) : PyM cp_pc :=
  let* m := import_module pkg in
  let* inst := module_getattro (call1 m) m "datapkg" in
  getattr_prefix (class_of m) no_handler inst name.

(** One segment of a thread reading [name] of package [pkg]. *)
Definition thread_step2 (pkg : string) : string -> cp_pc -> world -> option (cp_pc * world) :=
  cp_step (seg_lookup pkg).

(** Both threads miss, both call [machines], then both store. *)
Definition race_schedule2 : list nat := [0; 1; 0; 1; 0; 1].

(** ** The segments on a state of the invariant *)

Section Segments.
Context (l : layout2) (s : gmap string pyval) (w : world) (n : string).
Hypothesis Hr : repr2 l s w.

(** The lookup reads the state and changes nothing; the position it
    returns agrees with the package. *)
Lemma seg_lookup_pure :
  exists r, seg_lookup "datapkg" n w = (r, w) /\
    forall q, r = Ok q -> cp_thread_ok repr2 l2_inst decl2 (load_logged "data") l (n, q).
Proof.
  pose proof (repr2_module l s w Hr). destruct (repr2_globals l s w Hr) as (d & Hm & Hi & _).
  pose proof (inst_dict_ok _ _ _ _ (repr2_inst _ _ _ Hr)) as Hd.
  unfold seg_lookup. rewrite (se_bind_ok _ _ _ _ _ (import_module_ok _ _ _ H)).
  rewrite (se_bind_ok _ _ _ _ _ (module_getattro_global _ _ _ _ _ Hm _ _ Hi ltac:(done) ltac:(done))).
  rewrite (getattr_prefix_inst _ _ _ _ _ _ _ _ (repr2_inst _ _ _ Hr) eq_refl).
  destruct (mro_lookup n (cls_mro (_loader (l2_mod l)))) as [[body| | |v|]|] eqn:Hb;
    try (destruct (s !! n); (eexists; split; [reflexivity|by intros q [= <-]])).
  destruct (s !! n) eqn:Hs; [eexists; split; [reflexivity|by intros q [= <-]]|].
  eexists. split; [reflexivity|]. intros q [= <-]. split; [done|].
  destruct (loader2_cached_declared _ _ _ Hb) as [fn Hfn]. exists fn. split; [done|].
  destruct (loader2_cached_property (l2_mod l) n fn Hfn) as (body' & Hb' & Hbody).
  rewrite Hb in Hb'. injection Hb' as <-. intros s' w' Hr'. exact (Hbody l s' _ w' Hr' eq_refl).
Qed.

(** The store writes the instance [__dict__]. *)
Lemma seg_store_inst v :
  inst_dict_set (l2_inst l) n v w =
  (Ok tt, with_heap (<[l2_inst l := OInst "_loader" (<[n := v]> s)]> (w_heap w)) w).
Proof.
  unfold inst_dict_set. rewrite (se_bind_ok _ _ _ _ _ (inst_dict_ok _ _ _ _ (repr2_inst _ _ _ Hr))).
  reflexivity.
Qed.
End Segments.

(** The lookup never leaves a thread before its read. *)
Lemma seg_lookup_not_start pkg n w q w' : seg_lookup pkg n w = (Ok q, w') -> q <> Start.
Proof.
  unfold seg_lookup. se_unfold. intros H.
  repeat (case_match; simplify_eq/=; try done). exact (getattr_prefix_not_start _ _ _ _ _ _ _ H).
Qed.

(** The store writes the instance [__dict__] and keeps the invariant. *)
Lemma v2_store l s w n v :
  repr2 l s w -> is_Some (decl2 !! n) ->
  exists s' w', inst_dict_set (l2_inst l) n v w = (Ok tt, w') /\ repr2 l s' w' /\ w_loads w' = w_loads w.
Proof. intros Hr Hd. do 2 eexists. split_and!; [exact (seg_store_inst l s w n Hr v)|by apply repr2_store|done]. Qed.

(** Version 2 is a package read through a [cached_property]. *)
#[export] Instance v2_cp : CPPackage := {|
  cpp_layout := layout2;
  cpp_repr := repr2;
  cpp_inst := l2_inst;
  cpp_decl := decl2;
  cpp_path := resource_path "data";
  cpp_load := load_logged "data";
  cpp_lookup := seg_lookup "datapkg";
  cpp_lookup_not_start := seg_lookup_not_start "datapkg";
  cpp_lookup_ok l s w n Hr :=
    let '(ex_intro _ r (conj Hl Hq)) := seg_lookup_pure l s w n Hr in
    ex_intro _ r (ex_intro _ w (conj Hl (conj Hr (conj eq_refl Hq))));
  cpp_store := v2_store;
  cpp_load_repr l s w f Hr := repr2_ext _ _ _ _ Hr (load_logged_ext "data" f w);
  cpp_load_trace := load_logged_trace "data";
  cpp_load_not_attr := load_logged_err_not_attr "data";
  cpp_path_inj := v2_path_inj
|}.

(** ** Properties *)

(** A thread of version 2 run alone finishes within three segments,
    with the result and the state of the sequential read [v2_access]:
    the segments split [object.__getattribute__] and
    [cached_property.__get__] without changing them. *)
Theorem run_alone_v2_access pkg n w :
  run_alone (thread_step2 pkg) 3 n Start w =
  (Done (v2_access pkg n w).1, (v2_access pkg n w).2).
Proof.
  unfold run_alone, thread_step2, cp_step, settle_in, no_handler, v2_access, seg_lookup,
    getattr_prefix, getattr_object, object_getattribute, cached_property_get.
  se_unfold. repeat (case_match; simplify_eq/=; try done).
Qed.

(** C26: under every interleaving of [k] threads that start to read the
    dataset [n] of version 2 together, the state stays one of version 2
    and the loader reads its file at most [k] times: each thread calls the
    property's function at most once. *)
Theorem concurrent_loads_bounded_v2 k w c' n f :
  v2_inv w -> decl2 !! n = Some f ->
  rtc (step (thread_step2 "datapkg")) (cp_readers n k, w) c' ->
  v2_inv c'.2 /\
  occurrences (resource_path "data" f) (w_loads c'.2) <=
  occurrences (resource_path "data" f) (w_loads w) + k.
Proof.
  intros [l Hr] Hf Hsteps.
  destruct (cpp_loads_bounded (H := v2_cp) l _ w k c' n f Hr Hf Hsteps) as [(l' & s' & Hr') Hle].
  split; [exists l'; by rewrite (inst_slots_repr _ _ _ Hr')|exact Hle].
Qed.

Lemma concurrent_loads_bounded_v2_witness :
  let c' := default (cp_readers "machines" 2, v2_world)
              (run_schedule (thread_step2 "datapkg") race_schedule2 (cp_readers "machines" 2, v2_world)) in
  v2_inv c'.2 /\
  occurrences (resource_path "data" "machines.csv") (w_loads c'.2) <=
  occurrences (resource_path "data" "machines.csv") (w_loads v2_world) + 2.
Proof.
  apply (concurrent_loads_bounded_v2 2 v2_world _ "machines");
    [exact v2_world_inv|reflexivity|].
  apply (run_schedule_sound (thread_step2 "datapkg") race_schedule2). vm_compute. reflexivity.
Defined.

(** C27: two threads reading [datapkg.machines] of version 2 can both
    miss the cache: the loader then reads [machines.csv] twice, prints
    ["loading machines.csv"] twice, and the threads get two different
    tables; the instance keeps the second. *)
Example concurrent_double_load_v2 :
  exists c', rtc (step (thread_step2 "datapkg")) (cp_readers "machines" 2, v2_world) c' /\
    cp_results c'.1 = [Some (Ok (VRef 2)); Some (Ok (VRef 3))] /\
    w_loads c'.2 = ["data/machines.csv"; "data/machines.csv"] /\
    w_stdout c'.2 = ["loading machines.csv"; "loading machines.csv"] /\
    inst_slots c'.2 !! "machines" = Some (VRef 3).
Proof.
  destruct (run_schedule (thread_step2 "datapkg") race_schedule2 (cp_readers "machines" 2, v2_world))
    as [c'|] eqn:Hrun; [|vm_compute in Hrun; discriminate].
  exists c'. split; [exact (run_schedule_sound _ race_schedule2 _ _ Hrun)|].
  vm_compute in Hrun. injection Hrun as <-. split_and!; reflexivity.
Qed.

(** Every interleaving of threads reading version 2 is finite, of at
    most three segments per thread. *)
Theorem interleavings2_terminate pkg c :
  sn (step (thread_step2 pkg)) c /\
  forall k c', nsteps (step (thread_step2 pkg)) k c c' -> k <= 3 * length c.1.
Proof. exact (cp_interleavings_terminate _ (seg_lookup_not_start pkg) c). Qed.

(** No thread reading version 2 is left waiting: an interleaving in
    which no thread can run has every thread finished, and from every
    configuration some interleaving finishes every thread. *)
Theorem threads2_finish pkg c :
  (exists c', rtc (step (thread_step2 pkg)) c c' /\ Forall (fun t => cp_done t.2) c'.1) /\
  (forall c', nf (step (thread_step2 pkg)) c' -> Forall (fun t => cp_done t.2) c'.1).
Proof. exact (cp_threads_finish _ (seg_lookup_not_start pkg) c). Qed.

End Interleaving2.
