(* ===== verification/ConcurrencyV1.v ===== *)
(** * Version 1 under threads: the [LazyModule] over a [cached_property]

    A client's [datapkg.machines] of version 1 ([DatapkgV1.v1_access])
    misses the [LazyModule]'s [__dict__], enters [LazyModule.__getattr__]
    (lines 26-43), whose [try] reads [self._loader] and calls
    [getattr(self._loader, name)]: [object.__getattribute__] on the loader
    instance, then [functools.cached_property.__get__], which calls the
    property ([V1.machines], lines 7-9, i.e. [load_csv]) and stores its
    value in the loader's [__dict__] without a lock.  The read is the three
    segments of [CachedProperty]: [seg_lookup1] up to the cache check, the
    call, the store; the call and the store run inside the [try] of
    [__getattr__], whose [except AttributeError] clause
    ([Package.LazyModule_except], lines 40-43) the thread carries.

    [run_alone_v1_access] shows that the segments run alone are
    [v1_access].  Version 1 discharges the interface [CPPackage]
    ([v1_cp]), so every interleaving of [k] readers keeps the invariant
    [repr1] and loads at most [k] times ([concurrent_loads_bounded_v1]),
    terminates and finishes every thread; [concurrent_double_load_v1] is a
    schedule of two readers under which both load and print, and each
    returns its own table. *)

From stdpp Require Import base gmap list relations strings.
From S2P Require Import Prelude PyRuntime Attr LoaderV1 DatapkgV1 Scheduler CachedProperty.
Local Open Scope se_scope.

Module Interleaving1.
Import Package V1 CachedProp.

(** The lookup segment: [getattr(module, name)] up to the cache check of
    [cached_property.__get__]; the part inside [LazyModule.__getattr__]
    runs in its [try]. *)
Definition seg_lookup1 (pkg name : string) : PyM cp_pc :=
  let* m := import_module pkg in
  let* o := deref m in
  match o with
  | OModule LazyModuleType _ =>
      catch_attribute_error
        (let* v := module_getattro no_call m name in return (Done (Ok v)))
        (fun _ =>
           catch_attribute_error
             (let* loader := module_own_attr m "_loader" in
              getattr_prefix class_of (LazyModule_except m name) loader name)
             (fun exc => let* v := LazyModule_except m name exc in return (Done (Ok v))))
  | OModule ModuleType _ => let* v := module_getattro no_call m name in return (Done (Ok v))
  | _ => raise (TypeError "not a module")
  end.

(** One segment of a thread reading [name] of package [pkg]. *)
Definition thread_step1 (pkg : string) : string -> cp_pc -> world -> option (cp_pc * world) :=
  cp_step (seg_lookup1 pkg).

(** Both threads miss, both call [machines], then both store. *)
Definition race_schedule1 : list nat := [0; 1; 0; 1; 0; 1].

(** ** The segments on a state of the invariant *)

Lemma seg_lookup1_not_start pkg n w q w' : seg_lookup1 pkg n w = (Ok q, w') -> q <> Start.
Proof.
  unfold seg_lookup1, catch_attribute_error, se_catch. se_unfold. intros H.
  repeat (case_match; simplify_eq/=; try done);
    match goal with Hp : getattr_prefix _ _ _ _ _ = _ |- _ => exact (getattr_prefix_not_start _ _ _ _ _ _ _ Hp) end.
Qed.

(** On a state of version 1, the lookup reads the state and changes at
    most the [LazyModule]'s [__annotations__]; a thread it leaves about to
    call calls a dataset's loader on the loader instance. *)
Lemma seg_lookup1_ok l s w n :
  repr1 l s w -> exists r w1, seg_lookup1 "datapkg" n w = (r, w1) /\ repr1 l s w1 /\
    w_loads w1 = w_loads w /\
    forall q, r = Ok q -> cp_thread_ok repr1 l1_loader decl1 (load_logged "data") l (n, q).
Proof.
  intros Hr. pose proof (repr1_module l s w Hr) as Hmod. destruct (repr1_alloc l s w Hr) as [Ham _].
  destruct (repr1_globals l s w Hr) as (d & Hm & Hld & Hname & Hga & _ & _).
  unfold seg_lookup1. rewrite (se_bind_ok _ _ _ _ _ (import_module_ok _ _ _ Hmod)).
  rewrite (se_bind_ok _ _ _ _ _ (deref_ok _ _ _ Hm)). cbv beta iota.
  unfold catch_attribute_error at 1.
  destruct (module_getattro_cases no_call (l1_mod l) w LazyModuleType d Hm n ltac:(lia))
    as [(Hn & Ht & Hv)|[[v Hv]|(_ & _ & Hv)]].
  2:{ exists (Ok (Done (Ok v))), w. split_and!; [|done|done|by intros q [= <-]].
      apply se_catch_ok. by rewrite (se_bind_ok _ _ _ _ _ Hv). }
  2:{ eexists _, _. split_and!; [apply se_catch_ok; by rewrite (se_bind_ok _ _ _ _ _ Hv)|
                                 exact (repr1_annotate l s w d Hr Hm)|done|by intros q [= <-]]. }
  rewrite Hga in Hv.
  rewrite (se_catch_err _ _ _ _ _ (se_bind_err _ _ _ _ _ Hv)).
  cbv beta iota. unfold catch_attribute_error, se_catch.
  rewrite (se_bind_ok _ _ _ _ _ (module_own_attr_ok _ _ _ _ _ _ Hm Hld)).
  rewrite (getattr_prefix_inst _ _ _ _ _ _ _ _ (repr1_loader l s w Hr) class_of_Loader).
  destruct (mro_lookup n (cls_mro _Loader)) as [[body| | |x|]|] eqn:Hb;
    try (destruct (s !! n); (eexists _, w; split_and!; [reflexivity|exact Hr|done|by intros q [= <-]])).
  - destruct (s !! n) eqn:Hs; [eexists _, w; split_and!; [reflexivity|exact Hr|done|by intros q [= <-]]|].
    eexists _, w. split_and!; [reflexivity|exact Hr|done|]. intros q [= <-]. split; [done|].
    destruct (Loader_cached_declared _ _ Hb) as [fn Hfn]. exists fn. split; [done|].
    destruct (Loader_cached_property n fn Hfn) as (body' & Hb' & Hbody).
    rewrite Hb in Hb'. injection Hb' as <-. intros s' w' _. apply Hbody.
  - destruct (s !! n) as [x|] eqn:Hs.
    { eexists _, w. split_and!; [reflexivity|exact Hr|done|by intros q [= <-]]. }
    cbv beta iota. unfold LazyModule_except. rewrite se_bind_assoc.
    rewrite (se_bind_ok _ _ _ _ _ (module_own_attr_ok _ _ _ _ _ _ Hm Hname)).
    eexists _, w. split_and!; [reflexivity|exact Hr|done|done].
Qed.

(** The store writes the loader's [__dict__] and keeps the invariant. *)
Lemma v1_store l s w n v :
  repr1 l s w -> is_Some (decl1 !! n) ->
  exists s' w', inst_dict_set (l1_loader l) n v w = (Ok tt, w') /\ repr1 l s' w' /\ w_loads w' = w_loads w.
Proof.
  intros Hr Hd. do 2 eexists. split_and!; [|by apply repr1_store|done].
  unfold inst_dict_set. by rewrite (se_bind_ok _ _ _ _ _ (loader_inst l s w Hr)).
Qed.

(** Version 1 is a package read through a [cached_property]. *)
#[export] Instance v1_cp : CPPackage := {|
  cpp_layout := layout1;
  cpp_repr := repr1;
  cpp_inst := l1_loader;
  cpp_decl := decl1;
  cpp_path := resource_path "data";
  cpp_load := load_logged "data";
  cpp_lookup := seg_lookup1 "datapkg";
  cpp_lookup_not_start := seg_lookup1_not_start "datapkg";
  cpp_lookup_ok := seg_lookup1_ok;
  cpp_store := v1_store;
  cpp_load_repr l s w f Hr := repr1_ext _ _ _ _ Hr (load_logged_ext "data" f w);
  cpp_load_trace := load_logged_trace "data";
  cpp_load_not_attr := load_logged_err_not_attr "data";
  cpp_path_inj := v1_path_inj
|}.

(** ** Properties *)

(** A thread of version 1 run alone finishes within three segments,
    with the result and the state of the sequential read [v1_access]: the
    segments split [getattr] on the [LazyModule], its [__getattr__] and
    [cached_property.__get__], exception chaining included, without
    changing them. *)
Theorem run_alone_v1_access pkg n w :
  run_alone (thread_step1 pkg) 3 n Start w =
  (Done (v1_access pkg n w).1, (v1_access pkg n w).2).
Proof.
  unfold run_alone, thread_step1, cp_step, settle_in, no_handler, seg_lookup1, getattr_prefix,
    v1_access, getattr_module, LazyModule_getattr, LazyModule_except, catch_attribute_error,
    se_catch, getattr_object, object_getattribute, cached_property_get.
  se_unfold. repeat (case_match; simplify_eq/=; try done).
Qed.

(** C24: under every interleaving of [k] threads that start to read the
    dataset [n] of version 1 together, the state stays one of version 1
    and the loader reads its file at most [k] times: each thread calls the
    property's function at most once. *)
Theorem concurrent_loads_bounded_v1 k w c' n f :
  v1_inv w -> decl1 !! n = Some f ->
  rtc (step (thread_step1 "datapkg")) (cp_readers n k, w) c' ->
  v1_inv c'.2 /\
  occurrences (resource_path "data" f) (w_loads c'.2) <=
  occurrences (resource_path "data" f) (w_loads w) + k.
Proof.
  intros [l Hr] Hf Hsteps.
  destruct (cpp_loads_bounded (H := v1_cp) l _ w k c' n f Hr Hf Hsteps) as [(l' & s' & Hr') Hle].
  split; [exists l'; by rewrite (loader_slots_repr _ _ _ Hr')|exact Hle].
Qed.

Lemma concurrent_loads_bounded_v1_witness :
  let c' := default (cp_readers "machines" 2, v1_world)
              (run_schedule (thread_step1 "datapkg") race_schedule1 (cp_readers "machines" 2, v1_world)) in
  v1_inv c'.2 /\
  occurrences (resource_path "data" "machines.csv") (w_loads c'.2) <=
  occurrences (resource_path "data" "machines.csv") (w_loads v1_world) + 2.
Proof.
  apply (concurrent_loads_bounded_v1 2 v1_world _ "machines"); [exact v1_world_inv|reflexivity|].
  apply (run_schedule_sound (thread_step1 "datapkg") race_schedule1). vm_compute. reflexivity.
Defined.

(** C25: two threads reading [datapkg.machines] of version 1 can both
    miss the loader's [__dict__]: [machines.csv] is read twice,
    ["loading machines.csv"] is printed twice, the threads get two
    different tables, and the loader keeps the second. *)
Example concurrent_double_load_v1 :
  exists c', rtc (step (thread_step1 "datapkg")) (cp_readers "machines" 2, v1_world) c' /\
    cp_results c'.1 = [Some (Ok (VRef 4)); Some (Ok (VRef 5))] /\
    w_loads c'.2 = ["data/machines.csv"; "data/machines.csv"] /\
    w_stdout c'.2 = ["loading machines.csv"; "loading machines.csv"] /\
    loader_slots c'.2 !! "machines" = Some (VRef 5).
Proof.
  destruct (run_schedule (thread_step1 "datapkg") race_schedule1 (cp_readers "machines" 2, v1_world))
    as [c'|] eqn:Hrun; [|vm_compute in Hrun; discriminate].
  exists c'. split; [exact (run_schedule_sound _ race_schedule1 _ _ Hrun)|].
  vm_compute in Hrun. injection Hrun as <-. split_and!; reflexivity.
Qed.

(** Every interleaving of threads reading version 1 is finite, of at
    most three segments per thread, and ends with every thread finished. *)
Theorem interleavings1_terminate pkg c :
  sn (step (thread_step1 pkg)) c /\
  forall k c', nsteps (step (thread_step1 pkg)) k c c' -> k <= 3 * length c.1.
Proof. exact (cp_interleavings_terminate _ (seg_lookup1_not_start pkg) c). Qed.

Theorem threads1_finish pkg c :
  (exists c', rtc (step (thread_step1 pkg)) c c' /\ Forall (fun t => cp_done t.2) c'.1) /\
  (forall c', nf (step (thread_step1 pkg)) c' -> Forall (fun t => cp_done t.2) c'.1).
Proof. exact (cp_threads_finish _ (seg_lookup1_not_start pkg) c). Qed.

End Interleaving1.
