(* ===== verification/Variants.v ===== *)
(** * The three versions agree on the datasets

    Spec section 4.2 requires the three strategies to behave alike: the
    same values, the same failures, the same "loaded once".  Imported into
    the same process, versions 1, 2 and 3 answer every sequence of reads of
    declared datasets with the same successes and the same loader
    exceptions, and read the same files in the same order; each reads
    exactly the files of the datasets it first reads from an empty slot,
    in that order ([reads_load_in_first_order]).  They differ
    where the theorems of their own files say so: the exception for an
    unknown name, the names besides the datasets that resolve, and the
    output (versions 1 and 2 print a line per load, version 3 prints
    nothing). *)

From stdpp Require Import base gmap strings list.
From S2P Require Import Prelude PyRuntime Attr Registry HookV3 LoaderV1 DatapkgV1 SingletonV2.
Local Open Scope se_scope.

Module Variants.

Lemma decl1_decl_map : V1.decl1 = V3.decl_map.
Proof. vm_compute. reflexivity. Qed.

Lemma decl2_decl_map : V2.decl2 = V3.decl_map.
Proof. vm_compute. reflexivity. Qed.

(** The first import of version 3 into a process: its state and cache. *)
Lemma v3_import_agree_facts w0 :
  let w3 := (V3.v3_import "datapkg" w0).2 in
  V3.v3_inv w3 /\ same_env w3 w0 /\ w_loads w3 = w_loads w0 /\ V3.cache_of w3 = ∅.
Proof.
  destruct (V3.v3_import_run w0) as (w3 & -> & Hl & He & Hr). simpl.
  rewrite (V3.cache_of_repr _ _ _ Hr). split_and!; [|done|done|done].
  eexists. by rewrite (V3.cache_of_repr _ _ _ Hr).
Qed.

(** Two namespaces, fresh from the same process, start related. *)
Lemma agree_start (N1 N2 : LazyNamespace) w0 w1 w2 :
  @ln_inv N1 w1 -> @ln_inv N2 w2 -> same_env w1 w0 -> same_env w2 w0 ->
  w_loads w1 = w_loads w0 -> w_loads w2 = w_loads w0 ->
  @ln_cache N1 w1 = ∅ -> @ln_cache N2 w2 = ∅ -> agree N1 N2 w1 w2.
Proof.
  intros Hi1 Hi2 He1 He2 Hl1 Hl2 Hc1 Hc2. split_and!; [done|done| |congruence|].
  - eapply same_env_trans; [exact He1|]. by apply same_env_sym.
  - intros n. rewrite Hc1, Hc2, !lookup_empty. done.
Qed.

(** C4: versions 1 and 3, each imported into the same process,
    answer any sequence of reads of declared datasets with the same
    successes and the same loader exceptions, and read the same files in
    the same order. *)
Theorem v1_v3_agree w0 ns :
  Forall (fun n => is_Some (V3.decl_map !! n)) ns ->
  let r1 := run_accesses (H := V1.v1_namespace) ns (V1.v1_import "datapkg" w0).2 in
  let r3 := run_accesses (H := V3.v3_namespace) ns (V3.v3_import "datapkg" w0).2 in
  map raised r1.1 = map raised r3.1 /\ w_loads r1.2 = w_loads r3.2.
Proof.
  intros Hns.
  destruct (V1.v1_import_run w0) as (w1 & d & Hrun & Hl1 & _ & He1 & _ & _ & Hr1).
  destruct (v3_import_agree_facts w0) as (Hi3 & He3 & Hl3 & Hc3).
  assert (agree V1.v1_namespace V3.v3_namespace w1 (V3.v3_import "datapkg" w0).2) as Hag.
  { apply (agree_start _ _ w0); try done.
    - eexists. by rewrite (V1.loader_slots_repr _ _ _ Hr1).
    - exact (V1.loader_slots_repr _ _ _ Hr1). }
  rewrite Hrun. simpl.
  destruct (agree_run V1.v1_namespace V3.v3_namespace decl1_decl_map (fun _ => eq_refl)
              (fun f w w' => load_logged_raised "data" f w w') ns _ _ Hag)
    as [Hrs (_ & _ & _ & Hloads & _)]; [simpl; by rewrite decl1_decl_map|].
  done.
Qed.

Lemma v1_v3_agree_witness :
  let ns := ["machines"; "persons"; "machines"] in
  let r1 := run_accesses (H := V1.v1_namespace) ns (V1.v1_import "datapkg" broken_world).2 in
  let r3 := run_accesses (H := V3.v3_namespace) ns (V3.v3_import "datapkg" broken_world).2 in
  map raised r1.1 = map raised r3.1 /\ w_loads r1.2 = w_loads r3.2.
Proof. apply v1_v3_agree. repeat constructor; by eexists. Defined.

(** C5: versions 2 and 3, each imported into the same process,
    answer any sequence of reads of declared datasets with the same
    successes and the same loader exceptions, and read the same files in
    the same order. *)
Theorem v2_v3_agree w0 ns :
  Forall (fun n => is_Some (V3.decl_map !! n)) ns ->
  let r2 := run_accesses (H := V2.v2_namespace) ns (V2.v2_import "datapkg" w0).2 in
  let r3 := run_accesses (H := V3.v3_namespace) ns (V3.v3_import "datapkg" w0).2 in
  map raised r2.1 = map raised r3.1 /\ w_loads r2.2 = w_loads r3.2.
Proof.
  intros Hns.
  destruct (V2.v2_import_run w0) as (w2 & Hrun & Hl2 & _ & He2 & Hr2).
  destruct (v3_import_agree_facts w0) as (Hi3 & He3 & Hl3 & Hc3).
  assert (agree V2.v2_namespace V3.v3_namespace w2 (V3.v3_import "datapkg" w0).2) as Hag.
  { apply (agree_start _ _ w0); try done.
    - eexists. by rewrite (V2.inst_slots_repr _ _ _ Hr2).
    - exact (V2.inst_slots_repr _ _ _ Hr2). }
  rewrite Hrun. simpl.
  destruct (agree_run V2.v2_namespace V3.v3_namespace decl2_decl_map (fun _ => eq_refl)
              (fun f w w' => load_logged_raised "data" f w w') ns _ _ Hag)
    as [Hrs (_ & _ & _ & Hloads & _)]; [simpl; by rewrite decl2_decl_map|].
  done.
Qed.

Lemma v2_v3_agree_witness :
  let ns := ["persons"; "machines"; "persons"] in
  let r2 := run_accesses (H := V2.v2_namespace) ns (V2.v2_import "datapkg" broken_world).2 in
  let r3 := run_accesses (H := V3.v3_namespace) ns (V3.v3_import "datapkg" broken_world).2 in
  map raised r2.1 = map raised r3.1 /\ w_loads r2.2 = w_loads r3.2.
Proof. apply v2_v3_agree. repeat constructor; by eexists. Defined.

(** A run of [ns] from [w] read through [N] loads the sources of
    [first_loads w ns] (the datasets whose slot is empty, in the order of
    their first read), each once, and prints their log lines in that
    order. *)
Definition loads_in_first_order (N : LazyNamespace) (ns : list string) (w : world) : Prop :=
  let fs := first_loads (H := N) w ns in
  w_loads (run_accesses (H := N) ns w).2 = w_loads w ++ map ln_path fs /\
  w_stdout (run_accesses (H := N) ns w).2 = w_stdout w ++ concat (map ln_log fs) /\
  NoDup (map ln_path fs).

(** A process whose [persons.csv] is empty: [csv.reader] gives no row and
    the loaders return an empty list. *)
Definition sparse_world : world :=
  with_files (<["data/persons.csv" := CsvFile []]> example_files) example_world.

(** A run with no failed read. *)
Definition no_failure (rs : list (result exc pyval)) : Prop := Forall (fun r => exists v, r = Ok v) rs.

Lemma ordered_run (N : LazyNamespace) ns w :
  @ln_inv N w -> Forall (fun n => is_Some (@ln_decl N !! n)) ns ->
  no_failure (run_accesses (H := N) ns w).1 -> loads_in_first_order N ns w.
Proof.
  intros Hinv Hns Hok. destruct (run_load_order ns w Hinv Hns Hok).
  split_and!; [done|done|exact (first_loads_NoDup w ns Hns)].
Qed.

(** The import of each version establishes its invariant. *)
Lemma imports_inv w0 :
  V1.v1_inv (V1.v1_import "datapkg" w0).2 /\ V2.v2_inv (V2.v2_import "datapkg" w0).2 /\
  V3.v3_inv (V3.v3_import "datapkg" w0).2.
Proof.
  destruct (V1.v1_import_run w0) as (w1 & d & -> & _ & _ & _ & _ & _ & Hr1).
  destruct (V2.v2_import_run w0) as (w2 & -> & _ & _ & _ & Hr2).
  destruct (v3_import_agree_facts w0) as [Hi3 _].
  simpl. split_and!; [eexists; by rewrite (V1.loader_slots_repr _ _ _ Hr1)|
               eexists; by rewrite (V2.inst_slots_repr _ _ _ Hr2)|exact Hi3].
Qed.

(** Each version's fresh state from the examples has a well-formed heap
    and an empty, hence typed, cache. *)
Lemma example_states_typed :
  (heap_wf V1.v1_world /\ cache_typed (H := V1.v1_namespace) V1.v1_world) /\
  (heap_wf V2.v2_world /\ cache_typed (H := V2.v2_namespace) V2.v2_world) /\
  (heap_wf V3.imported_world /\ cache_typed (H := V3.v3_namespace) V3.imported_world).
Proof.
  split_and!; try (apply heap_wfb_spec; vm_compute; reflexivity);
    intros n v Hv; vm_compute in Hv; discriminate.
Qed.

(** C6: spec section 3 types [get] as returning a table: in each of the
    three versions, over any sequence of reads of declared datasets from a
    state of the package whose cached values are tables, every read that
    returns gives a table (a list of rows of strings in the heap), the
    cache keeps holding tables and the heap stays well formed. *)
Theorem reads_return_tables ns :
  Forall (fun n => is_Some (V3.decl_map !! n)) ns ->
  (forall w, V1.v1_inv w -> heap_wf w -> cache_typed (H := V1.v1_namespace) w ->
     reads_typed (H := V1.v1_namespace) (run_accesses (H := V1.v1_namespace) ns w)) /\
  (forall w, V2.v2_inv w -> heap_wf w -> cache_typed (H := V2.v2_namespace) w ->
     reads_typed (H := V2.v2_namespace) (run_accesses (H := V2.v2_namespace) ns w)) /\
  (forall w, V3.v3_inv w -> heap_wf w -> cache_typed (H := V3.v3_namespace) w ->
     reads_typed (H := V3.v3_namespace) (run_accesses (H := V3.v3_namespace) ns w)).
Proof.
  intros Hns. split_and!; intros w Hinv Hwf Ht; apply run_typed; try done.
Qed.

Lemma reads_return_tables_witness :
  let ns := ["machines"; "persons"; "machines"] in
  reads_typed (H := V1.v1_namespace) (run_accesses (H := V1.v1_namespace) ns V1.v1_world) /\
  reads_typed (H := V2.v2_namespace) (run_accesses (H := V2.v2_namespace) ns V2.v2_world) /\
  reads_typed (H := V3.v3_namespace) (run_accesses (H := V3.v3_namespace) ns V3.imported_world).
Proof.
  destruct example_states_typed as ([Hw1 Ht1] & [Hw2 Ht2] & [Hw3 Ht3]).
  destruct (reads_return_tables ["machines"; "persons"; "machines"]) as (H1 & H2 & H3);
    [repeat constructor; by eexists|].
  split_and!; [apply H1; [exact V1.v1_world_inv|..]|apply H2; [exact V2.v2_world_inv|..]|
               apply H3; [exact V3.imported_world_inv|..]]; assumption.
Defined.

(** C7: the loader's trace follows the order of first reference: in each
    of the three versions, a run of reads of declared datasets in which no
    load fails reads the source of each dataset whose slot was empty, once,
    in the order in which the run first reads it, and nothing else;
    versions 1 and 2 print ["loading <file>"] for each, in the same order,
    and version 3 prints nothing. *)
Theorem reads_load_in_first_order ns :
  Forall (fun n => is_Some (V3.decl_map !! n)) ns ->
  (forall w, V1.v1_inv w -> no_failure (run_accesses (H := V1.v1_namespace) ns w).1 ->
     loads_in_first_order V1.v1_namespace ns w) /\
  (forall w, V2.v2_inv w -> no_failure (run_accesses (H := V2.v2_namespace) ns w).1 ->
     loads_in_first_order V2.v2_namespace ns w) /\
  (forall w, V3.v3_inv w -> no_failure (run_accesses (H := V3.v3_namespace) ns w).1 ->
     loads_in_first_order V3.v3_namespace ns w).
Proof.
  intros Hns. split_and!; intros w Hinv Hok; by apply ordered_run.
Qed.

Lemma reads_load_in_first_order_witness :
  let ns := ["persons"; "machines"; "persons"] in
  loads_in_first_order V1.v1_namespace ns (V1.v1_import "datapkg" sparse_world).2 /\
  loads_in_first_order V2.v2_namespace ns (V2.v2_import "datapkg" sparse_world).2 /\
  loads_in_first_order V3.v3_namespace ns (V3.v3_import "datapkg" sparse_world).2.
Proof.
  destruct (imports_inv sparse_world) as (Hi1 & Hi2 & Hi3).
  destruct (reads_load_in_first_order ["persons"; "machines"; "persons"]) as (H1 & H2 & H3);
    [repeat constructor; by eexists|].
  split_and!; [apply H1|apply H2|apply H3]; try assumption;
    vm_compute; repeat constructor; eexists; reflexivity.
Defined.

End Variants.
